(** * capybara.node.matchers : the [MatchersMixin] assertions and predicates

    A shallow embedding of [src/capybara/node/matchers.py].  The mixin is
    written against a host class (the node it is mixed into) and a handful of
    imported collaborators: [synchronize], [find_first], [query_scope], the
    three query classes, the helpers [expects_none] and [matches_count], and
    the module globals of [capybara].  None of them lives in this file of the
    repository, so they are the fields of the [Host] interface below and every
    method of the mixin is a function of a host.

    Effects are explicit: a method is a state transformer over a [World]
    (document, session, clock) that either returns a value or raises. *)

From Stdlib Require Import ZArith Bool List Lia.
From stdpp Require Import gmap strings list fin_maps.

Open Scope string_scope.

(** ** Python values, keyword options and elements *)

(** The values that reach the mixin as positional arguments and keyword
    options.  A tuple is an instance of [Hashable] whatever it holds.  [PObj]
    stands for any other object (a list, a dict, an XPath expression); its
    flag says whether its type defines [__hash__]. *)
#[local] Unset Elimination Schemes.
Inductive pyval : Type :=
| PNone
| PBool (b : bool)
| PInt (n : Z)
| PStr (s : string)
| PRange (lo hi : Z)
| PTuple (items : list pyval)
| PObj (hashable : bool) (ident : nat).
#[local] Set Elimination Schemes.

(** [**kwargs]: a dict with string keys. *)
Abbreviation kwargs := (gmap string pyval).

(** [isinstance(v, Hashable)]: the type of [v] defines [__hash__]. *)
Definition isinstance_Hashable (v : pyval) : bool :=
  match v with
  | PObj hashable _ => hashable
  | _ => true
  end.

(** [hash(v)] returns: a tuple hashes its items, so a tuple that holds a list
    is an instance of [Hashable] and cannot be hashed. *)
Fixpoint hash_succeeds (v : pyval) : bool :=
  match v with
  | PTuple items => forallb hash_succeeds items
  | PObj hashable _ => hashable
  | _ => true
  end.

(** An element handle: its identity and what it looks like. *)
Record Node : Type := mkNode { node_id : nat; node_markup : string }.

(** What [SelectorQuery.resolve_for] returns: the matched elements, the
    verdict of the count options on them, and the two messages. *)
Record Result : Type := mkResult {
  elements : list Node;
  result_matches_count : bool;
  failure_message : string;
  negative_failure_message : string
}.

(** [len(result)]. *)
Definition len (r : Result) : nat := length (elements r).

(** Modelled from the spec: the equality of elements is defined outside
    [matchers.py]; section 4.4 states that [self in result] compares the
    identity of the underlying element handle, not its value. *)
Definition node_in (self : Node) (r : Result) : bool :=
  existsb (fun e => Nat.eqb (node_id e) (node_id self)) (elements r).

(** ** Exceptions and the effect monad *)

(** [ExpectationNotMet] is the only class the mixin names; every other class
    ([ConfigurationError], [TypeError], a driver's error ...) is [OtherError]
    with its class name. *)
Inductive exn : Type :=
| ExpectationNotMet (msg : string)
| OtherError (cls : string) (msg : string).

Definition is_ExpectationNotMet (e : exn) : bool :=
  match e with
  | ExpectationNotMet _ => true
  | OtherError _ _ => false
  end.

Inductive outcome (A : Type) : Type :=
| Normal (v : A)
| Raise (e : exn).
Arguments Normal {A} v.
Arguments Raise {A} e.

Definition M (World A : Type) : Type := World -> outcome A * World.

Definition ret {World A} (v : A) : M World A := fun w => (Normal v, w).

Definition raise {World A} (e : exn) : M World A := fun w => (Raise e, w).

Definition bind {World A B} (m : M World A) (k : A -> M World B) : M World B :=
  fun w =>
    match m w with
    | (Normal v, w') => k v w'
    | (Raise e, w') => (Raise e, w')
    end.

(** A pure computation that may raise, run inside [M]. *)
Definition lift {World A} (o : outcome A) : M World A := fun w => (o, w).

(** [try: m  except ExpectationNotMet: h].  The state reached when the
    exception was raised is kept. *)
Definition try_except_ExpectationNotMet {World A}
    (m : M World A) (h : M World A) : M World A :=
  fun w =>
    match m w with
    | (Raise (ExpectationNotMet _), w') => h w'
    | r => r
    end.

Declare Scope py_scope.
Delimit Scope py_scope with py.
Notation "'let*' x ':=' c1 'in' c2" := (bind c1 (fun x => c2))
  (at level 10, x pattern, c1 at level 100, c2 at level 200) : py_scope.
Notation "c1 '>>' c2" := (bind c1 (fun _ => c2))
  (at level 65, right associativity) : py_scope.
Open Scope py_scope.

(** [for x in xs: f(x)]. *)
Fixpoint for_each {World A B} (xs : list A) (f : A -> M World B) : M World unit :=
  match xs with
  | [] => ret tt
  | x :: xs' => f x >> for_each xs' f
  end.

(** ** The host of the mixin *)

(** Everything [matchers.py] uses and does not define. *)
Class Host (World : Type) : Type := {
  (** [self.synchronize(wait=...)], applied to the decorated function. *)
  synchronize : Node -> forall A : Type, pyval -> M World A -> M World A;
  (** [self.find_first] with its positional and keyword arguments: an
      element or [None]. *)
  find_first : Node -> list pyval -> kwargs -> M World (option Node);
  (** [self.query_scope]. *)
  query_scope : Node -> Node;
  (** [capybara.default_max_wait_time], [capybara.default_selector]. *)
  default_max_wait_time : pyval;
  default_selector : pyval;
  (** The keys of [capybara.selector.selectors]. *)
  selectors : gset string;
  (** [capybara.helpers]. *)
  expects_none : kwargs -> bool;
  matches_count : Z -> kwargs -> bool;
  (** [SelectorQuery] built from positional and keyword arguments,
      [query.wait], [query.options], [query.resolve_for(node)]. *)
  SelectorQueryT : Type;
  SelectorQuery : list pyval -> kwargs -> outcome SelectorQueryT;
  sq_wait : SelectorQueryT -> pyval;
  sq_options : SelectorQueryT -> kwargs;
  sq_resolve_for : SelectorQueryT -> Node -> M World Result;
  (** [TextQuery]: [resolve_for] returns the number of occurrences; the
      messages are read from the query after it has resolved. *)
  TextQueryT : Type;
  TextQuery : list pyval -> kwargs -> outcome TextQueryT;
  tq_wait : TextQueryT -> pyval;
  tq_options : TextQueryT -> kwargs;
  tq_resolve_for : TextQueryT -> Node -> M World Z;
  tq_failure_message : TextQueryT -> World -> string;
  tq_negative_failure_message : TextQueryT -> World -> string;
  (** [StyleQuery(styles, **kwargs)]. *)
  StyleQueryT : Type;
  StyleQuery : gmap string pyval -> kwargs -> outcome StyleQueryT;
  stq_wait : StyleQueryT -> pyval;
  stq_resolves_for : StyleQueryT -> Node -> M World bool;
  stq_failure_message : StyleQueryT -> World -> string
}.

(** ** The mixin *)

Section MatchersMixin.
Context {World : Type} `{host : Host World}.

Local Abbreviation M := (M World).

(** [raise ExpectationNotMet(msg)] where [msg] is read from the state. *)
Definition raise_ExpectationNotMet_with {A} (msg : World -> string) : M A :=
  fun w => (Raise (ExpectationNotMet (msg w)), w).

(** *** assert_selector, assert_no_selector *)

(** The function decorated at lines 229-237. *)
Definition assert_selector_body (self : Node) (query : SelectorQueryT) : M bool :=
  let* result := sq_resolve_for query self in
  if negb (result_matches_count result &&
           ((0 <? len result)%nat || expects_none (sq_options query)))
  then raise (ExpectationNotMet (failure_message result))
  else ret true.

Definition assert_selector (self : Node) (args : list pyval) (kw : kwargs) : M bool :=
  let* query := lift (SelectorQuery args kw) in
  synchronize self bool (sq_wait query) (assert_selector_body self query).

(** The function decorated at lines 371-379. *)
Definition assert_no_selector_body (self : Node) (query : SelectorQueryT) : M bool :=
  let* result := sq_resolve_for query self in
  if result_matches_count result &&
     ((0 <? len result)%nat || expects_none (sq_options query))
  then raise (ExpectationNotMet (negative_failure_message result))
  else ret true.

Definition assert_no_selector (self : Node) (args : list pyval) (kw : kwargs) : M bool :=
  let* query := lift (SelectorQuery args kw) in
  synchronize self bool (sq_wait query) (assert_no_selector_body self query).

Definition refute_selector := assert_no_selector.

(** *** assert_style *)

Definition assert_style_body (self : Node) (query : StyleQueryT) : M bool :=
  let* ok := stq_resolves_for query self in
  if negb ok
  then raise_ExpectationNotMet_with (stq_failure_message query)
  else ret true.

Definition assert_style (self : Node) (styles : gmap string pyval) (kw : kwargs) : M bool :=
  let* query := lift (StyleQuery styles kw) in
  synchronize self bool (stq_wait query) (assert_style_body self query).

(** *** assert_all_of_selectors, assert_none_of_selectors *)

(** [kwargs['wait'] if 'wait' in kwargs else capybara.default_max_wait_time]. *)
Definition group_wait (kw : kwargs) : pyval :=
  match kw !! "wait" with
  | Some v => v
  | None => default_max_wait_time
  end.

(** [selector in selectors]: the dict hashes its argument first. *)
Definition in_selectors (selector : pyval) : outcome bool :=
  if hash_succeeds selector then
    Normal (match selector with
            | PStr s => bool_decide (s ∈ selectors)
            | _ => false
            end)
  else Raise (OtherError "TypeError" "unhashable type").

(** Lines 294-296 and 332-334; [or] does not evaluate its right operand
    when the left one holds. *)
Definition normalize_selector (selector : pyval) (locators : list pyval)
    : outcome (pyval * list pyval) :=
  if negb (isinstance_Hashable selector) then
    Normal (default_selector, selector :: locators)
  else
    match in_selectors selector with
    | Raise e => Raise e
    | Normal found =>
        if negb found
        then Normal (default_selector, selector :: locators)
        else Normal (selector, locators)
    end.

(** The function decorated at lines 298-303. *)
Definition assert_all_of_selectors_body (self : Node) (selector : pyval)
    (locators : list pyval) (kw : kwargs) : M bool :=
  for_each locators (fun locator => assert_selector self [selector; locator] kw) >>
  ret true.

Definition assert_all_of_selectors (self : Node) (selector : pyval)
    (locators : list pyval) (kw : kwargs) : M bool :=
  let wait := group_wait kw in
  let* normalized := lift (normalize_selector selector locators) in
  let (selector, locators) := (normalized : pyval * list pyval) in
  synchronize self bool wait (assert_all_of_selectors_body self selector locators kw).

(** The function decorated at lines 336-341. *)
Definition assert_none_of_selectors_body (self : Node) (selector : pyval)
    (locators : list pyval) (kw : kwargs) : M bool :=
  for_each locators (fun locator => assert_no_selector self [selector; locator] kw) >>
  ret true.

Definition assert_none_of_selectors (self : Node) (selector : pyval)
    (locators : list pyval) (kw : kwargs) : M bool :=
  let wait := group_wait kw in
  let* normalized := lift (normalize_selector selector locators) in
  let (selector, locators) := (normalized : pyval * list pyval) in
  synchronize self bool wait (assert_none_of_selectors_body self selector locators kw).

(** *** assert_matches_selector, assert_not_match_selector *)

(** [self.find_first("xpath", "./parent::*", minimum=0) or self.query_scope]. *)
Definition parent_or_query_scope (self : Node) : M Node :=
  let* parent := find_first self [PStr "xpath"; PStr "./parent::*"]
                                 {[ "minimum" := PInt 0 ]} in
  ret (match parent with
       | Some p => p
       | None => query_scope self
       end).

Definition assert_matches_selector_body (self : Node) (query : SelectorQueryT) : M bool :=
  let* scope := parent_or_query_scope self in
  let* result := sq_resolve_for query scope in
  if negb (node_in self result)
  then raise (ExpectationNotMet "Item does not match the provided selector")
  else ret true.

Definition assert_matches_selector (self : Node) (args : list pyval) (kw : kwargs)
    : M bool :=
  let* query := lift (SelectorQuery args kw) in
  synchronize self bool (sq_wait query) (assert_matches_selector_body self query).

Definition assert_not_match_selector_body (self : Node) (query : SelectorQueryT)
    : M bool :=
  let* scope := parent_or_query_scope self in
  let* result := sq_resolve_for query scope in
  if node_in self result
  then raise (ExpectationNotMet "Item matched the provided selector")
  else ret true.

Definition assert_not_match_selector (self : Node) (args : list pyval) (kw : kwargs)
    : M bool :=
  let* query := lift (SelectorQuery args kw) in
  synchronize self bool (sq_wait query) (assert_not_match_selector_body self query).

Definition refute_matches_selector := assert_not_match_selector.

(** *** assert_text, assert_no_text *)

(** The function decorated at lines 839-847. *)
Definition assert_text_body (self : Node) (query : TextQueryT) : M bool :=
  let* count := tq_resolve_for query self in
  if negb (matches_count count (tq_options query) &&
           ((0 <? count)%Z || expects_none (tq_options query)))
  then raise_ExpectationNotMet_with (tq_failure_message query)
  else ret true.

Definition assert_text (self : Node) (args : list pyval) (kw : kwargs) : M bool :=
  let* query := lift (TextQuery args kw) in
  synchronize self bool (tq_wait query) (assert_text_body self query).

(** The function decorated at lines 869-877. *)
Definition assert_no_text_body (self : Node) (query : TextQueryT) : M bool :=
  let* count := tq_resolve_for query self in
  if matches_count count (tq_options query) &&
     ((0 <? count)%Z || expects_none (tq_options query))
  then raise_ExpectationNotMet_with (tq_negative_failure_message query)
  else ret true.

Definition assert_no_text (self : Node) (args : list pyval) (kw : kwargs) : M bool :=
  let* query := lift (TextQuery args kw) in
  synchronize self bool (tq_wait query) (assert_no_text_body self query).

(** *** The boolean variants *)

(** [try: m; return True  except ExpectationNotMet: return False]. *)
Definition true_unless_ExpectationNotMet {A} (m : M A) : M bool :=
  try_except_ExpectationNotMet (m >> ret true) (ret false).

Definition has_selector (self : Node) (args : list pyval) (kw : kwargs) : M bool :=
  true_unless_ExpectationNotMet (assert_selector self args kw).

Definition has_no_selector (self : Node) (args : list pyval) (kw : kwargs) : M bool :=
  true_unless_ExpectationNotMet (assert_no_selector self args kw).

Definition has_style (self : Node) (styles : gmap string pyval) (kw : kwargs) : M bool :=
  true_unless_ExpectationNotMet (assert_style self styles kw).

Definition has_all_of_selectors (self : Node) (selector : pyval)
    (locators : list pyval) (kw : kwargs) : M bool :=
  true_unless_ExpectationNotMet (assert_all_of_selectors self selector locators kw).

Definition has_none_of_selectors (self : Node) (selector : pyval)
    (locators : list pyval) (kw : kwargs) : M bool :=
  true_unless_ExpectationNotMet (assert_none_of_selectors self selector locators kw).

Definition matches_selector (self : Node) (args : list pyval) (kw : kwargs) : M bool :=
  true_unless_ExpectationNotMet (assert_matches_selector self args kw).

Definition not_match_selector (self : Node) (args : list pyval) (kw : kwargs) : M bool :=
  true_unless_ExpectationNotMet (assert_not_match_selector self args kw).

(** [try: return self.assert_text(...)  except ExpectationNotMet: return False]. *)
Definition has_text (self : Node) (args : list pyval) (kw : kwargs) : M bool :=
  try_except_ExpectationNotMet (assert_text self args kw) (ret false).

Definition has_content := has_text.

Definition has_no_text (self : Node) (args : list pyval) (kw : kwargs) : M bool :=
  try_except_ExpectationNotMet (assert_no_text self args kw) (ret false).

Definition has_no_content := has_no_text.

(** *** Selector shorthands *)

Definition matches_xpath (self : Node) (xpath : pyval) (kw : kwargs) : M bool :=
  matches_selector self [PStr "xpath"; xpath] kw.

Definition not_match_xpath (self : Node) (xpath : pyval) (kw : kwargs) : M bool :=
  not_match_selector self [PStr "xpath"; xpath] kw.

Definition matches_css (self : Node) (css : pyval) (kw : kwargs) : M bool :=
  matches_selector self [PStr "css"; css] kw.

Definition not_match_css (self : Node) (css : pyval) (kw : kwargs) : M bool :=
  not_match_selector self [PStr "css"; css] kw.

Definition has_xpath (self : Node) (query : pyval) (kw : kwargs) : M bool :=
  has_selector self [PStr "xpath"; query] kw.

Definition has_no_xpath (self : Node) (path : pyval) (kw : kwargs) : M bool :=
  has_no_selector self [PStr "xpath"; path] kw.

Definition has_css (self : Node) (path : pyval) (kw : kwargs) : M bool :=
  has_selector self [PStr "css"; path] kw.

Definition has_no_css (self : Node) (path : pyval) (kw : kwargs) : M bool :=
  has_no_selector self [PStr "css"; path] kw.

Definition has_field (self : Node) (locator : pyval) (kw : kwargs) : M bool :=
  has_selector self [PStr "field"; locator] kw.

Definition has_no_field (self : Node) (locator : pyval) (kw : kwargs) : M bool :=
  has_no_selector self [PStr "field"; locator] kw.

(** [kwargs["checked"] = True] and then the field check. *)
Definition has_checked_field (self : Node) (locator : pyval) (kw : kwargs) : M bool :=
  let kw := <[ "checked" := PBool true ]> kw in
  has_selector self [PStr "field"; locator] kw.

Definition has_no_checked_field (self : Node) (locator : pyval) (kw : kwargs) : M bool :=
  let kw := <[ "checked" := PBool true ]> kw in
  has_no_selector self [PStr "field"; locator] kw.

Definition has_unchecked_field (self : Node) (locator : pyval) (kw : kwargs) : M bool :=
  let kw := <[ "checked" := PBool false ]> kw in
  has_selector self [PStr "field"; locator] kw.

Definition has_no_unchecked_field (self : Node) (locator : pyval) (kw : kwargs) : M bool :=
  let kw := <[ "checked" := PBool false ]> kw in
  has_no_selector self [PStr "field"; locator] kw.

End MatchersMixin.

(** ** The remaining shorthands of the mixin *)

Section Shorthands.
Context {World : Type} `{host : Host World}.

Definition has_button (self : Node) (locator : pyval) (kw : kwargs) : M World bool :=
  has_selector self [PStr "button"; locator] kw.

Definition has_no_button (self : Node) (locator : pyval) (kw : kwargs) : M World bool :=
  has_no_selector self [PStr "button"; locator] kw.

Definition has_link (self : Node) (locator : pyval) (kw : kwargs) : M World bool :=
  has_selector self [PStr "link"; locator] kw.

Definition has_no_link (self : Node) (locator : pyval) (kw : kwargs) : M World bool :=
  has_no_selector self [PStr "link"; locator] kw.

Definition has_select (self : Node) (locator : pyval) (kw : kwargs) : M World bool :=
  has_selector self [PStr "select"; locator] kw.

Definition has_no_select (self : Node) (locator : pyval) (kw : kwargs) : M World bool :=
  has_no_selector self [PStr "select"; locator] kw.

Definition has_table (self : Node) (locator : pyval) (kw : kwargs) : M World bool :=
  has_selector self [PStr "table"; locator] kw.

Definition has_no_table (self : Node) (locator : pyval) (kw : kwargs) : M World bool :=
  has_no_selector self [PStr "table"; locator] kw.

End Shorthands.

(** The computation never ends by raising [ExpectationNotMet]. *)
Definition never_raises_ExpectationNotMet {World A} (m : M World A) : Prop :=
  forall w w' msg, m w <> (Raise (ExpectationNotMet msg), w').

(** ** What the statements below say about a host *)

Section Vocabulary.
Context {World : Type} `{host : Host World}.

(** Section 4.3, step 2b: a body that returns on its first attempt makes
    [synchronize] return that value, in the state the body left. *)
Definition returns_first_success : Prop :=
  forall (self : Node) (A : Type) (wait : pyval) (body : M World A)
         (w w' : World) (v : A),
    body w = (Normal v, w') ->
    synchronize self A wait body w = (Normal v, w').

(** Section 4.3, steps 2b, 2d and 2e: whatever [synchronize] returns or
    raises is what some attempt of its body returned or raised. *)
Definition ends_with_an_attempt : Prop :=
  forall (self : Node) (A : Type) (wait : pyval) (body : M World A)
         (w w' : World) (r : outcome A),
    synchronize self A wait body w = (r, w') ->
    exists w0, body w0 = (r, w').

(** The first argument is a key of the selector registry. *)
Definition recognized (selector : pyval) : Prop :=
  exists s, selector = PStr s /\ s ∈ selectors.

(** [has] is the boolean variant of [assert]. *)
Definition boolean_variant_of (has assert : M World bool) : Prop :=
  (forall w w' v, assert w = (Normal v, w') -> has w = (Normal true, w')) /\
  (forall w w', has w = (Normal false, w') <->
                exists msg, assert w = (Raise (ExpectationNotMet msg), w')) /\
  (forall w w' e, is_ExpectationNotMet e = false ->
                  assert w = (Raise e, w') -> has w = (Raise e, w')).

(** The host with another constructor of selector queries and nothing else
    changed. *)
Definition with_SelectorQuery
    (build : list pyval -> kwargs -> outcome SelectorQueryT) : Host World := {|
  synchronize := synchronize;
  find_first := find_first;
  query_scope := query_scope;
  default_max_wait_time := default_max_wait_time;
  default_selector := default_selector;
  selectors := selectors;
  expects_none := expects_none;
  matches_count := matches_count;
  SelectorQueryT := SelectorQueryT;
  SelectorQuery := build;
  sq_wait := sq_wait;
  sq_options := sq_options;
  sq_resolve_for := sq_resolve_for;
  TextQueryT := TextQueryT;
  TextQuery := TextQuery;
  tq_wait := tq_wait;
  tq_options := tq_options;
  tq_resolve_for := tq_resolve_for;
  tq_failure_message := tq_failure_message;
  tq_negative_failure_message := tq_negative_failure_message;
  StyleQueryT := StyleQueryT;
  StyleQuery := StyleQuery;
  stq_wait := stq_wait;
  stq_resolves_for := stq_resolves_for;
  stq_failure_message := stq_failure_message
|}.

End Vocabulary.

(** Line 294 gets past the first argument without an error: either it is no
    instance of [Hashable] and the registry is not asked, or it can be
    hashed. *)
Definition registry_test_returns (selector : pyval) : Prop :=
  isinstance_Hashable selector = false \/ hash_succeeds selector = true.

(** The checks of [xs] succeed one after the other, from state [w] to [w']. *)
Fixpoint pass_in_turn {World A B} (check : A -> M World B) (xs : list A)
    (w w' : World) : Prop :=
  match xs with
  | [] => w = w'
  | x :: xs' => exists v w1, check x w = (Normal v, w1) /\ pass_in_turn check xs' w1 w'
  end.

(** ** The synchronization loop *)

Section Synchronize.
Context {World : Type}.

(** The clock, in ticks, and the pause between two attempts. *)
Variable now : World -> nat.
Variable sleep : World -> World.

(** Modelled from the spec: the errors the loop polls on (section 4.3,
    step 2c): [ExpectationNotMet] and the evaluator's signal that the
    document changed under it. *)
Definition retriable (e : exn) : bool :=
  match e with
  | ExpectationNotMet _ => true
  | OtherError cls _ => String.eqb cls "TransientStateError"
  end.

(** Modelled from the spec: [synchronize] is a method of the host and is not
    in [matchers.py]; this is the algorithm of section 4.3.  The body runs
    first, a value is returned at once, a retriable error before the
    deadline leads to a pause and another attempt, every other error is
    raised again.  [fuel] bounds the number of further attempts; a budget of
    [n] ticks never needs more than [n] of them
    ([synchronize_loop_fuel]). *)
Fixpoint synchronize_loop {A} (fuel deadline : nat) (body : M World A)
    (w : World) : outcome A * World :=
  match body w with
  | (Normal v, w') => (Normal v, w')
  | (Raise e, w') =>
      if retriable e && (now w' <? deadline)%nat then
        match fuel with
        | O => (Raise e, w')
        | S fuel' => synchronize_loop fuel' deadline body (sleep w')
        end
      else (Raise e, w')
  end.

Definition spec_synchronize {A} (wait_budget : nat) (body : M World A) : M World A :=
  fun w => synchronize_loop wait_budget (now w + wait_budget) body w.

End Synchronize.

(** ** A scripted host

    A host over a page whose content is a function of the clock.  It is the
    instance the general statements below are run on.  Its [synchronize] is
    the loop of section 4.3 for a call on its own: it keeps no record of a
    call under way, so every call polls on a deadline of its own.  Calls
    nested in a group are run on [session_host] below, which keeps that
    record. *)

Module Scripted.

(** One call of the evaluator: the scope, the locator and the [wait] of the
    query that was resolved. *)
Record Evaluation : Type := mkEvaluation {
  ev_scope : nat;
  ev_locator : string;
  ev_wait : pyval
}.

Record World : Type := mkWorld {
  clock : nat;
  evaluations : list Evaluation
}.

Definition tick (w : World) : World :=
  {| clock := S (clock w); evaluations := evaluations w |}.

(** The document: the elements a locator matches and the occurrences of a
    text at a given tick, and whether the styles asked for hold. *)
Record Page : Type := mkPage {
  page_elements : nat -> string -> list Node;
  page_text : nat -> string -> Z;
  page_styles : nat -> bool
}.

Record Query : Type := mkQuery {
  q_kind : pyval;
  q_locator : string;
  q_options : kwargs
}.

Definition quantity_options : list string :=
  ["count"; "minimum"; "maximum"; "between"].

Definition given (kw : kwargs) (key : string) : bool :=
  match kw !! key with
  | Some _ => true
  | None => false
  end.

(** Modelled from the spec: [capybara.helpers.matches_count] is not in
    [matchers.py]; section 4.1 gives the check of each constraint, with at
    least one occurrence as the default. *)
Definition helpers_matches_count (observed : Z) (kw : kwargs) : bool :=
  match kw !! "count", kw !! "minimum", kw !! "maximum", kw !! "between" with
  | Some (PInt n), _, _, _ => (observed =? n)%Z
  | _, Some (PInt n), _, _ => (n <=? observed)%Z
  | _, _, Some (PInt n), _ => (observed <=? n)%Z
  | _, _, _, Some (PRange lo hi) => (lo <=? observed)%Z && (observed <=? hi)%Z
  | _, _, _, _ => (1 <=? observed)%Z
  end.

(** Modelled from the spec: [capybara.helpers.expects_none] is not in
    [matchers.py]; section 4.4 has it hold when the caller asked for zero
    through a count of 0 or a range that includes 0. *)
Definition helpers_expects_none (kw : kwargs) : bool :=
  existsb (given kw) quantity_options && helpers_matches_count 0 kw.

(** Modelled from the spec: section 4.1 rejects more than one quantity
    option when the query is built. *)
Definition conflicting (kw : kwargs) : bool :=
  (1 <? length (filter (fun key => given kw key = true) quantity_options))%nat.

Definition wait_of (kw : kwargs) (default : pyval) : pyval :=
  match kw !! "wait" with
  | Some v => v
  | None => default
  end.

Definition default_wait : pyval := PInt 2.

(** The text of a locator; an object that is not a string matches nothing. *)
Definition locator_text (locator : pyval) : string :=
  match locator with
  | PStr s => s
  | _ => ""
  end.

Definition make_query (args : list pyval) (kw : kwargs) : outcome Query :=
  if conflicting kw then
    Raise (OtherError "ConfigurationError" "more than one quantity option")
  else
    match args with
    | [kind; locator] => Normal (mkQuery kind (locator_text locator) kw)
    | [locator] => Normal (mkQuery (PStr "css") (locator_text locator) kw)
    | _ => Raise (OtherError "TypeError" "unexpected arguments")
    end.

Definition ticks_of (wait : pyval) : nat :=
  match wait with
  | PInt n => Z.to_nat n
  | _ => 2
  end.

Definition record_evaluation (scope : Node) (q : Query) (w : World) : World :=
  {| clock := clock w;
     evaluations := evaluations w ++
       [mkEvaluation (node_id scope) (q_locator q) (wait_of (q_options q) default_wait)] |}.

Definition resolve_selector (page : Page) (q : Query) (scope : Node) : M World Result :=
  fun w =>
    let found := page_elements page (clock w) (q_locator q) in
    (Normal {| elements := found;
               result_matches_count :=
                 helpers_matches_count (Z.of_nat (length found)) (q_options q);
               failure_message := "expected to find " ++ q_locator q;
               negative_failure_message := "expected not to find " ++ q_locator q |},
     record_evaluation scope q w).

Definition resolve_text (page : Page) (q : Query) (scope : Node) : M World Z :=
  fun w => (Normal (page_text page (clock w) (q_locator q)), record_evaluation scope q w).

Definition html : Node := mkNode 0 "<html>".
Definition document : Node := mkNode 1000 "#document".

(** Every element but the root has the root as its parent. *)
Definition parent_of (self : Node) : option Node :=
  if Nat.eqb (node_id self) 0 then None else Some html.

Definition host (page : Page) : Host World := {|
  synchronize := fun _ A wait body => spec_synchronize clock tick (ticks_of wait) body;
  find_first := fun self _ _ => ret (parent_of self);
  query_scope := fun _ => document;
  default_max_wait_time := default_wait;
  default_selector := PStr "css";
  selectors := {[ "css"; "xpath"; "field" ]};
  expects_none := helpers_expects_none;
  matches_count := helpers_matches_count;
  SelectorQueryT := Query;
  SelectorQuery := make_query;
  sq_wait := fun q => wait_of (q_options q) default_wait;
  sq_options := q_options;
  sq_resolve_for := resolve_selector page;
  TextQueryT := Query;
  TextQuery := make_query;
  tq_wait := fun q => wait_of (q_options q) default_wait;
  tq_options := q_options;
  tq_resolve_for := resolve_text page;
  tq_failure_message := fun q _ => "expected to find text " ++ q_locator q;
  tq_negative_failure_message := fun q _ => "expected not to find text " ++ q_locator q;
  StyleQueryT := Query;
  StyleQuery := fun _ kw => make_query [PStr "style"] kw;
  stq_wait := fun q => wait_of (q_options q) default_wait;
  stq_resolves_for := fun _ _ w => (Normal (page_styles page (clock w)), w);
  stq_failure_message := fun _ _ => "expected the styles to match"
|}.

Definition start : World := mkWorld 0 [].

Definition link_a : Node := mkNode 1 "<a>".
Definition link_b : Node := mkNode 2 "<b>".

(** Another element with the markup of [link_a]. *)
Definition twin_of_a : Node := mkNode 3 "<a>".

(** A page in the making: "#a" appears at tick 2 and "#b" at tick 4. *)
Definition late_page : Page := {|
  page_elements := fun t locator =>
    if String.eqb locator "#a" then (if (2 <=? t)%nat then [link_a] else [])
    else if String.eqb locator "#b" then (if (4 <=? t)%nat then [link_b] else [])
    else [];
  page_text := fun _ _ => 0%Z;
  page_styles := fun _ => true
|}.

(** A page at rest: "#b" and "a" match one element each, "a, b" two; the
    text "hello" occurs twice. *)
Definition still_page : Page := {|
  page_elements := fun _ locator =>
    if String.eqb locator "#b" then [link_b]
    else if String.eqb locator "a" then [twin_of_a]
    else if String.eqb locator "a, b" then [link_a; link_b]
    else [];
  page_text := fun _ text => if String.eqb text "hello" then 2%Z else 0%Z;
  page_styles := fun _ => true
|}.

(** The queries and options the statements are run on. *)
Definition find_b : Query := mkQuery (PStr "css") "#b" ∅.
Definition find_a : Query := mkQuery (PStr "css") "a" ∅.
Definition find_hello : Query := mkQuery (PStr "text") "hello" ∅.
Definition wait_three : kwargs := {[ "wait" := PInt 3 ]}.
Definition no_wait : kwargs := {[ "wait" := PInt 0 ]}.
Definition two_quantities : kwargs := {[ "count" := PInt 1; "minimum" := PInt 1 ]}.
Definition at_most_three : kwargs := {[ "maximum" := PInt 3; "wait" := PInt 0 ]}.
Definition unchecked_no_wait : kwargs := {[ "checked" := PBool false; "wait" := PInt 0 ]}.

End Scripted.

(** ** Further vocabulary *)

Section VocabularyMore.
Context {World : Type} `{host : Host World}.

(** A sub-check without its [synchronize]: the query is built and the body
    runs once. *)
Definition assert_selector_once (self : Node) (args : list pyval) (kw : kwargs)
    : M World bool :=
  let* query := lift (SelectorQuery args kw) in
  assert_selector_body self query.

Definition assert_no_selector_once (self : Node) (args : list pyval) (kw : kwargs)
    : M World bool :=
  let* query := lift (SelectorQuery args kw) in
  assert_no_selector_body self query.

(** Section 4.3, steps 2b, 2d and 2e, for the calls that start in a state
    of [region]: what [synchronize] returns or raises is what some attempt of
    its body returned or raised; and when no attempt of the body leaves
    [region], that attempt is made in a state of [region] and the call ends
    in one. *)
Definition attempts_within (region : World -> Prop) : Prop :=
  forall (self : Node) (A : Type) (wait : pyval) (body : M World A)
         (w w' : World) (r : outcome A),
    region w ->
    synchronize self A wait body w = (r, w') ->
    exists w0 w1,
      body w0 = (r, w1) /\
      ((forall u r' u', region u -> body u = (r', u') -> region u') ->
       region w0 /\ region w').

(** A locator whose query can be built and resolves, in every state of
    [region], to a result that meets its count options with at least one
    element (or with options that expect none), without leaving [region]. *)
Definition present_within (region : World -> Prop) (self : Node)
    (selector : pyval) (kw : kwargs) (locator : pyval) : Prop :=
  exists query,
    SelectorQuery [selector; locator] kw = Normal query /\
    forall w, region w -> exists result w',
      sq_resolve_for query self w = (Normal result, w') /\
      region w' /\
      result_matches_count result = true /\
      (0 < len result \/ expects_none (sq_options query) = true).

(** A locator whose query can be built and resolves in every state of
    [region], to whatever result, without leaving [region]. *)
Definition resolves_within (region : World -> Prop) (self : Node)
    (selector : pyval) (kw : kwargs) (locator : pyval) : Prop :=
  exists query,
    SelectorQuery [selector; locator] kw = Normal query /\
    forall w, region w -> exists result w',
      sq_resolve_for query self w = (Normal result, w') /\ region w'.

(** In every state of [region] the node has a parent to be found, or none,
    the query resolves against that parent, or against the query scope of
    the node, without leaving [region], and [self in result] is [member]. *)
Definition resolves_against_parent (region : World -> Prop) (self : Node)
    (query : SelectorQueryT) (member : bool) : Prop :=
  forall w, region w -> exists parent w1 result w2,
    find_first self [PStr "xpath"; PStr "./parent::*"] {[ "minimum" := PInt 0 ]} w
      = (Normal parent, w1) /\
    sq_resolve_for query
      (match parent with Some p => p | None => query_scope self end) w1
      = (Normal result, w2) /\
    region w2 /\
    node_in self result = member.

(** The host with another [wait] for its selector queries and nothing else
    changed. *)
Definition with_sq_wait (other_wait : SelectorQueryT -> pyval) : Host World := {|
  synchronize := synchronize;
  find_first := find_first;
  query_scope := query_scope;
  default_max_wait_time := default_max_wait_time;
  default_selector := default_selector;
  selectors := selectors;
  expects_none := expects_none;
  matches_count := matches_count;
  SelectorQueryT := SelectorQueryT;
  SelectorQuery := SelectorQuery;
  sq_wait := other_wait;
  sq_options := sq_options;
  sq_resolve_for := sq_resolve_for;
  TextQueryT := TextQueryT;
  TextQuery := TextQuery;
  tq_wait := tq_wait;
  tq_options := tq_options;
  tq_resolve_for := tq_resolve_for;
  tq_failure_message := tq_failure_message;
  tq_negative_failure_message := tq_negative_failure_message;
  StyleQueryT := StyleQueryT;
  StyleQuery := StyleQuery;
  stq_wait := stq_wait;
  stq_resolves_for := stq_resolves_for;
  stq_failure_message := stq_failure_message
|}.

End VocabularyMore.

(** ** A session that knows when it is synchronizing *)

(** The state of a host together with the mark that a [synchronize] is under
    way. *)
Record Session (W : Type) : Type := mkSession {
  synchronized : bool;
  inner : W
}.
Arguments mkSession {W} synchronized inner.
Arguments synchronized {W} s.
Arguments inner {W} s.

Section SessionHost.
Context {W : Type} (base : Host W).

(** The clock, the pause between two attempts, and the ticks of a wait. *)
Variable now : W -> nat.
Variable sleep : W -> W.
Variable ticks : pyval -> nat.

(** A computation of the base host, run in the session: the mark is kept. *)
Definition in_session {A} (m : M W A) : M (Session W) A :=
  fun s =>
    match m (inner s) with
    | (r, w') => (r, mkSession (synchronized s) w')
    end.

Definition session_now (s : Session W) : nat := now (inner s).

Definition session_sleep (s : Session W) : Session W :=
  mkSession (synchronized s) (sleep (inner s)).

Definition enter (s : Session W) : Session W := mkSession true (inner s).

Definition leave (s : Session W) : Session W := mkSession false (inner s).

(** Modelled from the spec: [synchronize] with the paragraph of section 4.3
    on nested synchronization.  A call made while another one is under way
    has no budget of its own and runs its body once; the outermost call is
    the loop of [spec_synchronize] on the budget of its wait. *)
Definition session_synchronize {A} (wait : pyval) (body : M (Session W) A)
    : M (Session W) A :=
  fun s =>
    if synchronized s then body s
    else
      match spec_synchronize session_now session_sleep (ticks wait) body (enter s) with
      | (r, s') => (r, leave s')
      end.

(** The base host in a session: its collaborators as they are, and
    [session_synchronize]. *)
Definition session_host : Host (Session W) := {|
  synchronize := fun _ A wait body => session_synchronize wait body;
  find_first := fun self args kw => in_session (find_first (Host := base) self args kw);
  query_scope := query_scope (Host := base);
  default_max_wait_time := default_max_wait_time (Host := base);
  default_selector := default_selector (Host := base);
  selectors := selectors (Host := base);
  expects_none := expects_none (Host := base);
  matches_count := matches_count (Host := base);
  SelectorQueryT := SelectorQueryT (Host := base);
  SelectorQuery := SelectorQuery (Host := base);
  sq_wait := sq_wait (Host := base);
  sq_options := sq_options (Host := base);
  sq_resolve_for := fun q scope => in_session (sq_resolve_for (Host := base) q scope);
  TextQueryT := TextQueryT (Host := base);
  TextQuery := TextQuery (Host := base);
  tq_wait := tq_wait (Host := base);
  tq_options := tq_options (Host := base);
  tq_resolve_for := fun q scope => in_session (tq_resolve_for (Host := base) q scope);
  tq_failure_message := fun q s => tq_failure_message (Host := base) q (inner s);
  tq_negative_failure_message :=
    fun q s => tq_negative_failure_message (Host := base) q (inner s);
  StyleQueryT := StyleQueryT (Host := base);
  StyleQuery := StyleQuery (Host := base);
  stq_wait := stq_wait (Host := base);
  stq_resolves_for := fun q scope => in_session (stq_resolves_for (Host := base) q scope);
  stq_failure_message := fun q s => stq_failure_message (Host := base) q (inner s)
|}.

End SessionHost.

(** The scripted host in a session. *)
Definition scripted_session (page : Scripted.Page) : Host (Session Scripted.World) :=
  session_host (Scripted.host page) Scripted.clock Scripted.tick Scripted.ticks_of.

Definition session_start : Session Scripted.World := mkSession false Scripted.start.

(** A page on which "#a" is there from tick 2 to tick 5 only. *)
Definition passing_page : Scripted.Page := {|
  Scripted.page_elements := fun t locator =>
    if String.eqb locator "#a"
    then (if (2 <=? t)%nat && (t <=? 5)%nat then [Scripted.link_a] else [])
    else [];
  Scripted.page_text := fun _ _ => 0%Z;
  Scripted.page_styles := fun _ => true
|}.

(** The states of the scripted host from tick 2 on. *)
Definition from_tick_two (w : Scripted.World) : Prop := 2 <= Scripted.clock w.

(** The states of the scripted host from one tick to another. *)
Definition between_ticks (first last : nat) (w : Scripted.World) : Prop :=
  first <= Scripted.clock w /\ Scripted.clock w <= last.

(** A page whose styles never match and on which "#b" matches one element. *)
Definition unstyled_page : Scripted.Page := {|
  Scripted.page_elements := fun _ locator =>
    if String.eqb locator "#b" then [Scripted.link_b] else [];
  Scripted.page_text := fun _ _ => 0%Z;
  Scripted.page_styles := fun _ => false
|}.

(** The style query the scripted host builds from options without a wait. *)
Definition style_query : Scripted.Query :=
  Scripted.mkQuery (PStr "css") "style" ∅.

(** * Facts *)

(** ** Running the monad *)

Section Running.
Context {World : Type}.

Lemma bind_Normal {A B} (m : M World A) (k : A -> M World B) w v w' :
  m w = (Normal v, w') -> bind m k w = k v w'.
Proof. intros Hm. unfold bind. now rewrite Hm. Qed.

Lemma bind_Raise {A B} (m : M World A) (k : A -> M World B) w e w' :
  m w = (Raise e, w') -> bind m k w = (Raise e, w').
Proof. intros Hm. unfold bind. now rewrite Hm. Qed.

Lemma bind_lift_Normal {A B} (v : A) (k : A -> M World B) w :
  bind (lift (Normal v)) k w = k v w.
Proof. reflexivity. Qed.

Lemma bind_inv_Normal {A B} (m : M World A) (k : A -> M World B) w v w' :
  bind m k w = (Normal v, w') ->
  exists u w1, m w = (Normal u, w1) /\ k u w1 = (Normal v, w').
Proof.
  unfold bind. destruct (m w) as [[u|e] w1]; intros H.
  - eauto.
  - discriminate.
Qed.

Lemma for_each_pass_in_turn {A B} (check : A -> M World B) xs w w' u :
  for_each xs check w = (Normal u, w') <-> pass_in_turn check xs w w'.
Proof.
  revert w. induction xs as [|x xs IH]; intros w; simpl.
  - unfold ret. destruct u. split; [intros [= ->] | intros ->]; reflexivity.
  - split.
    + intros H. apply bind_inv_Normal in H as (v & w1 & Hx & Hrest).
      exists v, w1. split; [assumption | now apply IH].
    + intros (v & w1 & Hx & Hrest). rewrite (bind_Normal _ _ _ _ _ Hx). now apply IH.
Qed.

Lemma for_each_ext {A B} (f g : A -> M World B) xs :
  (forall x, In x xs -> f x = g x) ->
  for_each xs f = for_each xs g.
Proof.
  induction xs as [|x xs IH]; intros Heq; [reflexivity|]. simpl.
  rewrite (Heq x (or_introl eq_refl)), IH; [reflexivity|].
  intros y Hy. apply Heq. now right.
Qed.

(** A loop in which every check returns or raises [ExpectationNotMet], and
    one of them always raises it, raises it. *)
Lemma for_each_raises {A B} (check : A -> M World B) xs bad :
  In bad xs ->
  (forall w, exists msg w', check bad w = (Raise (ExpectationNotMet msg), w')) ->
  (forall x, In x xs -> forall w r w', check x w = (r, w') ->
     match r with Normal _ => True | Raise e => is_ExpectationNotMet e = true end) ->
  forall w, exists msg w', for_each xs check w = (Raise (ExpectationNotMet msg), w').
Proof.
  induction xs as [|x xs IH]; intros Hin Hbad Hall w; [destruct Hin|].
  simpl. destruct (check x w) as [[v|e] w1] eqn:Hx.
  - rewrite (bind_Normal _ _ _ _ _ Hx).
    destruct Hin as [->|Hin].
    + destruct (Hbad w) as (msg & w' & Hraise). congruence.
    + apply IH; [assumption | assumption |].
      intros y Hy. apply Hall. now right.
  - rewrite (bind_Raise _ _ _ _ _ Hx).
    pose proof (Hall x (or_introl eq_refl) _ _ _ Hx) as He. simpl in He.
    destruct e as [msg|cls msg]; [eauto | discriminate].
Qed.

End Running.

(** ** The loop of section 4.3 *)

Section SynchronizeFacts.
Context {World : Type} (now : World -> nat) (sleep : World -> World).

Lemma spec_synchronize_first_success {A} (n : nat) (body : M World A) w v w' :
  body w = (Normal v, w') ->
  spec_synchronize now sleep n body w = (Normal v, w').
Proof.
  intros Hb. unfold spec_synchronize. destruct n; simpl; now rewrite Hb.
Qed.

Lemma synchronize_loop_attempt {A} (fuel deadline : nat) (body : M World A) w r w' :
  synchronize_loop now sleep fuel deadline body w = (r, w') ->
  exists w0, body w0 = (r, w').
Proof.
  revert w. induction fuel as [|fuel IH]; intros w; simpl;
    destruct (body w) as [[v|e] w1] eqn:Hb.
  - intros [= <- <-]. eauto.
  - destruct (retriable e && (now w1 <? deadline)%nat); intros [= <- <-]; eauto.
  - intros [= <- <-]. eauto.
  - destruct (retriable e && (now w1 <? deadline)%nat).
    + apply IH.
    + intros [= <- <-]. eauto.
Qed.

Lemma spec_synchronize_attempt {A} (n : nat) (body : M World A) w r w' :
  spec_synchronize now sleep n body w = (r, w') ->
  exists w0, body w0 = (r, w').
Proof. apply synchronize_loop_attempt. Qed.

(** With a clock that the pause advances and the body never turns back, the
    attempts stop at the deadline: fuel beyond the ticks that are left
    changes nothing. *)
Lemma synchronize_loop_fuel {A} (body : M World A) (deadline : nat) :
  (forall w, now w < now (sleep w)) ->
  (forall w r w', body w = (r, w') -> now w <= now w') ->
  forall fuel extra w,
    deadline - now w <= fuel ->
    synchronize_loop now sleep (fuel + extra) deadline body w =
    synchronize_loop now sleep fuel deadline body w.
Proof.
  intros Hsleep Hbody. induction fuel as [|fuel IH]; intros extra w Hleft.
  - destruct extra as [|extra]; [reflexivity|]. simpl.
    destruct (body w) as [[v|e] w1] eqn:Hb; [reflexivity|].
    apply Hbody in Hb.
    destruct (now w1 <? deadline)%nat eqn:Hlt.
    + apply Nat.ltb_lt in Hlt. lia.
    + now rewrite andb_false_r.
  - simpl. destruct (body w) as [[v|e] w1] eqn:Hb; [reflexivity|].
    apply Hbody in Hb.
    destruct (retriable e && (now w1 <? deadline)%nat); [|reflexivity].
    apply IH. specialize (Hsleep w1). lia.
Qed.

End SynchronizeFacts.

(** ** The assertions of the mixin *)

Lemma satisfied_and_present (verdict : bool) (n : nat) (none : bool) :
  verdict && ((0 <? n)%nat || none) = true <->
  verdict = true /\ (0 < n \/ none = true).
Proof.
  rewrite andb_true_iff, orb_true_iff, Nat.ltb_lt. reflexivity.
Qed.

Lemma satisfied_and_present_Z (verdict : bool) (n : Z) (none : bool) :
  verdict && ((0 <? n)%Z || none) = true <->
  verdict = true /\ ((0 < n)%Z \/ none = true).
Proof.
  rewrite andb_true_iff, orb_true_iff, Z.ltb_lt. reflexivity.
Qed.

Section MatchersFacts.
Context {World : Type} `{host : Host World}.

(** What is left of a positive body once the query has resolved. *)
Lemma positive_guard (c : bool) (e : World -> exn) (w : World) :
  ((if negb c then (fun w => (Raise (e w), w)) else ret true) w = (Raise (e w), w) <->
     c <> true) /\
  ((if negb c then (fun w => (Raise (e w), w)) else ret true) w = (Normal true, w) <->
     c = true).
Proof.
  destruct c; simpl; unfold ret; split; split; intros H;
    try discriminate; try reflexivity; try congruence.
Qed.

(** What is left of a negative body once the query has resolved. *)
Lemma negative_guard (c : bool) (e : World -> exn) (w : World) :
  ((if c then (fun w => (Raise (e w), w)) else ret true) w = (Raise (e w), w) <->
     c = true) /\
  ((if c then (fun w => (Raise (e w), w)) else ret true) w = (Normal true, w) <->
     c <> true).
Proof.
  destruct c; simpl; unfold ret; split; split; intros H;
    try discriminate; try reflexivity; try congruence.
Qed.

Lemma assert_selector_body_run self query w result w1 :
  sq_resolve_for query self w = (Normal result, w1) ->
  assert_selector_body self query w =
  (if negb (result_matches_count result &&
            ((0 <? len result)%nat || expects_none (sq_options query)))
   then (fun w => (Raise (ExpectationNotMet (failure_message result)), w))
   else ret true) w1.
Proof.
  intros H. unfold assert_selector_body. rewrite (bind_Normal _ _ _ _ _ H).
  now destruct (negb _).
Qed.

Lemma assert_no_selector_body_run self query w result w1 :
  sq_resolve_for query self w = (Normal result, w1) ->
  assert_no_selector_body self query w =
  (if result_matches_count result &&
      ((0 <? len result)%nat || expects_none (sq_options query))
   then (fun w => (Raise (ExpectationNotMet (negative_failure_message result)), w))
   else ret true) w1.
Proof.
  intros H. unfold assert_no_selector_body. rewrite (bind_Normal _ _ _ _ _ H).
  now destruct (_ && _).
Qed.

Lemma assert_text_body_run self query w count w1 :
  tq_resolve_for query self w = (Normal count, w1) ->
  assert_text_body self query w =
  (if negb (matches_count count (tq_options query) &&
            ((0 <? count)%Z || expects_none (tq_options query)))
   then (fun w => (Raise (ExpectationNotMet (tq_failure_message query w)), w))
   else ret true) w1.
Proof.
  intros H. unfold assert_text_body. rewrite (bind_Normal _ _ _ _ _ H).
  now destruct (negb _).
Qed.

Lemma assert_no_text_body_run self query w count w1 :
  tq_resolve_for query self w = (Normal count, w1) ->
  assert_no_text_body self query w =
  (if matches_count count (tq_options query) &&
      ((0 <? count)%Z || expects_none (tq_options query))
   then (fun w => (Raise (ExpectationNotMet (tq_negative_failure_message query w)), w))
   else ret true) w1.
Proof.
  intros H. unfold assert_no_text_body. rewrite (bind_Normal _ _ _ _ _ H).
  now destruct (_ && _).
Qed.

(** C1: once the query has resolved, the body of [assert_selector] raises
    [ExpectationNotMet] exactly when it is not the case that the result meets
    its count options and either holds an element or the options expect none;
    otherwise it returns [True].  The body of [assert_text] does the same on
    the number of occurrences.  In particular count options met by zero
    occurrences make the assertion succeed only if the options expect none. *)
Theorem assert_selector_body_raises_exactly
    (self : Node) (sq : SelectorQueryT) (tq : TextQueryT)
    (w w1 w2 : World) (result : Result) (count : Z) :
  sq_resolve_for sq self w = (Normal result, w1) ->
  tq_resolve_for tq self w = (Normal count, w2) ->
  (assert_selector_body self sq w =
     (Raise (ExpectationNotMet (failure_message result)), w1) <->
   ~ (result_matches_count result = true /\
      (0 < len result \/ expects_none (sq_options sq) = true))) /\
  (assert_selector_body self sq w = (Normal true, w1) <->
   result_matches_count result = true /\
   (0 < len result \/ expects_none (sq_options sq) = true)) /\
  (assert_text_body self tq w =
     (Raise (ExpectationNotMet (tq_failure_message tq w2)), w2) <->
   ~ (matches_count count (tq_options tq) = true /\
      ((0 < count)%Z \/ expects_none (tq_options tq) = true))) /\
  (assert_text_body self tq w = (Normal true, w2) <->
   matches_count count (tq_options tq) = true /\
   ((0 < count)%Z \/ expects_none (tq_options tq) = true)) /\
  (result_matches_count result = true -> len result = 0 ->
   (assert_selector_body self sq w = (Normal true, w1) <->
    expects_none (sq_options sq) = true)) /\
  (matches_count count (tq_options tq) = true -> count = 0%Z ->
   (assert_text_body self tq w = (Normal true, w2) <->
    expects_none (tq_options tq) = true)).
Proof.
  intros Hsq Htq.
  rewrite (assert_selector_body_run _ _ _ _ _ Hsq).
  rewrite (assert_text_body_run _ _ _ _ _ Htq).
  pose proof (positive_guard
    (result_matches_count result &&
     ((0 <? len result)%nat || expects_none (sq_options sq)))
    (fun _ => ExpectationNotMet (failure_message result)) w1) as [Hs1 Hs2].
  pose proof (positive_guard
    (matches_count count (tq_options tq) &&
     ((0 <? count)%Z || expects_none (tq_options tq)))
    (fun w => ExpectationNotMet (tq_failure_message tq w)) w2) as [Ht1 Ht2].
  rewrite satisfied_and_present in Hs1, Hs2.
  rewrite satisfied_and_present_Z in Ht1, Ht2.
  refine (conj Hs1 (conj Hs2 (conj Ht1 (conj Ht2 (conj _ _))))).
  - intros Hverdict Hlen. rewrite Hs2. split.
    + intros [_ [Hpos | Hnone]]; [lia | assumption].
    + auto.
  - intros Hverdict Hcount. rewrite Ht2. split.
    + intros [_ [Hpos | Hnone]]; [lia | assumption].
    + auto.
Qed.

(** C4: on the same resolved result the body of [assert_no_selector] raises
    [ExpectationNotMet] precisely when the result meets its count options
    and either holds an element or the options expect none, which is
    precisely when the body of [assert_selector] returns [True]; and it
    returns [True] precisely when that body raises.  [assert_no_text] and
    [assert_text] are dual in the same way. *)
Theorem assert_no_selector_body_inverts
    (self : Node) (sq : SelectorQueryT) (tq : TextQueryT)
    (w w1 w2 : World) (result : Result) (count : Z) :
  sq_resolve_for sq self w = (Normal result, w1) ->
  tq_resolve_for tq self w = (Normal count, w2) ->
  (assert_no_selector_body self sq w =
     (Raise (ExpectationNotMet (negative_failure_message result)), w1) <->
   result_matches_count result = true /\
   (0 < len result \/ expects_none (sq_options sq) = true)) /\
  (assert_no_selector_body self sq w =
     (Raise (ExpectationNotMet (negative_failure_message result)), w1) <->
   assert_selector_body self sq w = (Normal true, w1)) /\
  (assert_no_selector_body self sq w = (Normal true, w1) <->
   assert_selector_body self sq w =
     (Raise (ExpectationNotMet (failure_message result)), w1)) /\
  (assert_no_text_body self tq w =
     (Raise (ExpectationNotMet (tq_negative_failure_message tq w2)), w2) <->
   matches_count count (tq_options tq) = true /\
   ((0 < count)%Z \/ expects_none (tq_options tq) = true)) /\
  (assert_no_text_body self tq w =
     (Raise (ExpectationNotMet (tq_negative_failure_message tq w2)), w2) <->
   assert_text_body self tq w = (Normal true, w2)) /\
  (assert_no_text_body self tq w = (Normal true, w2) <->
   assert_text_body self tq w =
     (Raise (ExpectationNotMet (tq_failure_message tq w2)), w2)).
Proof.
  intros Hsq Htq.
  rewrite (assert_selector_body_run _ _ _ _ _ Hsq).
  rewrite (assert_no_selector_body_run _ _ _ _ _ Hsq).
  rewrite (assert_text_body_run _ _ _ _ _ Htq).
  rewrite (assert_no_text_body_run _ _ _ _ _ Htq).
  rewrite <- satisfied_and_present, <- satisfied_and_present_Z.
  destruct (result_matches_count result &&
            ((0 <? len result)%nat || expects_none (sq_options sq)));
    destruct (matches_count count (tq_options tq) &&
              ((0 <? count)%Z || expects_none (tq_options tq)));
    simpl; unfold ret; repeat split; intros H;
    try discriminate; try reflexivity; try congruence.
Qed.

(** *** Matching the node itself *)

Lemma node_in_true (self : Node) (result : Result) :
  node_in self result = true <->
  exists e, In e (elements result) /\ node_id e = node_id self.
Proof.
  unfold node_in. rewrite existsb_exists.
  split; intros (e & Hin & He); exists e; split; try assumption;
    now apply Nat.eqb_eq.
Qed.

Lemma node_in_false (self : Node) (result : Result) :
  node_in self result = false <->
  forall e, In e (elements result) -> node_id e <> node_id self.
Proof.
  rewrite <- not_true_iff_false, node_in_true. split.
  - intros Hnone e Hin He. apply Hnone. eauto.
  - intros Hall (e & Hin & He). exact (Hall e Hin He).
Qed.

Lemma parent_or_query_scope_run self w parent w1 :
  find_first self [PStr "xpath"; PStr "./parent::*"] {[ "minimum" := PInt 0 ]} w
    = (Normal parent, w1) ->
  parent_or_query_scope self w =
  (Normal (match parent with Some p => p | None => query_scope self end), w1).
Proof.
  intros H. unfold parent_or_query_scope. now rewrite (bind_Normal _ _ _ _ _ H).
Qed.

(** One attempt of the two matching bodies, once [find_first] and the
    resolution against the parent (or the query scope) have returned. *)
Lemma assert_matches_selector_body_membership
    (self : Node) (query : SelectorQueryT) (parent : option Node)
    (w w1 w2 : World) (result : Result) :
  find_first self [PStr "xpath"; PStr "./parent::*"] {[ "minimum" := PInt 0 ]} w
    = (Normal parent, w1) ->
  sq_resolve_for query
    (match parent with Some p => p | None => query_scope self end) w1
    = (Normal result, w2) ->
  (assert_matches_selector_body self query w = (Normal true, w2) <->
   exists e, In e (elements result) /\ node_id e = node_id self) /\
  (assert_matches_selector_body self query w =
     (Raise (ExpectationNotMet "Item does not match the provided selector"), w2) <->
   forall e, In e (elements result) -> node_id e <> node_id self) /\
  ((exists e, In e (elements result) /\ node_markup e = node_markup self) ->
   (forall e, In e (elements result) -> node_id e <> node_id self) ->
   assert_matches_selector_body self query w =
     (Raise (ExpectationNotMet "Item does not match the provided selector"), w2)) /\
  (assert_not_match_selector_body self query w = (Normal true, w2) <->
   forall e, In e (elements result) -> node_id e <> node_id self) /\
  (assert_not_match_selector_body self query w =
     (Raise (ExpectationNotMet "Item matched the provided selector"), w2) <->
   exists e, In e (elements result) /\ node_id e = node_id self).
Proof.
  intros Hparent Hresolve.
  pose proof (parent_or_query_scope_run _ _ _ _ Hparent) as Hscope.
  unfold assert_matches_selector_body, assert_not_match_selector_body.
  rewrite !(bind_Normal _ _ _ _ _ Hscope), !(bind_Normal _ _ _ _ _ Hresolve).
  rewrite <- node_in_true, <- node_in_false.
  destruct (node_in self result); simpl; unfold ret, raise;
    repeat split; intros; try discriminate; try reflexivity; try congruence.
Qed.

(** *** The first argument of the multi-selector assertions *)

Lemma recognized_dec (selector : pyval) :
  {recognized selector} + {~ recognized selector}.
Proof.
  destruct selector as [| b | n | s | lo hi | items | h i];
    try (right; intros (s' & Heq & _); discriminate).
  destruct (decide (s ∈ selectors)) as [Hin | Hout].
  - left. exists s. auto.
  - right. intros (s' & [= <-] & Hin). contradiction.
Qed.

Lemma normalize_selector_recognized selector locators :
  recognized selector ->
  normalize_selector selector locators = Normal (selector, locators).
Proof.
  intros (s & -> & Hin). unfold normalize_selector, in_selectors. simpl.
  now rewrite bool_decide_eq_true_2.
Qed.

Lemma normalize_selector_unrecognized selector locators :
  registry_test_returns selector ->
  ~ recognized selector ->
  normalize_selector selector locators =
  Normal (default_selector, selector :: locators).
Proof.
  intros Htest Hnot. unfold normalize_selector, in_selectors.
  destruct (isinstance_Hashable selector) eqn:Hinst; simpl; [|reflexivity].
  destruct Htest as [Hno | Hhash]; [congruence|]. rewrite Hhash.
  destruct selector as [| b | n | s | lo hi | items | h i]; try reflexivity.
  rewrite bool_decide_eq_false_2; [reflexivity|].
  intros Hin. apply Hnot. exists s. auto.
Qed.

Lemma normalize_selector_raises selector locators :
  isinstance_Hashable selector = true ->
  hash_succeeds selector = false ->
  normalize_selector selector locators =
  Raise (OtherError "TypeError" "unhashable type").
Proof.
  intros Hinst Hhash. unfold normalize_selector, in_selectors.
  now rewrite Hinst, Hhash.
Qed.

(** What lines 294-296 and 332-334 do with the first argument: a key of the
    registry is the selector; an argument that is no key becomes the first
    locator under the default selector when it is no instance of [Hashable]
    or can be hashed; an instance of [Hashable] that cannot be hashed makes
    the registry test, and the call, raise [TypeError]. *)
Lemma first_argument_is_selector_or_locator
    (self : Node) (selector : pyval) (locators : list pyval) (kw : kwargs) :
  (isinstance_Hashable selector = false -> ~ recognized selector) /\
  (registry_test_returns selector -> ~ recognized selector ->
   normalize_selector selector locators =
     Normal (default_selector, selector :: locators) /\
   assert_all_of_selectors self selector locators kw =
     synchronize self bool (group_wait kw)
       (assert_all_of_selectors_body self default_selector (selector :: locators) kw) /\
   assert_none_of_selectors self selector locators kw =
     synchronize self bool (group_wait kw)
       (assert_none_of_selectors_body self default_selector (selector :: locators) kw)) /\
  (recognized selector ->
   normalize_selector selector locators = Normal (selector, locators) /\
   assert_all_of_selectors self selector locators kw =
     synchronize self bool (group_wait kw)
       (assert_all_of_selectors_body self selector locators kw) /\
   assert_none_of_selectors self selector locators kw =
     synchronize self bool (group_wait kw)
       (assert_none_of_selectors_body self selector locators kw)) /\
  (~ registry_test_returns selector ->
   forall w,
     assert_all_of_selectors self selector locators kw w =
       (Raise (OtherError "TypeError" "unhashable type"), w) /\
     assert_none_of_selectors self selector locators kw w =
       (Raise (OtherError "TypeError" "unhashable type"), w)).
Proof.
  split; [|split; [|split]].
  - intros Hhash (s & -> & _). discriminate.
  - intros Htest Hnot.
    pose proof (normalize_selector_unrecognized _ locators Htest Hnot) as Hn.
    unfold assert_all_of_selectors, assert_none_of_selectors. rewrite Hn.
    repeat split; reflexivity.
  - intros Hrec. pose proof (normalize_selector_recognized _ locators Hrec) as Hn.
    unfold assert_all_of_selectors, assert_none_of_selectors. rewrite Hn.
    repeat split; reflexivity.
  - intros Htest w. unfold registry_test_returns in Htest.
    assert (Hinst : isinstance_Hashable selector = true)
      by (destruct (isinstance_Hashable selector); [reflexivity | tauto]).
    assert (Hhash : hash_succeeds selector = false)
      by (destruct (hash_succeeds selector); [tauto | reflexivity]).
    unfold assert_all_of_selectors, assert_none_of_selectors.
    rewrite (normalize_selector_raises _ locators Hinst Hhash).
    split; reflexivity.
Qed.

(** C6: a first argument that is an instance of [Hashable] and cannot be
    hashed, a tuple that holds a list, is not a key of the registry; it is
    not taken as a locator: the registry test of lines 294 and 332 raises
    [TypeError], and so do [assert_all_of_selectors] and
    [assert_none_of_selectors], on every host and before any sub-check. *)
Theorem unhashable_tuple_is_not_made_a_locator
    (self : Node) (locators : list pyval) (kw : kwargs) (w : World) :
  isinstance_Hashable (PTuple [PStr "a"; PObj false 0]) = true /\
  ~ recognized (PTuple [PStr "a"; PObj false 0]) /\
  normalize_selector (PTuple [PStr "a"; PObj false 0]) locators =
    Raise (OtherError "TypeError" "unhashable type") /\
  assert_all_of_selectors self (PTuple [PStr "a"; PObj false 0]) locators kw w =
    (Raise (OtherError "TypeError" "unhashable type"), w) /\
  assert_none_of_selectors self (PTuple [PStr "a"; PObj false 0]) locators kw w =
    (Raise (OtherError "TypeError" "unhashable type"), w).
Proof.
  split; [reflexivity|]. split; [intros (s & Heq & _); discriminate Heq|].
  assert (Hn : normalize_selector (PTuple [PStr "a"; PObj false 0]) locators =
               Raise (OtherError "TypeError" "unhashable type"))
    by (apply normalize_selector_raises; reflexivity).
  unfold assert_all_of_selectors, assert_none_of_selectors. rewrite Hn.
  repeat split; reflexivity.
Qed.

(** *** Aliases and forced options *)

(** C8: each alias behaves as its canonical operation on every input:
    [refute_selector] as [assert_no_selector], [refute_matches_selector] as
    [assert_not_match_selector], [has_content] as [has_text] and
    [has_no_content] as [has_no_text]. *)
Theorem aliases_behave_as_canonical
    (self : Node) (args : list pyval) (kw : kwargs) (w : World) :
  refute_selector self args kw w = assert_no_selector self args kw w /\
  refute_matches_selector self args kw w = assert_not_match_selector self args kw w /\
  has_content self args kw w = has_text self args kw w /\
  has_no_content self args kw w = has_no_text self args kw w.
Proof. repeat split; reflexivity. Qed.

(** C9: [has_checked_field] and [has_no_checked_field] run the field check
    with the option [checked] set to [True], [has_unchecked_field] and
    [has_no_unchecked_field] with [checked] set to [False]; the other
    options are the caller's, and a [checked] the caller supplied makes no
    difference. *)
Theorem checked_option_is_forced
    (self : Node) (locator : pyval) (kw : kwargs) (supplied : pyval) :
  (exists forced : kwargs,
     forced !! "checked" = Some (PBool true) /\
     (forall key, key <> "checked" -> forced !! key = kw !! key) /\
     has_checked_field self locator kw =
       has_selector self [PStr "field"; locator] forced /\
     has_no_checked_field self locator kw =
       has_no_selector self [PStr "field"; locator] forced) /\
  (exists forced : kwargs,
     forced !! "checked" = Some (PBool false) /\
     (forall key, key <> "checked" -> forced !! key = kw !! key) /\
     has_unchecked_field self locator kw =
       has_selector self [PStr "field"; locator] forced /\
     has_no_unchecked_field self locator kw =
       has_no_selector self [PStr "field"; locator] forced) /\
  has_checked_field self locator (<[ "checked" := supplied ]> kw) =
    has_checked_field self locator kw /\
  has_no_checked_field self locator (<[ "checked" := supplied ]> kw) =
    has_no_checked_field self locator kw /\
  has_unchecked_field self locator (<[ "checked" := supplied ]> kw) =
    has_unchecked_field self locator kw /\
  has_no_unchecked_field self locator (<[ "checked" := supplied ]> kw) =
    has_no_unchecked_field self locator kw.
Proof.
  split; [|split].
  - exists (<[ "checked" := PBool true ]> kw).
    split; [apply lookup_insert_eq|].
    split; [intros key Hkey; now apply lookup_insert_ne|].
    split; reflexivity.
  - exists (<[ "checked" := PBool false ]> kw).
    split; [apply lookup_insert_eq|].
    split; [intros key Hkey; now apply lookup_insert_ne|].
    split; reflexivity.
  - unfold has_checked_field, has_no_checked_field,
      has_unchecked_field, has_no_unchecked_field.
    rewrite !insert_insert_eq. repeat split; reflexivity.
Qed.

(** *** The boolean variants *)

Lemma try_except_is_boolean_variant (m : M World bool) :
  (forall w w' v, m w = (Normal v, w') -> v = true) ->
  boolean_variant_of (try_except_ExpectationNotMet m (ret false)) m.
Proof.
  intros Htrue.
  unfold boolean_variant_of, try_except_ExpectationNotMet, ret.
  repeat match goal with |- _ /\ _ => split end.
  all: intros w w'.
  all: destruct (m w) as [[v|[msg|cls msg]] w1] eqn:Hm.
  all: try (apply Htrue in Hm; subst v).
  all: try (intros u [= <- <-]; reflexivity).
  all: try (intros e He [= <- <-]; (reflexivity || discriminate)).
  all: split; try discriminate; try (intros [msg' H]; discriminate).
  all: try (intros [= <-]; eauto).
  all: intros [msg' [= _ <-]]; reflexivity.
Qed.

Lemma true_unless_is_boolean_variant (m : M World bool) :
  boolean_variant_of (true_unless_ExpectationNotMet m) m.
Proof.
  unfold boolean_variant_of, true_unless_ExpectationNotMet,
    try_except_ExpectationNotMet, bind, ret.
  repeat match goal with |- _ /\ _ => split end.
  all: intros w w'.
  all: destruct (m w) as [[v|[msg|cls msg]] w1] eqn:Hm.
  all: try (intros u [= _ <-]; reflexivity).
  all: try (intros e He [= <- <-]; (reflexivity || discriminate)).
  all: split; try discriminate; try (intros [msg' H]; discriminate).
  all: try (intros [= <-]; eauto).
  all: intros [msg' [= _ <-]]; reflexivity.
Qed.

Lemma try_except_returns {A} (m h : M World A) w w' v :
  m w = (Normal v, w') -> try_except_ExpectationNotMet m h w = (Normal v, w').
Proof. intros Hm. unfold try_except_ExpectationNotMet. now rewrite Hm. Qed.

(** An assertion that went through [synchronize] returns what its body
    returned, and the bodies only return [True]. *)
Lemma synchronized_returns_true {Q} (built : outcome Q) (wait : Q -> pyval)
    (self : Node) (body : Q -> M World bool) :
  ends_with_an_attempt ->
  (forall q w w' v, body q w = (Normal v, w') -> v = true) ->
  forall w w' v,
    bind (lift built) (fun q => synchronize self bool (wait q) (body q)) w
      = (Normal v, w') ->
    v = true.
Proof.
  intros Hends Hbody w w' v. destruct built as [q|e]; [|discriminate].
  rewrite bind_lift_Normal. intros Hs.
  apply Hends in Hs as (w0 & Hb). eauto.
Qed.

Lemma guarded_returns_true {A} (m : M World A) (k : A -> bool)
    (e : A -> World -> exn) w w' v :
  bind m (fun x => if k x then (fun w => (Raise (e x w), w)) else ret true) w
    = (Normal v, w') ->
  v = true.
Proof.
  intros H. apply bind_inv_Normal in H as (x & w1 & _ & H).
  destruct (k x); [discriminate|]. now injection H as <- _.
Qed.

Lemma loop_returns_true {A B} (xs : list A) (check : A -> M World B) w w' v :
  bind (for_each xs check) (fun _ => ret true) w = (Normal v, w') -> v = true.
Proof.
  intros H. apply bind_inv_Normal in H as (x & w1 & _ & H).
  now injection H as <- _.
Qed.

Lemma assertions_return_true :
  ends_with_an_attempt ->
  forall self args styles selector locators kw w w' v,
    (assert_selector self args kw w = (Normal v, w') -> v = true) /\
    (assert_no_selector self args kw w = (Normal v, w') -> v = true) /\
    (assert_style self styles kw w = (Normal v, w') -> v = true) /\
    (assert_all_of_selectors self selector locators kw w = (Normal v, w') -> v = true) /\
    (assert_none_of_selectors self selector locators kw w = (Normal v, w') -> v = true) /\
    (assert_matches_selector self args kw w = (Normal v, w') -> v = true) /\
    (assert_not_match_selector self args kw w = (Normal v, w') -> v = true) /\
    (assert_text self args kw w = (Normal v, w') -> v = true) /\
    (assert_no_text self args kw w = (Normal v, w') -> v = true).
Proof.
  intros Hends self args styles selector locators kw w w' v.
  repeat split.
  - apply (synchronized_returns_true _ _ _ _ Hends). intros q w0 w1 v0.
    unfold assert_selector_body.
    apply (guarded_returns_true _ (fun r => negb _)
             (fun r _ => ExpectationNotMet (failure_message r))).
  - apply (synchronized_returns_true _ _ _ _ Hends). intros q w0 w1 v0.
    unfold assert_no_selector_body.
    apply (guarded_returns_true _ (fun r => _ && _)
             (fun r _ => ExpectationNotMet (negative_failure_message r))).
  - apply (synchronized_returns_true _ _ _ _ Hends). intros q w0 w1 v0.
    unfold assert_style_body.
    apply (guarded_returns_true _ (fun ok => negb ok)
             (fun _ w => ExpectationNotMet (stq_failure_message q w))).
  - unfold assert_all_of_selectors.
    destruct (normalize_selector selector locators) as [[sel locs]|e]; [|discriminate].
    rewrite bind_lift_Normal. intros Hs. apply Hends in Hs as (w0 & Hb).
    exact (loop_returns_true _ _ _ _ _ Hb).
  - unfold assert_none_of_selectors.
    destruct (normalize_selector selector locators) as [[sel locs]|e]; [|discriminate].
    rewrite bind_lift_Normal. intros Hs. apply Hends in Hs as (w0 & Hb).
    exact (loop_returns_true _ _ _ _ _ Hb).
  - apply (synchronized_returns_true _ _ _ _ Hends). intros q w0 w1 v0.
    unfold assert_matches_selector_body. intros H.
    apply bind_inv_Normal in H as (scope & w2 & _ & H).
    revert H.
    apply (guarded_returns_true _ (fun r => negb (node_in self r))
             (fun _ _ => ExpectationNotMet "Item does not match the provided selector")).
  - apply (synchronized_returns_true _ _ _ _ Hends). intros q w0 w1 v0.
    unfold assert_not_match_selector_body. intros H.
    apply bind_inv_Normal in H as (scope & w2 & _ & H).
    revert H.
    apply (guarded_returns_true _ (fun r => node_in self r)
             (fun _ _ => ExpectationNotMet "Item matched the provided selector")).
  - apply (synchronized_returns_true _ _ _ _ Hends). intros q w0 w1 v0.
    unfold assert_text_body.
    apply (guarded_returns_true _ (fun c => negb _)
             (fun _ w => ExpectationNotMet (tq_failure_message q w))).
  - apply (synchronized_returns_true _ _ _ _ Hends). intros q w0 w1 v0.
    unfold assert_no_text_body.
    apply (guarded_returns_true _ (fun c => _ && _)
             (fun _ w => ExpectationNotMet (tq_negative_failure_message q w))).
Qed.

(** C3: each boolean variant calls its assertion; it returns [True] when the
    assertion returns, [False] exactly when the assertion raises
    [ExpectationNotMet], and lets every other exception through unchanged.
    [has_text] and [has_no_text] return the value of their assertion, which
    is [True] as soon as [synchronize] hands back what its body returned. *)
Theorem boolean_variants_catch_only_ExpectationNotMet
    (self : Node) (args : list pyval) (styles : gmap string pyval)
    (selector : pyval) (locators : list pyval) (kw : kwargs) :
  boolean_variant_of (has_selector self args kw) (assert_selector self args kw) /\
  boolean_variant_of (has_no_selector self args kw) (assert_no_selector self args kw) /\
  boolean_variant_of (has_style self styles kw) (assert_style self styles kw) /\
  boolean_variant_of (has_all_of_selectors self selector locators kw)
                     (assert_all_of_selectors self selector locators kw) /\
  boolean_variant_of (has_none_of_selectors self selector locators kw)
                     (assert_none_of_selectors self selector locators kw) /\
  boolean_variant_of (matches_selector self args kw)
                     (assert_matches_selector self args kw) /\
  boolean_variant_of (not_match_selector self args kw)
                     (assert_not_match_selector self args kw) /\
  (forall w w' v, assert_text self args kw w = (Normal v, w') ->
                  has_text self args kw w = (Normal v, w')) /\
  (forall w w' v, assert_no_text self args kw w = (Normal v, w') ->
                  has_no_text self args kw w = (Normal v, w')) /\
  (ends_with_an_attempt ->
   boolean_variant_of (has_text self args kw) (assert_text self args kw) /\
   boolean_variant_of (has_no_text self args kw) (assert_no_text self args kw)).
Proof.
  repeat match goal with |- _ /\ _ => split end;
    try apply true_unless_is_boolean_variant.
  - intros w w' v. apply try_except_returns.
  - intros w w' v. apply try_except_returns.
  - intros Hends. split; apply try_except_is_boolean_variant; intros w w' v;
      apply (assertions_return_true Hends self args styles selector locators kw w w' v).
Qed.

(** *** Groups of locators *)

(** C10: with a key of the selector registry and no locator,
    [assert_all_of_selectors] and [assert_none_of_selectors] return [True]
    and leave the state as it was, whatever the queries of the host would do:
    the loop has nothing to run and no query is built or resolved. *)
Theorem no_locator_returns_true_untouched
    (self : Node) (s : string) (kw : kwargs) (w : World) :
  returns_first_success ->
  s ∈ selectors ->
  assert_all_of_selectors_body self (PStr s) [] kw w = (Normal true, w) /\
  assert_none_of_selectors_body self (PStr s) [] kw w = (Normal true, w) /\
  assert_all_of_selectors self (PStr s) [] kw w = (Normal true, w) /\
  assert_none_of_selectors self (PStr s) [] kw w = (Normal true, w).
Proof.
  intros Hfirst Hin.
  assert (Hrec : recognized (PStr s)) by (exists s; auto).
  unfold assert_all_of_selectors, assert_none_of_selectors.
  rewrite (normalize_selector_recognized _ [] Hrec), !bind_lift_Normal.
  repeat split; try reflexivity; now apply Hfirst.
Qed.

(** The loop of [assert_all_of_selectors] and of [assert_none_of_selectors]
    runs under one [synchronize] whose wait is the group's; every sub-check
    is called with the caller's keyword options as they are and calls
    [synchronize] itself with the wait of its query.  What becomes of that
    nested call is for [synchronize] to say: see [session_host]. *)
Lemma group_wait_and_options_passed_down
    (self : Node) (selector : pyval) (locators : list pyval) (kw : kwargs)
    (sel : pyval) (locs : list pyval) :
  normalize_selector selector locators = Normal (sel, locs) ->
  (forall v, kw !! "wait" = Some v -> group_wait kw = v) /\
  (kw !! "wait" = None -> group_wait kw = default_max_wait_time) /\
  assert_all_of_selectors self selector locators kw =
    synchronize self bool (group_wait kw)
      (for_each locs (fun locator => assert_selector self [sel; locator] kw) >>
       ret true) /\
  assert_none_of_selectors self selector locators kw =
    synchronize self bool (group_wait kw)
      (for_each locs (fun locator => assert_no_selector self [sel; locator] kw) >>
       ret true) /\
  (forall locator query,
     SelectorQuery [sel; locator] kw = Normal query ->
     assert_selector self [sel; locator] kw =
       synchronize self bool (sq_wait query) (assert_selector_body self query) /\
     assert_no_selector self [sel; locator] kw =
       synchronize self bool (sq_wait query) (assert_no_selector_body self query)) /\
  (forall build : list pyval -> kwargs -> outcome SelectorQueryT,
     (forall locator, In locator locs ->
        build [sel; locator] kw = SelectorQuery [sel; locator] kw) ->
     assert_all_of_selectors (host := with_SelectorQuery build)
       self selector locators kw =
     assert_all_of_selectors self selector locators kw /\
     assert_none_of_selectors (host := with_SelectorQuery build)
       self selector locators kw =
     assert_none_of_selectors self selector locators kw).
Proof.
  intros Hnorm. unfold group_wait.
  split; [intros v ->; reflexivity|].
  split; [intros ->; reflexivity|].
  assert (Hnorm' : forall build,
            normalize_selector (host := with_SelectorQuery build) selector locators
            = Normal (sel, locs)) by (intros build; exact Hnorm).
  unfold assert_all_of_selectors, assert_none_of_selectors. rewrite Hnorm.
  split; [reflexivity|]. split; [reflexivity|]. split.
  - intros locator query Hquery.
    unfold assert_selector, assert_no_selector. rewrite Hquery.
    split; reflexivity.
  - intros build Hbuild.
    assert (Hall : assert_all_of_selectors_body (host := with_SelectorQuery build)
                     self sel locs kw
                   = assert_all_of_selectors_body self sel locs kw).
    { unfold assert_all_of_selectors_body. f_equal. apply for_each_ext.
      intros locator Hin. unfold assert_selector.
      change (SelectorQuery (Host := with_SelectorQuery build) [sel; locator] kw)
        with (build [sel; locator] kw).
      now rewrite (Hbuild locator Hin). }
    assert (Hnone : assert_none_of_selectors_body (host := with_SelectorQuery build)
                      self sel locs kw
                    = assert_none_of_selectors_body self sel locs kw).
    { unfold assert_none_of_selectors_body. f_equal. apply for_each_ext.
      intros locator Hin. unfold assert_no_selector.
      change (SelectorQuery (Host := with_SelectorQuery build) [sel; locator] kw)
        with (build [sel; locator] kw).
      now rewrite (Hbuild locator Hin). }
    rewrite (Hnorm' build).
    cbv beta iota delta [bind lift].
    rewrite Hall, Hnone. split; reflexivity.
Qed.

End MatchersFacts.

(** ** Regions of states *)

Section RegionRunning.
Context {World : Type}.

(** A loop whose checks do not leave [region] does not leave it. *)
Lemma for_each_within {A B} (region : World -> Prop) (check : A -> M World B) xs :
  (forall x, In x xs -> forall w r w',
     region w -> check x w = (r, w') -> region w') ->
  forall w r w', region w -> for_each xs check w = (r, w') -> region w'.
Proof.
  induction xs as [|x xs IH]; intros Hall w r w' Hw; simpl.
  - unfold ret. intros [= <- <-]. assumption.
  - unfold bind. destruct (check x w) as [[v|e] w1] eqn:Hx.
    + apply IH.
      * intros y Hy. apply Hall. now right.
      * exact (Hall x (or_introl eq_refl) _ _ _ Hw Hx).
    + intros [= <- <-]. exact (Hall x (or_introl eq_refl) _ _ _ Hw Hx).
Qed.

(** Two loops whose checks agree in [region] agree in [region]. *)
Lemma for_each_ext_within {A B} (region : World -> Prop)
    (f g : A -> M World B) xs :
  (forall x, In x xs -> forall w, region w -> f x w = g x w) ->
  (forall x, In x xs -> forall w r w',
     region w -> g x w = (r, w') -> region w') ->
  forall w, region w -> for_each xs f w = for_each xs g w.
Proof.
  induction xs as [|x xs IH]; intros Heq Hall w Hw; [reflexivity|]. simpl.
  unfold bind. rewrite (Heq x (or_introl eq_refl) w Hw).
  destruct (g x w) as [[v|e] w1] eqn:Hx; [|reflexivity].
  apply IH.
  - intros y Hy. apply Heq. now right.
  - intros y Hy. apply Hall. now right.
  - exact (Hall x (or_introl eq_refl) _ _ _ Hw Hx).
Qed.

(** In [region], a loop in which every check returns or raises
    [ExpectationNotMet], and one of them raises it, raises it. *)
Lemma for_each_raises_within {A B} (region : World -> Prop)
    (check : A -> M World B) xs bad :
  In bad xs ->
  (forall w, region w ->
     exists msg w', check bad w = (Raise (ExpectationNotMet msg), w')) ->
  (forall x, In x xs -> forall w r w',
     region w -> check x w = (r, w') ->
     region w' /\
     match r with Normal _ => True | Raise e => is_ExpectationNotMet e = true end) ->
  forall w, region w ->
    exists msg w', for_each xs check w = (Raise (ExpectationNotMet msg), w').
Proof.
  induction xs as [|x xs IH]; intros Hin Hbad Hall w Hw; [destruct Hin|].
  simpl. destruct (check x w) as [[v|e] w1] eqn:Hx.
  - rewrite (bind_Normal _ _ _ _ _ Hx).
    destruct Hin as [->|Hin].
    + destruct (Hbad w Hw) as (msg & w' & Hraise). congruence.
    + apply IH; [assumption | assumption | |].
      * intros y Hy. apply Hall. now right.
      * exact (proj1 (Hall x (or_introl eq_refl) _ _ _ Hw Hx)).
  - rewrite (bind_Raise _ _ _ _ _ Hx).
    pose proof (proj2 (Hall x (or_introl eq_refl) _ _ _ Hw Hx)) as He. simpl in He.
    destruct e as [msg|cls msg]; [eauto | discriminate].
Qed.

End RegionRunning.

Section RegionSynchronize.
Context {World : Type} (now : World -> nat) (sleep : World -> World).

(** The loop ends with an attempt of its body; when the pause before the
    deadline and the body do not leave [region], a loop started in [region]
    makes that attempt in [region] and ends there. *)
Lemma synchronize_loop_within {A} (region : World -> Prop)
    (fuel deadline : nat) (body : M World A) :
  (forall w, region w -> now w < deadline -> region (sleep w)) ->
  forall w r w',
    synchronize_loop now sleep fuel deadline body w = (r, w') ->
    exists w0, body w0 = (r, w') /\
      ((forall u r' u', region u -> body u = (r', u') -> region u') ->
       region w -> region w0 /\ region w').
Proof.
  intros Hsleep. induction fuel as [|fuel IH]; intros w r w'; simpl;
    destruct (body w) as [[v|e] w1] eqn:Hb.
  - intros [= <- <-]. exists w. split; [assumption|]. intros Hbody Hw.
    split; [assumption | exact (Hbody _ _ _ Hw Hb)].
  - intros Hr. exists w.
    assert (Hr' : (Raise e, w1) = (r, w'))
      by (destruct (retriable e && (now w1 <? deadline)%nat); exact Hr).
    injection Hr' as <- <-. split; [assumption|]. intros Hbody Hw.
    split; [assumption | exact (Hbody _ _ _ Hw Hb)].
  - intros [= <- <-]. exists w. split; [assumption|]. intros Hbody Hw.
    split; [assumption | exact (Hbody _ _ _ Hw Hb)].
  - destruct (retriable e && (now w1 <? deadline)%nat) eqn:Hagain.
    + intros Hloop. destruct (IH _ _ _ Hloop) as (w0 & Hw0 & Hin).
      exists w0. split; [assumption|]. intros Hbody Hw. apply Hin; [assumption|].
      apply andb_true_iff in Hagain as [_ Hlt]. apply Nat.ltb_lt in Hlt.
      apply Hsleep; [exact (Hbody _ _ _ Hw Hb) | assumption].
    + intros [= <- <-]. exists w. split; [assumption|]. intros Hbody Hw.
      split; [assumption | exact (Hbody _ _ _ Hw Hb)].
Qed.

(** Two bodies that agree in [region] make the same loop from a state of
    [region]. *)
Lemma synchronize_loop_ext_within {A} (region : World -> Prop)
    (fuel deadline : nat) (body body' : M World A) :
  (forall w, region w -> now w < deadline -> region (sleep w)) ->
  (forall u r u', region u -> body' u = (r, u') -> region u') ->
  (forall u, region u -> body u = body' u) ->
  forall w, region w ->
    synchronize_loop now sleep fuel deadline body w =
    synchronize_loop now sleep fuel deadline body' w.
Proof.
  intros Hsleep Hbody Heq. induction fuel as [|fuel IH]; intros w Hw; simpl;
    rewrite (Heq w Hw); destruct (body' w) as [[v|e] w1] eqn:Hb; try reflexivity.
  destruct (retriable e && (now w1 <? deadline)%nat) eqn:Hagain; [|reflexivity].
  apply IH. apply andb_true_iff in Hagain as [_ Hlt]. apply Nat.ltb_lt in Hlt.
  apply Hsleep; [exact (Hbody _ _ _ Hw Hb) | assumption].
Qed.

(** With a pause of one tick and a body that takes no time, the loop ends
    no later than its deadline. *)
Lemma synchronize_loop_deadline {A} (fuel deadline : nat) (body : M World A) :
  (forall w, now (sleep w) = S (now w)) ->
  (forall w r w', body w = (r, w') -> now w' = now w) ->
  forall w r w',
    now w <= deadline ->
    synchronize_loop now sleep fuel deadline body w = (r, w') ->
    now w' <= deadline.
Proof.
  intros Hsleep Hbody. induction fuel as [|fuel IH]; intros w r w' Hw; simpl;
    destruct (body w) as [[v|e] w1] eqn:Hb; pose proof (Hbody _ _ _ Hb) as Hclock.
  - intros [= <- <-]. lia.
  - destruct (retriable e && (now w1 <? deadline)%nat); intros [= <- <-]; lia.
  - intros [= <- <-]. lia.
  - destruct (retriable e && (now w1 <? deadline)%nat) eqn:Hagain.
    + apply IH. apply andb_true_iff in Hagain as [_ Hlt]. apply Nat.ltb_lt in Hlt.
      rewrite Hsleep. lia.
    + intros [= <- <-]. lia.
Qed.

End RegionSynchronize.

Section RegionMatchers.
Context {World : Type} `{host : Host World}.

Lemma attempts_within_outcome (region : World -> Prop) self {A} wait
    (body : M World A) w r w' :
  attempts_within region ->
  region w ->
  synchronize self A wait body w = (r, w') ->
  exists w0 w1, body w0 = (r, w1).
Proof.
  intros Hin Hw Hs. destruct (Hin _ _ _ _ _ _ _ Hw Hs) as (w0 & w1 & Hb & _). eauto.
Qed.

Lemma assert_no_selector_body_within (region : World -> Prop) self query :
  (forall w, region w -> exists result w',
     sq_resolve_for query self w = (Normal result, w') /\ region w') ->
  forall u r u',
    region u -> assert_no_selector_body self query u = (r, u') ->
    region u' /\
    match r with Normal _ => True | Raise e => is_ExpectationNotMet e = true end.
Proof.
  intros Hres u r u' Hu Hb.
  destruct (Hres u Hu) as (result & w1 & Hr & Hw1).
  rewrite (assert_no_selector_body_run _ _ _ _ _ Hr) in Hb.
  destruct (_ && _); injection Hb as <- <-; simpl; auto.
Qed.

Lemma assert_no_selector_within (region : World -> Prop) self selector kw locator :
  attempts_within region ->
  resolves_within region self selector kw locator ->
  forall w r w',
    region w ->
    assert_no_selector self [selector; locator] kw w = (r, w') ->
    region w' /\
    match r with Normal _ => True | Raise e => is_ExpectationNotMet e = true end.
Proof.
  intros Hin (query & Hquery & Hres) w r w' Hw.
  unfold assert_no_selector. rewrite Hquery, bind_lift_Normal. intros Hs.
  destruct (Hin _ _ _ _ _ _ _ Hw Hs) as (w0 & w1 & Hb & Hreg).
  destruct Hreg as [Hw0 Hw'].
  { intros u r' u' Hu Hbody.
    exact (proj1 (assert_no_selector_body_within region self query Hres _ _ _ Hu Hbody)). }
  split; [assumption|].
  exact (proj2 (assert_no_selector_body_within region self query Hres _ _ _ Hw0 Hb)).
Qed.

Lemma present_within_resolves (region : World -> Prop) self selector kw locator :
  present_within region self selector kw locator ->
  resolves_within region self selector kw locator.
Proof.
  intros (query & Hquery & Hres). exists query. split; [assumption|].
  intros w Hw. destruct (Hres w Hw) as (result & w' & Hr & Hw' & _). eauto.
Qed.

Lemma assert_no_selector_present_within (region : World -> Prop)
    self selector kw locator :
  attempts_within region ->
  present_within region self selector kw locator ->
  forall w, region w ->
    exists msg w',
      assert_no_selector self [selector; locator] kw w =
      (Raise (ExpectationNotMet msg), w').
Proof.
  intros Hin Hpresent w Hw.
  pose proof (present_within_resolves _ _ _ _ _ Hpresent) as (query' & Hquery' & Hres').
  destruct Hpresent as (query & Hquery & Hres).
  assert (query' = query) by congruence. subst query'.
  unfold assert_no_selector. rewrite Hquery, bind_lift_Normal.
  destruct (synchronize self bool (sq_wait query)
              (assert_no_selector_body self query) w) as [r w'] eqn:Hs.
  destruct (Hin _ _ _ _ _ _ _ Hw Hs) as (w0 & w1 & Hb & Hreg).
  destruct Hreg as [Hw0 _].
  { intros u r' u' Hu Hbody.
    exact (proj1 (assert_no_selector_body_within region self query Hres' _ _ _ Hu Hbody)). }
  destruct (Hres w0 Hw0) as (result & w2 & Hr & _ & Hverdict & Hfound).
  rewrite (assert_no_selector_body_run _ _ _ _ _ Hr) in Hb.
  assert (Hc : result_matches_count result &&
               ((0 <? len result)%nat || expects_none (sq_options query)) = true)
    by (apply satisfied_and_present; auto).
  rewrite Hc in Hb. injection Hb as <- <-. eauto.
Qed.

(** In [region], one pass of the negative checks over locators that resolve
    there, one of which is present there, raises [ExpectationNotMet] and
    does not leave [region]. *)
Lemma assert_none_of_selectors_body_within (region : World -> Prop)
    self sel locs kw present :
  attempts_within region ->
  In present locs ->
  present_within region self sel kw present ->
  (forall other, In other locs -> resolves_within region self sel kw other) ->
  (forall w, region w ->
     exists msg w',
       assert_none_of_selectors_body self sel locs kw w =
       (Raise (ExpectationNotMet msg), w')) /\
  (forall w r w', region w ->
     assert_none_of_selectors_body self sel locs kw w = (r, w') -> region w').
Proof.
  intros Hin Hpresent_in Hpresent Hothers. split.
  - intros w Hw.
    destruct (for_each_raises_within region
                (fun locator => assert_no_selector self [sel; locator] kw)
                locs present Hpresent_in
                (assert_no_selector_present_within _ _ _ _ _ Hin Hpresent)
                (fun other Hother =>
                   assert_no_selector_within _ _ _ _ _ Hin (Hothers other Hother))
                w Hw) as (msg & w1 & Hloop).
    unfold assert_none_of_selectors_body.
    rewrite (bind_Raise _ _ _ _ _ Hloop). eauto.
  - intros w r w' Hw. unfold assert_none_of_selectors_body, bind.
    destruct (for_each locs _ w) as [[u|e] w1] eqn:Hloop.
    + unfold ret. intros [= <- <-].
      refine (for_each_within region _ locs _ _ _ _ Hw Hloop).
      intros x Hx u0 r0 u0' Hu0 Hc.
      exact (proj1 (assert_no_selector_within _ _ _ _ _ Hin (Hothers x Hx) _ _ _ Hu0 Hc)).
    + intros [= <- <-].
      refine (for_each_within region _ locs _ _ _ _ Hw Hloop).
      intros x Hx u0 r0 u0' Hu0 Hc.
      exact (proj1 (assert_no_selector_within _ _ _ _ _ Hin (Hothers x Hx) _ _ _ Hu0 Hc)).
Qed.

End RegionMatchers.

(** ** The session of section 4.3 *)

Section SessionFacts.
Context {World : Type} `{host : Host World}.
Variable now : World -> nat.
Variable sleep : World -> World.
Variable ticks : pyval -> nat.

Lemma in_session_run {A} (m : M World A) (s : Session World) r s' :
  in_session m s = (r, s') ->
  m (inner s) = (r, inner s') /\ synchronized s' = synchronized s.
Proof.
  unfold in_session. destruct (m (inner s)) as [r0 w']. intros [= <- <-]. auto.
Qed.

(** Inside a [synchronize] the nested call runs its body once, in place. *)
Lemma nested_synchronize_runs_once {A} self wait (body : M (Session World) A) s :
  synchronized s = true ->
  synchronize (Host := (session_host host now sleep ticks)) self A wait body s = body s.
Proof. intros Hs. simpl. unfold session_synchronize. now rewrite Hs. Qed.

Lemma assert_selector_nested self args kw s :
  synchronized s = true ->
  assert_selector (host := (session_host host now sleep ticks)) self args kw s =
  assert_selector_once (host := (session_host host now sleep ticks)) self args kw s.
Proof.
  intros Hs. unfold assert_selector, assert_selector_once, bind, lift.
  destruct (SelectorQuery args kw) as [query|e]; [|reflexivity].
  now apply nested_synchronize_runs_once.
Qed.

Lemma assert_no_selector_nested self args kw s :
  synchronized s = true ->
  assert_no_selector (host := (session_host host now sleep ticks)) self args kw s =
  assert_no_selector_once (host := (session_host host now sleep ticks)) self args kw s.
Proof.
  intros Hs. unfold assert_no_selector, assert_no_selector_once, bind, lift.
  destruct (SelectorQuery args kw) as [query|e]; [|reflexivity].
  now apply nested_synchronize_runs_once.
Qed.

(** A check that runs once keeps the mark of the session and moves the clock
    as the resolution of its query does. *)
Lemma assert_selector_once_run self args kw s r s' :
  assert_selector_once (host := (session_host host now sleep ticks)) self args kw s = (r, s') ->
  synchronized s' = synchronized s /\
  (s' = s \/
   exists query result,
     sq_resolve_for (Host := host) query self (inner s) = (result, inner s')).
Proof.
  unfold assert_selector_once, bind, lift.
  destruct (SelectorQuery args kw) as [query|e].
  - unfold assert_selector_body, bind. simpl.
    destruct (in_session (sq_resolve_for (Host := host) query self) s) as [[result|e] s1] eqn:Hr;
      apply in_session_run in Hr as [Hr Hmark].
    + destruct (negb _); unfold raise, ret; intros [= <- <-]; split; eauto.
    + intros [= <- <-]. split; eauto.
  - intros [= <- <-]. auto.
Qed.

Lemma assert_no_selector_once_run self args kw s r s' :
  assert_no_selector_once (host := (session_host host now sleep ticks)) self args kw s = (r, s') ->
  synchronized s' = synchronized s /\
  (s' = s \/
   exists query result,
     sq_resolve_for (Host := host) query self (inner s) = (result, inner s')).
Proof.
  unfold assert_no_selector_once, bind, lift.
  destruct (SelectorQuery args kw) as [query|e].
  - unfold assert_no_selector_body, bind. simpl.
    destruct (in_session (sq_resolve_for (Host := host) query self) s) as [[result|e] s1] eqn:Hr;
      apply in_session_run in Hr as [Hr Hmark].
    + destruct (_ && _); unfold raise, ret; intros [= <- <-]; split; eauto.
    + intros [= <- <-]. split; eauto.
  - intros [= <- <-]. auto.
Qed.

(** A pass of checks that keep the mark keeps it. *)
Lemma marked_pass_once {A} (check : pyval -> M (Session World) A) locs :
  (forall x s r s', check x s = (r, s') -> synchronized s' = synchronized s) ->
  forall s r s',
    synchronized s = true ->
    (for_each locs check >> ret true) s = (r, s') -> synchronized s' = true.
Proof.
  intros Hcheck s r s' Hs. unfold bind.
  assert (Hloop : forall r0 s0,
            for_each locs check s = (r0, s0) -> synchronized s0 = true).
  { intros r0 s0.
    apply (for_each_within (fun u => synchronized u = true) check locs); [|exact Hs].
    intros x _ u0 r1 u0' Hu0 Hc. rewrite (Hcheck _ _ _ _ Hc). exact Hu0. }
  destruct (for_each locs check s) as [[u|e] s1] eqn:Hl.
  - unfold ret. intros [= <- <-]. exact (Hloop _ _ eq_refl).
  - intros [= <- <-]. exact (Hloop _ _ eq_refl).
Qed.

(** The outermost call: one loop on the budget of its wait, between the
    setting and the clearing of the mark. *)
Lemma outermost_synchronize {A} self wait (body : M (Session World) A) s :
  synchronized s = false ->
  synchronize (Host := (session_host host now sleep ticks)) self A wait body s =
  (let (r, s') :=
     spec_synchronize (session_now now) (session_sleep sleep) (ticks wait) body (enter s)
   in (r, leave s')).
Proof. intros Hs. simpl. unfold session_synchronize. now rewrite Hs. Qed.

(** Under the mark the pass of a group is the pass of the checks run once. *)
Lemma group_pass_runs_once (check once : pyval -> M (Session World) bool) locs
    (budget : nat) (s : Session World) :
  (forall x s, synchronized s = true -> check x s = once x s) ->
  (forall x s r s', once x s = (r, s') -> synchronized s' = synchronized s) ->
  spec_synchronize (session_now now) (session_sleep sleep) budget
    (for_each locs check >> ret true) (enter s) =
  spec_synchronize (session_now now) (session_sleep sleep) budget
    (for_each locs once >> ret true) (enter s).
Proof.
  intros Heq Hmark. unfold spec_synchronize.
  apply (synchronize_loop_ext_within (session_now now) (session_sleep sleep)
           (fun u => synchronized u = true)).
  - intros s0 Hs0 _. exact Hs0.
  - intros u r u' Hu Hb. exact (marked_pass_once once locs Hmark _ _ _ Hu Hb).
  - intros u Hu. unfold bind.
    rewrite (for_each_ext_within (fun u => synchronized u = true) check once locs);
      [reflexivity | | | exact Hu].
    + intros x _ s0 Hs0. now apply Heq.
    + intros x _ s0 r s0' Hs0 Hc. rewrite (Hmark _ _ _ _ Hc). exact Hs0.
  - reflexivity.
Qed.

Lemma assert_all_of_selectors_in_session self selector locators kw sel locs s :
  normalize_selector selector locators = Normal (sel, locs) ->
  synchronized s = false ->
  assert_all_of_selectors (host := (session_host host now sleep ticks)) self selector locators kw s =
  (let (r, s') :=
     spec_synchronize (session_now now) (session_sleep sleep) (ticks (group_wait kw))
       (for_each locs
          (fun locator => assert_selector_once (host := (session_host host now sleep ticks)) self [sel; locator] kw)
        >> ret true)
       (enter s)
   in (r, leave s')).
Proof.
  intros Hnorm Hs. unfold assert_all_of_selectors.
  change (normalize_selector (host := (session_host host now sleep ticks)) selector locators)
    with (normalize_selector selector locators).
  rewrite Hnorm, bind_lift_Normal.
  rewrite (outermost_synchronize _ _ _ _ Hs).
  unfold assert_all_of_selectors_body.
  rewrite (group_pass_runs_once
             (fun locator => assert_selector (host := (session_host host now sleep ticks)) self [sel; locator] kw)
             (fun locator => assert_selector_once (host := (session_host host now sleep ticks)) self [sel; locator] kw)).
  - reflexivity.
  - intros x s0 Hs0. now apply assert_selector_nested.
  - intros x s0 r s0' Hc. exact (proj1 (assert_selector_once_run _ _ _ _ _ _ Hc)).
Qed.

Lemma assert_none_of_selectors_in_session self selector locators kw sel locs s :
  normalize_selector selector locators = Normal (sel, locs) ->
  synchronized s = false ->
  assert_none_of_selectors (host := (session_host host now sleep ticks)) self selector locators kw s =
  (let (r, s') :=
     spec_synchronize (session_now now) (session_sleep sleep) (ticks (group_wait kw))
       (for_each locs
          (fun locator => assert_no_selector_once (host := (session_host host now sleep ticks)) self [sel; locator] kw)
        >> ret true)
       (enter s)
   in (r, leave s')).
Proof.
  intros Hnorm Hs. unfold assert_none_of_selectors.
  change (normalize_selector (host := (session_host host now sleep ticks)) selector locators)
    with (normalize_selector selector locators).
  rewrite Hnorm, bind_lift_Normal.
  rewrite (outermost_synchronize _ _ _ _ Hs).
  unfold assert_none_of_selectors_body.
  rewrite (group_pass_runs_once
             (fun locator => assert_no_selector (host := (session_host host now sleep ticks)) self [sel; locator] kw)
             (fun locator => assert_no_selector_once (host := (session_host host now sleep ticks)) self [sel; locator] kw)).
  - reflexivity.
  - intros x s0 Hs0. now apply assert_no_selector_nested.
  - intros x s0 r s0' Hc. exact (proj1 (assert_no_selector_once_run _ _ _ _ _ _ Hc)).
Qed.

End SessionFacts.

Section GroupFacts.
Context {World : Type} `{host : Host World}.
Variable now : World -> nat.
Variable sleep : World -> World.
Variable ticks : pyval -> nat.

Lemma once_pass_takes_no_time {A} (check : pyval -> M (Session World) A) locs :
  (forall x s r s', check x s = (r, s') -> now (inner s') = now (inner s)) ->
  forall s r s',
    (for_each locs check >> ret true) s = (r, s') ->
    session_now now s' = session_now now s.
Proof.
  intros Hcheck s r s' Hb.
  assert (Hloop : forall s0 r0 s0',
            for_each locs check s0 = (r0, s0') -> now (inner s0') = now (inner s0)).
  { clear s r s' Hb. intros s0 r0 s0'.
    apply (for_each_within (fun u => now (inner u) = now (inner s0)) check locs).
    - intros x _ u r u' Hu Hc. rewrite (Hcheck _ _ _ _ Hc). exact Hu.
    - reflexivity. }
  unfold bind in Hb. destruct (for_each locs check s) as [[u|e] s1] eqn:Hl.
  - unfold ret in Hb. injection Hb as <- <-. exact (Hloop _ _ _ Hl).
  - injection Hb as <- <-. exact (Hloop _ _ _ Hl).
Qed.

Lemma group_ends_by_its_deadline (once : pyval -> M (Session World) bool) locs
    (budget : nat) (s : Session World) r s' :
  (forall w, now (sleep w) = S (now w)) ->
  (forall x s r s', once x s = (r, s') -> now (inner s') = now (inner s)) ->
  (let (r, s') :=
     spec_synchronize (session_now now) (session_sleep sleep) budget
       (for_each locs once >> ret true) (enter s)
   in (r, leave s')) = (r, s') ->
  synchronized s' = false /\ now (inner s') <= now (inner s) + budget.
Proof.
  intros Hsleep Honce.
  destruct (spec_synchronize _ _ _ _ _) as [r0 s0] eqn:Hloop.
  intros [= <- <-]. split; [reflexivity|].
  unfold spec_synchronize in Hloop.
  apply (synchronize_loop_deadline (session_now now) (session_sleep sleep)) in Hloop.
  - exact Hloop.
  - intros u. unfold session_now, session_sleep. simpl. apply Hsleep.
  - intros u r1 u'. apply once_pass_takes_no_time. exact Honce.
  - unfold session_now, enter. simpl. lia.
Qed.

(** C2: in a session whose [synchronize] follows section 4.3, a call of
    [assert_all_of_selectors] or [assert_none_of_selectors] made when no
    [synchronize] is under way is one loop on the wait of the group
    ([kwargs['wait']] when given, the process-wide default otherwise) around
    the pass over the locators.  The options reach every sub-check as they
    were received, and inside the group a sub-check builds its query and
    runs its body once: the wait of its query starts no budget of its own
    and makes no difference to the call.  With a pause of one tick and
    resolutions that take no time, the call ends no later than the deadline
    of the group. *)
Theorem group_shares_one_deadline
    (self : Node) (selector : pyval) (locators : list pyval) (kw : kwargs)
    (sel : pyval) (locs : list pyval) (s : Session World) :
  normalize_selector selector locators = Normal (sel, locs) ->
  synchronized s = false ->
  group_wait kw =
    match kw !! "wait" with Some v => v | None => default_max_wait_time end /\
  (forall args s1,
     synchronized s1 = true ->
     assert_selector (host := (session_host host now sleep ticks)) self args kw s1 =
       assert_selector_once (host := (session_host host now sleep ticks)) self args kw s1 /\
     assert_no_selector (host := (session_host host now sleep ticks)) self args kw s1 =
       assert_no_selector_once (host := (session_host host now sleep ticks)) self args kw s1) /\
  assert_all_of_selectors (host := (session_host host now sleep ticks)) self selector locators kw s =
    (let (r, s') :=
       spec_synchronize (session_now now) (session_sleep sleep)
         (ticks (group_wait kw))
         (for_each locs
            (fun locator =>
               assert_selector_once (host := (session_host host now sleep ticks)) self [sel; locator] kw)
          >> ret true)
         (enter s)
     in (r, leave s')) /\
  assert_none_of_selectors (host := (session_host host now sleep ticks)) self selector locators kw s =
    (let (r, s') :=
       spec_synchronize (session_now now) (session_sleep sleep)
         (ticks (group_wait kw))
         (for_each locs
            (fun locator =>
               assert_no_selector_once (host := (session_host host now sleep ticks)) self [sel; locator] kw)
          >> ret true)
         (enter s)
     in (r, leave s')) /\
  (forall other_wait : SelectorQueryT -> pyval,
     assert_all_of_selectors
       (host := session_host (with_sq_wait other_wait) now sleep ticks)
       self selector locators kw s =
     assert_all_of_selectors (host := (session_host host now sleep ticks)) self selector locators kw s /\
     assert_none_of_selectors
       (host := session_host (with_sq_wait other_wait) now sleep ticks)
       self selector locators kw s =
     assert_none_of_selectors (host := (session_host host now sleep ticks)) self selector locators kw s) /\
  ((forall w, now (sleep w) = S (now w)) ->
   (forall query scope w r w',
      sq_resolve_for query scope w = (r, w') -> now w' = now w) ->
   forall r s',
     assert_all_of_selectors (host := (session_host host now sleep ticks)) self selector locators kw s = (r, s') \/
     assert_none_of_selectors (host := (session_host host now sleep ticks)) self selector locators kw s = (r, s') ->
     synchronized s' = false /\
     now (inner s') <= now (inner s) + ticks (group_wait kw)).
Proof.
  intros Hnorm Hs.
  pose proof (assert_all_of_selectors_in_session now sleep ticks
                self selector locators kw sel locs s Hnorm Hs) as Hall.
  pose proof (assert_none_of_selectors_in_session now sleep ticks
                self selector locators kw sel locs s Hnorm Hs) as Hnone.
  split; [reflexivity|].
  split.
  { intros args s1 Hs1. split.
    - now apply assert_selector_nested.
    - now apply assert_no_selector_nested. }
  split; [exact Hall|]. split; [exact Hnone|]. split.
  - intros other_wait. rewrite Hall, Hnone. split.
    + exact (assert_all_of_selectors_in_session (host := with_sq_wait other_wait)
               now sleep ticks self selector locators kw sel locs s Hnorm Hs).
    + exact (assert_none_of_selectors_in_session (host := with_sq_wait other_wait)
               now sleep ticks self selector locators kw sel locs s Hnorm Hs).
  - intros Hsleep Hresolve r s' [Hcall | Hcall].
    + rewrite Hall in Hcall. apply group_ends_by_its_deadline in Hcall; auto.
      intros x s0 r0 s0' Hc.
      destruct (assert_selector_once_run now sleep ticks _ _ _ _ _ _ Hc)
        as (_ & [-> | (query & result & Hr)]); [reflexivity|].
      exact (Hresolve _ _ _ _ _ Hr).
    + rewrite Hnone in Hcall. apply group_ends_by_its_deadline in Hcall; auto.
      intros x s0 r0 s0' Hc.
      destruct (assert_no_selector_once_run now sleep ticks _ _ _ _ _ _ Hc)
        as (_ & [-> | (query & result & Hr)]); [reflexivity|].
      exact (Hresolve _ _ _ _ _ Hr).
Qed.

End GroupFacts.

Section SessionRegions.
Context {World : Type} `{host : Host World}.
Variable now : World -> nat.
Variable sleep : World -> World.
Variable ticks : pyval -> nat.

(** Under the mark every call of [synchronize] is one attempt, in place. *)
Lemma session_host_nested_attempts (marked_region : Session World -> Prop) :
  (forall s, marked_region s -> synchronized s = true) ->
  attempts_within (host := (session_host host now sleep ticks)) marked_region.
Proof.
  intros Hmark self A wait body s s' r Hs Hcall.
  rewrite (nested_synchronize_runs_once now sleep ticks _ _ _ _ (Hmark _ Hs)) in Hcall.
  exists s, s'. split; [assumption|]. intros Hbody.
  split; [assumption | exact (Hbody _ _ _ Hs Hcall)].
Qed.

(** A set of states of the host that the pause does not leave is a region
    of the session, marked or not. *)
Lemma session_host_attempts_within (region : World -> Prop) :
  (forall w, region w -> region (sleep w)) ->
  attempts_within (host := (session_host host now sleep ticks)) (fun s => region (inner s)).
Proof.
  intros Hsleep self A wait body s s' r Hs Hcall.
  destruct (synchronized s) eqn:Hmark.
  - rewrite (nested_synchronize_runs_once now sleep ticks _ _ _ _ Hmark) in Hcall.
    exists s, s'. split; [assumption|]. intros Hbody.
    split; [assumption | exact (Hbody _ _ _ Hs Hcall)].
  - rewrite (outermost_synchronize now sleep ticks _ _ _ _ Hmark) in Hcall.
    destruct (spec_synchronize _ _ _ _ _) as [r0 s0] eqn:Hloop.
    injection Hcall as <- <-. unfold spec_synchronize in Hloop.
    apply (synchronize_loop_within (session_now now) (session_sleep sleep)
             (fun s => region (inner s))) in Hloop as (s1 & Hb & Hin).
    + exists s1, s0. split; [assumption|]. intros Hbody.
      destruct (Hin Hbody Hs) as [Hs1 Hs0]. split; assumption.
    + intros u Hu _. simpl. now apply Hsleep.
Qed.

Lemma present_within_in_session (region : World -> Prop) self selector kw locator :
  present_within region self selector kw locator ->
  present_within (host := (session_host host now sleep ticks)) (fun s => synchronized s = true /\ region (inner s)) self selector kw locator.
Proof.
  intros (query & Hquery & Hres). exists query. split; [exact Hquery|].
  intros s [Hmark Hs].
  destruct (Hres _ Hs) as (result & w' & Hr & Hw' & Hverdict & Hfound).
  exists result, (mkSession (synchronized s) w'). simpl. unfold in_session.
  rewrite Hr. repeat split; assumption.
Qed.

Lemma resolves_within_in_session (region : World -> Prop) self selector kw locator :
  resolves_within region self selector kw locator ->
  resolves_within (host := (session_host host now sleep ticks)) (fun s => synchronized s = true /\ region (inner s)) self selector kw locator.
Proof.
  intros (query & Hquery & Hres). exists query. split; [exact Hquery|].
  intros s [Hmark Hs].
  destruct (Hres _ Hs) as (result & w' & Hr & Hw').
  exists result, (mkSession (synchronized s) w'). simpl. unfold in_session.
  rewrite Hr. repeat split; assumption.
Qed.

(** A negative check that ran once and returned resolved its query to a
    result that does not satisfy it. *)
Lemma assert_no_selector_once_returned self args kw s v s' :
  assert_no_selector_once (host := (session_host host now sleep ticks)) self args kw s = (Normal v, s') ->
  exists query result,
    SelectorQuery args kw = Normal query /\
    sq_resolve_for query self (inner s) = (Normal result, inner s') /\
    ~ (result_matches_count result = true /\
       (0 < len result \/ expects_none (sq_options query) = true)).
Proof.
  unfold assert_no_selector_once, bind, lift.
  destruct (SelectorQuery args kw) as [query|e] eqn:Hquery; [|discriminate].
  unfold assert_no_selector_body, bind. simpl.
  destruct (in_session (sq_resolve_for (Host := host) query self) s)
    as [[result|e] s1] eqn:Hr; [|discriminate].
  apply in_session_run in Hr as [Hr _].
  match goal with
  | |- (if ?c then _ else _) _ = _ -> _ => destruct c eqn:Hc
  end; unfold raise, ret; intros H; [discriminate H|]. injection H as _ <-.
  exists query, result. split; [reflexivity|]. split; [assumption|].
  intros Hsat. apply satisfied_and_present in Hsat.
  assert (Hc' : result_matches_count result &&
                ((0 <? len result)%nat || expects_none (sq_options query)) = false)
    by exact Hc.
  congruence.
Qed.

(** A positive check that ran once and returned resolved its query to a
    result that satisfies it. *)
Lemma assert_selector_once_returned self args kw s v s' :
  assert_selector_once (host := (session_host host now sleep ticks)) self args kw s
    = (Normal v, s') ->
  exists query result,
    SelectorQuery args kw = Normal query /\
    sq_resolve_for query self (inner s) = (Normal result, inner s') /\
    result_matches_count result = true /\
    (0 < len result \/ expects_none (sq_options query) = true).
Proof.
  unfold assert_selector_once, bind, lift.
  destruct (SelectorQuery args kw) as [query|e] eqn:Hquery; [|discriminate].
  unfold assert_selector_body, bind. simpl.
  destruct (in_session (sq_resolve_for (Host := host) query self) s)
    as [[result|e] s1] eqn:Hr; [|discriminate].
  apply in_session_run in Hr as [Hr _].
  match goal with
  | |- (if negb ?c then _ else _) _ = _ -> _ => destruct c eqn:Hc
  end; simpl; unfold raise, ret; intros H; [|discriminate H]. injection H as _ <-.
  exists query, result. split; [reflexivity|]. split; [assumption|].
  apply satisfied_and_present. exact Hc.
Qed.

End SessionRegions.

Lemma pass_in_turn_each {World A B} (check : A -> M World B) xs w w' :
  pass_in_turn check xs w w' ->
  forall x, In x xs -> exists u v u', check x u = (Normal v, u').
Proof.
  revert w. induction xs as [|y xs IH]; intros w Hpass x Hin; [destruct Hin|].
  destruct Hpass as (v & w1 & Hy & Hrest). destruct Hin as [<-|Hin].
  - eauto.
  - exact (IH _ Hrest x Hin).
Qed.

Section NoneOfFacts.
Context {World : Type} `{host : Host World}.

(** C7: [assert_none_of_selectors] raises [ExpectationNotMet] when one of
    its locators is present, with its constraint met, in the states in which
    the attempts of the call are made, whatever the results of the other
    locators there; and it returns only [True], after a pass in which the
    negative check of every locator succeeded.  [region] is the set of those
    states.  On a host whose [synchronize] makes its attempts within
    [region], and in a session that follows section 4.3, where it is enough
    that the pause does not leave [region] before the deadline of the
    group: a locator that is there from the start of the call to its
    deadline makes the call raise, whatever comes after. *)
Theorem assert_none_of_selectors_raises_when_present
    (region : World -> Prop)
    (self : Node) (selector : pyval) (locators : list pyval) (kw : kwargs)
    (sel : pyval) (locs : list pyval) :
  normalize_selector selector locators = Normal (sel, locs) ->
  (attempts_within region ->
   forall present,
     In present locs ->
     present_within region self sel kw present ->
     (forall other, In other locs -> resolves_within region self sel kw other) ->
     forall w, region w ->
       exists msg w',
         assert_none_of_selectors self selector locators kw w =
         (Raise (ExpectationNotMet msg), w')) /\
  (forall (now : World -> nat) (sleep : World -> World) (ticks : pyval -> nat)
          (s : Session World) present,
     synchronized s = false ->
     region (inner s) ->
     (forall w, region w -> now w < now (inner s) + ticks (group_wait kw) ->
                region (sleep w)) ->
     In present locs ->
     present_within region self sel kw present ->
     (forall other, In other locs -> resolves_within region self sel kw other) ->
     exists msg s',
       assert_none_of_selectors (host := session_host host now sleep ticks)
         self selector locators kw s =
       (Raise (ExpectationNotMet msg), s')) /\
  (attempts_within region ->
   forall w w' v,
     region w ->
     assert_none_of_selectors self selector locators kw w = (Normal v, w') ->
     v = true /\
     exists w0 w1,
       pass_in_turn (fun locator => assert_no_selector self [sel; locator] kw)
                    locs w0 w1) /\
  (forall (now : World -> nat) (sleep : World -> World) (ticks : pyval -> nat)
          (s s' : Session World) v,
     synchronized s = false ->
     assert_none_of_selectors (host := session_host host now sleep ticks)
       self selector locators kw s = (Normal v, s') ->
     v = true /\
     forall locator, In locator locs ->
       exists query result w0 w1,
         SelectorQuery [sel; locator] kw = Normal query /\
         sq_resolve_for query self w0 = (Normal result, w1) /\
         ~ (result_matches_count result = true /\
            (0 < len result \/ expects_none (sq_options query) = true))).
Proof.
  intros Hnorm. split; [|split; [|split]].
  - intros Hin present Hpresent_in Hpresent Hothers w Hw.
    unfold assert_none_of_selectors. rewrite Hnorm, bind_lift_Normal.
    destruct (synchronize self bool (group_wait kw)
                (assert_none_of_selectors_body self sel locs kw) w)
      as [r w'] eqn:Hs.
    destruct (assert_none_of_selectors_body_within region self sel locs kw present
                Hin Hpresent_in Hpresent Hothers) as [Hraise Hkeep].
    destruct (Hin _ _ _ _ _ _ _ Hw Hs) as (w0 & w1 & Hb & Hreg).
    destruct (Hreg Hkeep) as [Hw0 _].
    destruct (Hraise w0 Hw0) as (msg & w2 & Hmsg).
    rewrite Hmsg in Hb. injection Hb as <- _. eauto.
  - intros now sleep ticks s present Hs Hstart Hsleep Hpresent_in Hpresent Hothers.
    unfold assert_none_of_selectors.
    change (normalize_selector (host := session_host host now sleep ticks)
              selector locators)
      with (normalize_selector selector locators).
    rewrite Hnorm, bind_lift_Normal.
    rewrite (outermost_synchronize now sleep ticks _ _ _ _ Hs).
    destruct (spec_synchronize _ _ _ _ _) as [r s0] eqn:Hloop.
    unfold spec_synchronize in Hloop.
    apply (synchronize_loop_within (session_now now) (session_sleep sleep)
             (fun u => synchronized u = true /\ region (inner u)))
      in Hloop as (s1 & Hb & Hreg).
    + destruct (assert_none_of_selectors_body_within
                  (host := session_host host now sleep ticks)
                  (fun u => synchronized u = true /\ region (inner u))
                  self sel locs kw present) as [Hraise Hkeep].
      * apply session_host_nested_attempts. intros u [Hu _]. exact Hu.
      * exact Hpresent_in.
      * now apply present_within_in_session.
      * intros other Hother. apply resolves_within_in_session. now apply Hothers.
      * destruct (Hreg Hkeep) as [Hs1 _]; [split; [reflexivity | exact Hstart]|].
        destruct (Hraise s1 Hs1) as (msg & s2 & Hmsg).
        rewrite Hmsg in Hb. injection Hb as <- _. eauto.
    + intros u [Hmark Hu] Hbefore. split; [exact Hmark|].
      apply Hsleep; [exact Hu | exact Hbefore].
  - intros Hin w w' v Hw. unfold assert_none_of_selectors.
    rewrite Hnorm, bind_lift_Normal. intros Hs.
    destruct (attempts_within_outcome _ _ _ _ _ _ _ Hin Hw Hs) as (w0 & w1 & Hb).
    split.
    + exact (loop_returns_true _ _ _ _ _ Hb).
    + unfold assert_none_of_selectors_body in Hb.
      apply bind_inv_Normal in Hb as (u & w2 & Hloop & Hret).
      injection Hret as _ <-. exists w0, w2.
      now apply (for_each_pass_in_turn _ _ _ _ u).
  - intros now sleep ticks s s' v Hs.
    rewrite (assert_none_of_selectors_in_session now sleep ticks
               self selector locators kw sel locs s Hnorm Hs).
    destruct (spec_synchronize _ _ _ _ _) as [r s0] eqn:Hloop.
    intros [= -> <-].
    apply spec_synchronize_attempt in Hloop as (s1 & Hb).
    apply bind_inv_Normal in Hb as (u & s2 & Hpass & Hret).
    unfold ret in Hret. injection Hret as <- _. split; [reflexivity|].
    apply (for_each_pass_in_turn _ _ _ _ u) in Hpass.
    intros locator Hlocator.
    destruct (pass_in_turn_each _ _ _ _ Hpass locator Hlocator) as (u0 & v0 & u0' & Hc).
    apply assert_no_selector_once_returned in Hc
      as (query & result & Hquery & Hr & Hguard).
    exists query, result, (inner u0), (inner u0'). auto.
Qed.

End NoneOfFacts.

(** ** Matching the node itself, as a method *)

Section MatchingFacts.
Context {World : Type} `{host : Host World}.

(** What one attempt of [assert_matches_selector] can end with. *)
Lemma assert_matches_selector_body_cases self query w r w' :
  assert_matches_selector_body self query w = (r, w') ->
  (exists e, r = Raise e /\ find_first self [PStr "xpath"; PStr "./parent::*"] {[ "minimum" := PInt 0 ]} w = (Raise e, w')) \/
  (exists e parent w1,
     r = Raise e /\ find_first self [PStr "xpath"; PStr "./parent::*"] {[ "minimum" := PInt 0 ]} w = (Normal parent, w1) /\
     sq_resolve_for query (match parent with Some p => p | None => query_scope self end) w1 = (Raise e, w')) \/
  (exists parent w1 result,
     find_first self [PStr "xpath"; PStr "./parent::*"] {[ "minimum" := PInt 0 ]} w = (Normal parent, w1) /\
     sq_resolve_for query (match parent with Some p => p | None => query_scope self end) w1 = (Normal result, w') /\
     r = if node_in self result then Normal true
         else Raise (ExpectationNotMet "Item does not match the provided selector")).
Proof.
  unfold assert_matches_selector_body, parent_or_query_scope, bind.
  destruct (find_first self _ _ w) as [[parent|e] w1] eqn:Hparent.
  - unfold ret.
    destruct (sq_resolve_for query _ w1) as [[result|e] w2] eqn:Hresolve.
    + intros H. right. right. exists parent, w1, result.
      destruct (node_in self result); simpl in H; unfold raise, ret in H;
        injection H as <- <-; auto.
    + intros [= <- <-]. right. left. exists e, parent, w1. auto.
  - intros [= <- <-]. left. exists e. auto.
Qed.

(** What one attempt of [assert_not_match_selector] can end with. *)
Lemma assert_not_match_selector_body_cases self query w r w' :
  assert_not_match_selector_body self query w = (r, w') ->
  (exists e, r = Raise e /\ find_first self [PStr "xpath"; PStr "./parent::*"] {[ "minimum" := PInt 0 ]} w = (Raise e, w')) \/
  (exists e parent w1,
     r = Raise e /\ find_first self [PStr "xpath"; PStr "./parent::*"] {[ "minimum" := PInt 0 ]} w = (Normal parent, w1) /\
     sq_resolve_for query (match parent with Some p => p | None => query_scope self end) w1 = (Raise e, w')) \/
  (exists parent w1 result,
     find_first self [PStr "xpath"; PStr "./parent::*"] {[ "minimum" := PInt 0 ]} w = (Normal parent, w1) /\
     sq_resolve_for query (match parent with Some p => p | None => query_scope self end) w1 = (Normal result, w') /\
     r = if node_in self result
         then Raise (ExpectationNotMet "Item matched the provided selector")
         else Normal true).
Proof.
  unfold assert_not_match_selector_body, parent_or_query_scope, bind.
  destruct (find_first self _ _ w) as [[parent|e] w1] eqn:Hparent.
  - unfold ret.
    destruct (sq_resolve_for query _ w1) as [[result|e] w2] eqn:Hresolve.
    + intros H. right. right. exists parent, w1, result.
      destruct (node_in self result); simpl in H; unfold raise, ret in H;
        injection H as <- <-; auto.
    + intros [= <- <-]. right. left. exists e, parent, w1. auto.
  - intros [= <- <-]. left. exists e. auto.
Qed.

Lemma matching_bodies_within (region : World -> Prop) self query member :
  resolves_against_parent region self query member ->
  forall u r u', region u ->
    (assert_matches_selector_body self query u = (r, u') ->
     region u' /\
     r = if member then Normal true
         else Raise (ExpectationNotMet "Item does not match the provided selector")) /\
    (assert_not_match_selector_body self query u = (r, u') ->
     region u' /\
     r = if member
         then Raise (ExpectationNotMet "Item matched the provided selector")
         else Normal true).
Proof.
  intros Hres u r u' Hu.
  destruct (Hres u Hu) as (parent & w1 & result & w2 & Hparent & Hresolve & Hw2 & Hmember).
  pose proof (parent_or_query_scope_run _ _ _ _ Hparent) as Hscope.
  unfold assert_matches_selector_body, assert_not_match_selector_body.
  rewrite !(bind_Normal _ _ _ _ _ Hscope), !(bind_Normal _ _ _ _ _ Hresolve), Hmember.
  destruct member; simpl; unfold raise, ret; split; intros [= <- <-]; auto.
Qed.

(** C5: [assert_matches_selector] synchronizes attempts that look for the
    parent of the node, resolve the query against it, or against the query
    scope of the node when there is none, and test [self in result], that
    is whether the result holds an element with the identity of the node.
    In a set of states in which the attempts of the call are made: when the
    node is in the result the call returns [True], and
    [assert_not_match_selector] raises [ExpectationNotMet] with "Item
    matched the provided selector"; when it is not, the call raises
    [ExpectationNotMet] with "Item does not match the provided selector",
    and [assert_not_match_selector] returns [True].  Whatever the document
    does, a return of either method follows such a resolution, with the node
    in its result for the first and not in it for the second, and what
    either raises comes from the search of the parent, from the resolution,
    or is its own message after such a resolution. *)
Theorem assert_matches_selector_membership
    (region : World -> Prop)
    (self : Node) (args : list pyval) (kw : kwargs) (query : SelectorQueryT) :
  SelectorQuery args kw = Normal query ->
  attempts_within region ->
  (forall parent w w1 w2 result,
     find_first self [PStr "xpath"; PStr "./parent::*"] {[ "minimum" := PInt 0 ]} w
       = (Normal parent, w1) ->
     sq_resolve_for query
       (match parent with Some p => p | None => query_scope self end) w1
       = (Normal result, w2) ->
     (assert_matches_selector_body self query w = (Normal true, w2) <->
      exists e, In e (elements result) /\ node_id e = node_id self) /\
     (assert_matches_selector_body self query w =
        (Raise (ExpectationNotMet "Item does not match the provided selector"), w2) <->
      forall e, In e (elements result) -> node_id e <> node_id self) /\
     (assert_not_match_selector_body self query w = (Normal true, w2) <->
      forall e, In e (elements result) -> node_id e <> node_id self) /\
     (assert_not_match_selector_body self query w =
        (Raise (ExpectationNotMet "Item matched the provided selector"), w2) <->
      exists e, In e (elements result) /\ node_id e = node_id self)) /\
  (resolves_against_parent region self query true ->
   forall w, region w ->
     (exists w', assert_matches_selector self args kw w = (Normal true, w')) /\
     (exists w', assert_not_match_selector self args kw w =
        (Raise (ExpectationNotMet "Item matched the provided selector"), w'))) /\
  (resolves_against_parent region self query false ->
   forall w, region w ->
     (exists w', assert_matches_selector self args kw w =
        (Raise (ExpectationNotMet "Item does not match the provided selector"), w')) /\
     (exists w', assert_not_match_selector self args kw w = (Normal true, w'))) /\
  (forall w v w',
     region w ->
     assert_matches_selector self args kw w = (Normal v, w') ->
     v = true /\
     exists w0 parent w1 result w2,
       find_first self [PStr "xpath"; PStr "./parent::*"] {[ "minimum" := PInt 0 ]} w0
         = (Normal parent, w1) /\
       sq_resolve_for query
         (match parent with Some p => p | None => query_scope self end) w1
         = (Normal result, w2) /\
       exists e, In e (elements result) /\ node_id e = node_id self) /\
  (forall w v w',
     region w ->
     assert_not_match_selector self args kw w = (Normal v, w') ->
     v = true /\
     exists w0 parent w1 result w2,
       find_first self [PStr "xpath"; PStr "./parent::*"] {[ "minimum" := PInt 0 ]} w0
         = (Normal parent, w1) /\
       sq_resolve_for query
         (match parent with Some p => p | None => query_scope self end) w1
         = (Normal result, w2) /\
       forall e, In e (elements result) -> node_id e <> node_id self) /\
  (forall w e w',
     region w ->
     assert_matches_selector self args kw w = (Raise e, w') ->
     exists w0 w2,
       find_first self [PStr "xpath"; PStr "./parent::*"] {[ "minimum" := PInt 0 ]} w0
         = (Raise e, w2) \/
       (exists parent w1,
          find_first self [PStr "xpath"; PStr "./parent::*"] {[ "minimum" := PInt 0 ]} w0
            = (Normal parent, w1) /\
          sq_resolve_for query
            (match parent with Some p => p | None => query_scope self end) w1
            = (Raise e, w2)) \/
       (exists parent w1 result,
          find_first self [PStr "xpath"; PStr "./parent::*"] {[ "minimum" := PInt 0 ]} w0
            = (Normal parent, w1) /\
          sq_resolve_for query
            (match parent with Some p => p | None => query_scope self end) w1
            = (Normal result, w2) /\
          (forall e0, In e0 (elements result) -> node_id e0 <> node_id self) /\
          e = ExpectationNotMet "Item does not match the provided selector")) /\
  (forall w e w',
     region w ->
     assert_not_match_selector self args kw w = (Raise e, w') ->
     exists w0 w2,
       find_first self [PStr "xpath"; PStr "./parent::*"] {[ "minimum" := PInt 0 ]} w0
         = (Raise e, w2) \/
       (exists parent w1,
          find_first self [PStr "xpath"; PStr "./parent::*"] {[ "minimum" := PInt 0 ]} w0
            = (Normal parent, w1) /\
          sq_resolve_for query
            (match parent with Some p => p | None => query_scope self end) w1
            = (Raise e, w2)) \/
       (exists parent w1 result,
          find_first self [PStr "xpath"; PStr "./parent::*"] {[ "minimum" := PInt 0 ]} w0
            = (Normal parent, w1) /\
          sq_resolve_for query
            (match parent with Some p => p | None => query_scope self end) w1
            = (Normal result, w2) /\
          (exists e0, In e0 (elements result) /\ node_id e0 = node_id self) /\
          e = ExpectationNotMet "Item matched the provided selector")).
Proof.
  intros Hquery Hin. split.
  { intros parent w w1 w2 result Hparent Hresolve.
    destruct (assert_matches_selector_body_membership self query parent w w1 w2 result
                Hparent Hresolve) as (H1 & H2 & _ & H3 & H4).
    exact (conj H1 (conj H2 (conj H3 H4))). }
  unfold assert_matches_selector, assert_not_match_selector.
  rewrite Hquery. setoid_rewrite bind_lift_Normal.
  assert (Hstable : forall member,
            resolves_against_parent region self query member ->
            forall w, region w ->
              (exists w', synchronize self bool (sq_wait query)
                            (assert_matches_selector_body self query) w =
                 (if member then Normal true
                  else Raise (ExpectationNotMet
                                "Item does not match the provided selector"), w')) /\
              (exists w', synchronize self bool (sq_wait query)
                            (assert_not_match_selector_body self query) w =
                 (if member
                  then Raise (ExpectationNotMet "Item matched the provided selector")
                  else Normal true, w'))).
  { intros member Hres w Hw. split.
    - destruct (synchronize self bool (sq_wait query)
                  (assert_matches_selector_body self query) w) as [r w'] eqn:Hs.
      destruct (Hin _ _ _ _ _ _ _ Hw Hs) as (w0 & w1 & Hb & Hreg).
      destruct Hreg as [Hw0 _].
      { intros u r' u' Hu Hbody.
        exact (proj1 (proj1 (matching_bodies_within _ _ _ _ Hres u r' u' Hu) Hbody)). }
      destruct (proj1 (matching_bodies_within _ _ _ _ Hres w0 r w1 Hw0) Hb) as [_ ->].
      eauto.
    - destruct (synchronize self bool (sq_wait query)
                  (assert_not_match_selector_body self query) w) as [r w'] eqn:Hs.
      destruct (Hin _ _ _ _ _ _ _ Hw Hs) as (w0 & w1 & Hb & Hreg).
      destruct Hreg as [Hw0 _].
      { intros u r' u' Hu Hbody.
        exact (proj1 (proj2 (matching_bodies_within _ _ _ _ Hres u r' u' Hu) Hbody)). }
      destruct (proj2 (matching_bodies_within _ _ _ _ Hres w0 r w1 Hw0) Hb) as [_ ->].
      eauto. }
  split; [exact (Hstable true)|]. split.
  { intros Hres w Hw. destruct (Hstable false Hres w Hw) as [H1 H2]. split; assumption. }
  split; [|split; [|split]].
  - intros w v w' Hw Hs.
    destruct (attempts_within_outcome _ _ _ _ _ _ _ Hin Hw Hs) as (w0 & w1 & Hb).
    destruct (assert_matches_selector_body_cases _ _ _ _ _ Hb)
      as [(e & Hr & _) | [(e & parent & u & Hr & _) | (parent & u & result & Hp & Hres & Hr)]];
      try discriminate Hr.
    destruct (node_in self result) eqn:Hmember; [|discriminate Hr].
    injection Hr as ->. split; [reflexivity|].
    exists w0, parent, u, result, w1. split; [assumption|]. split; [assumption|].
    now apply node_in_true.
  - intros w v w' Hw Hs.
    destruct (attempts_within_outcome _ _ _ _ _ _ _ Hin Hw Hs) as (w0 & w1 & Hb).
    destruct (assert_not_match_selector_body_cases _ _ _ _ _ Hb)
      as [(e & Hr & _) | [(e & parent & u & Hr & _) | (parent & u & result & Hp & Hres & Hr)]];
      try discriminate Hr.
    destruct (node_in self result) eqn:Hmember; [discriminate Hr|].
    injection Hr as ->. split; [reflexivity|].
    exists w0, parent, u, result, w1. split; [assumption|]. split; [assumption|].
    now apply node_in_false.
  - intros w e w' Hw Hs.
    destruct (attempts_within_outcome _ _ _ _ _ _ _ Hin Hw Hs) as (w0 & w1 & Hb).
    exists w0, w1.
    destruct (assert_matches_selector_body_cases _ _ _ _ _ Hb)
      as [(e' & Hr & Hp) | [(e' & parent & u & Hr & Hp & Hres)
                           | (parent & u & result & Hp & Hres & Hr)]].
    + injection Hr as ->. left. assumption.
    + injection Hr as ->. right. left. eauto.
    + destruct (node_in self result) eqn:Hmember; [discriminate Hr|].
      injection Hr as ->. right. right. exists parent, u, result.
      repeat split; try assumption. now apply node_in_false.
  - intros w e w' Hw Hs.
    destruct (attempts_within_outcome _ _ _ _ _ _ _ Hin Hw Hs) as (w0 & w1 & Hb).
    exists w0, w1.
    destruct (assert_not_match_selector_body_cases _ _ _ _ _ Hb)
      as [(e' & Hr & Hp) | [(e' & parent & u & Hr & Hp & Hres)
                           | (parent & u & result & Hp & Hres & Hr)]].
    + injection Hr as ->. left. assumption.
    + injection Hr as ->. right. left. eauto.
    + destruct (node_in self result) eqn:Hmember; [|discriminate Hr].
      injection Hr as ->. right. right. exists parent, u, result.
      repeat split; try assumption. now apply node_in_true.
Qed.

End MatchingFacts.

(** ** The scripted host *)

Lemma scripted_host_returns_first_success (page : Scripted.Page) :
  returns_first_success (host := Scripted.host page).
Proof.
  intros self A wait body w w' v Hbody. simpl.
  now apply spec_synchronize_first_success.
Qed.

Lemma scripted_host_ends_with_an_attempt (page : Scripted.Page) :
  ends_with_an_attempt (host := Scripted.host page).
Proof.
  intros self A wait body w w' r Hs. simpl in Hs.
  now apply spec_synchronize_attempt in Hs.
Qed.

(** The clock of the scripted host only moves in the pause of the loop, so
    the fuel of [synchronize_loop] is never what stops it. *)
Lemma scripted_host_fuel (page : Scripted.Page) {A} (body : M Scripted.World A)
    (deadline fuel extra : nat) (w : Scripted.World) :
  (forall w r w', body w = (r, w') -> Scripted.clock w <= Scripted.clock w') ->
  deadline - Scripted.clock w <= fuel ->
  synchronize_loop Scripted.clock Scripted.tick (fuel + extra) deadline body w =
  synchronize_loop Scripted.clock Scripted.tick fuel deadline body w.
Proof.
  intros Hbody. apply synchronize_loop_fuel; [|assumption].
  intros w0. simpl. lia.
Qed.

(** The loop of the scripted host makes its attempts within every set of
    states that the tick of the clock does not leave. *)
Lemma scripted_host_attempts_within (page : Scripted.Page)
    (region : Scripted.World -> Prop) :
  (forall w, region w -> region (Scripted.tick w)) ->
  attempts_within (host := Scripted.host page) region.
Proof.
  intros Htick self A wait body w w' r Hw Hs. simpl in Hs.
  unfold spec_synchronize in Hs.
  apply (synchronize_loop_within Scripted.clock Scripted.tick region) in Hs
    as (w0 & Hb & Hin).
  - exists w0, w'. split; [assumption|]. intros Hbody. exact (Hin Hbody Hw).
  - intros u Hu _. now apply Htick.
Qed.

(** On the scripted host every locator resolves, in every set of states
    that the record of an evaluation does not leave. *)
Lemma scripted_resolves_within (page : Scripted.Page)
    (region : Scripted.World -> Prop) (kw : kwargs) (locator : pyval) :
  Scripted.conflicting kw = false ->
  (forall scope q w, region w -> region (Scripted.record_evaluation scope q w)) ->
  resolves_within (host := Scripted.host page) region
    Scripted.html (PStr "css") kw locator.
Proof.
  intros Hkw Hrecord.
  exists (Scripted.mkQuery (PStr "css") (Scripted.locator_text locator) kw).
  split.
  - simpl. unfold Scripted.make_query. now rewrite Hkw.
  - intros w Hw. eexists _, _. split; [reflexivity|]. now apply Hrecord.
Qed.

(** ** Runs on the scripted host *)

(** No occurrence and no count option: the positive assertion raises. *)
Example run_assert_selector_absent :
  assert_selector (host := Scripted.host Scripted.still_page)
    Scripted.html [PStr "css"; PStr "#x"] Scripted.no_wait Scripted.start
  = (Raise (ExpectationNotMet "expected to find #x"),
     Scripted.mkWorld 0 [Scripted.mkEvaluation 0 "#x" (PInt 0)]).
Proof. vm_compute. reflexivity. Qed.

(** No occurrence and [maximum=3]: the options expect none, the positive
    assertion returns and the negative one raises. *)
Example run_assert_selector_expects_none :
  assert_selector (host := Scripted.host Scripted.still_page)
    Scripted.html [PStr "css"; PStr "#x"] Scripted.at_most_three Scripted.start
  = (Normal true, Scripted.mkWorld 0 [Scripted.mkEvaluation 0 "#x" (PInt 0)]) /\
  assert_no_selector (host := Scripted.host Scripted.still_page)
    Scripted.html [PStr "css"; PStr "#x"] Scripted.at_most_three Scripted.start
  = (Raise (ExpectationNotMet "expected not to find #x"),
     Scripted.mkWorld 0 [Scripted.mkEvaluation 0 "#x" (PInt 0)]).
Proof. split; vm_compute; reflexivity. Qed.

(** A wait of zero still evaluates once. *)
Example run_zero_wait_evaluates_once :
  snd (assert_selector (host := Scripted.host Scripted.late_page)
         Scripted.html [PStr "css"; PStr "#a"] Scripted.no_wait Scripted.start)
  = Scripted.mkWorld 0 [Scripted.mkEvaluation 0 "#a" (PInt 0)].
Proof. vm_compute. reflexivity. Qed.

(** An element that appears at tick 2 is found by a call that polls. *)
Example run_assert_selector_polls :
  assert_selector (host := Scripted.host Scripted.late_page)
    Scripted.html [PStr "css"; PStr "#a"] Scripted.wait_three Scripted.start
  = (Normal true,
     Scripted.mkWorld 2 [Scripted.mkEvaluation 0 "#a" (PInt 3);
                     Scripted.mkEvaluation 0 "#a" (PInt 3);
                     Scripted.mkEvaluation 0 "#a" (PInt 3)]).
Proof. vm_compute. reflexivity. Qed.

(** A key of the registry is the selector; a string that is no key and an
    object that is no instance of [Hashable] are the first locator; a tuple
    that holds a list makes the registry test raise. *)
Example run_normalize_selector :
  normalize_selector (host := Scripted.host Scripted.still_page) (PStr "xpath") [PStr "#b"]
  = Normal (PStr "xpath", [PStr "#b"]) /\
  normalize_selector (host := Scripted.host Scripted.still_page) (PStr "#a") [PStr "#b"]
  = Normal (PStr "css", [PStr "#a"; PStr "#b"]) /\
  normalize_selector (host := Scripted.host Scripted.still_page) (PObj false 7) [PStr "#b"]
  = Normal (PStr "css", [PObj false 7; PStr "#b"]) /\
  normalize_selector (host := Scripted.host Scripted.still_page)
    (PTuple [PStr "a"; PObj false 7]) [PStr "#b"]
  = Raise (OtherError "TypeError" "unhashable type").
Proof. repeat split; vm_compute; reflexivity. Qed.

(** [checked=False] from the caller is replaced by [True]. *)
Example run_has_checked_field :
  has_checked_field (host := Scripted.host Scripted.still_page)
    Scripted.html (PStr "#b") Scripted.unchecked_no_wait Scripted.start
  = has_selector (host := Scripted.host Scripted.still_page)
      Scripted.html [PStr "field"; PStr "#b"]
      {[ "checked" := PBool true; "wait" := PInt 0 ]} Scripted.start.
Proof. vm_compute. reflexivity. Qed.

(** The group of "#a" and "#b" on the page in the making, in a session: with
    a wait of three ticks the call stops at the deadline of the group, tick
    3, before "#b" is there; with a wait of four ticks both are found within
    the one budget. *)
Example run_group_in_session :
  assert_all_of_selectors (host := scripted_session Scripted.late_page)
    Scripted.html (PStr "css") [PStr "#a"; PStr "#b"] Scripted.wait_three session_start
  = (Raise (ExpectationNotMet "expected to find #b"),
     mkSession false
       (Scripted.mkWorld 3 [Scripted.mkEvaluation 0 "#a" (PInt 3);
                            Scripted.mkEvaluation 0 "#a" (PInt 3);
                            Scripted.mkEvaluation 0 "#a" (PInt 3);
                            Scripted.mkEvaluation 0 "#b" (PInt 3);
                            Scripted.mkEvaluation 0 "#a" (PInt 3);
                            Scripted.mkEvaluation 0 "#b" (PInt 3)])) /\
  assert_all_of_selectors (host := scripted_session Scripted.late_page)
    Scripted.html (PStr "css") [PStr "#a"; PStr "#b"] {[ "wait" := PInt 4 ]} session_start
  = (Normal true,
     mkSession false
       (Scripted.mkWorld 4 [Scripted.mkEvaluation 0 "#a" (PInt 4);
                            Scripted.mkEvaluation 0 "#a" (PInt 4);
                            Scripted.mkEvaluation 0 "#a" (PInt 4);
                            Scripted.mkEvaluation 0 "#b" (PInt 4);
                            Scripted.mkEvaluation 0 "#a" (PInt 4);
                            Scripted.mkEvaluation 0 "#b" (PInt 4);
                            Scripted.mkEvaluation 0 "#a" (PInt 4);
                            Scripted.mkEvaluation 0 "#b" (PInt 4)])).
Proof. split; vm_compute; reflexivity. Qed.

(** ** The statements on the scripted host *)

Lemma assert_selector_body_raises_exactly_witness :
  sq_resolve_for (Host := Scripted.host Scripted.still_page) Scripted.find_b Scripted.html Scripted.start
    = (Normal (mkResult [Scripted.link_b] true "expected to find #b"
                        "expected not to find #b"),
       Scripted.mkWorld 0 [Scripted.mkEvaluation 0 "#b" (PInt 2)]) /\
  tq_resolve_for (Host := Scripted.host Scripted.still_page) Scripted.find_hello Scripted.html Scripted.start
    = (Normal 2%Z, Scripted.mkWorld 0 [Scripted.mkEvaluation 0 "hello" (PInt 2)]) /\
  assert_selector_body (host := Scripted.host Scripted.still_page) Scripted.html Scripted.find_b Scripted.start
    = (Normal true, Scripted.mkWorld 0 [Scripted.mkEvaluation 0 "#b" (PInt 2)]) /\
  assert_text_body (host := Scripted.host Scripted.still_page) Scripted.html Scripted.find_hello Scripted.start
    = (Normal true, Scripted.mkWorld 0 [Scripted.mkEvaluation 0 "hello" (PInt 2)]).
Proof.
  assert (Hsq : sq_resolve_for (Host := Scripted.host Scripted.still_page)
                  Scripted.find_b Scripted.html Scripted.start
                = (Normal (mkResult [Scripted.link_b] true "expected to find #b"
                                    "expected not to find #b"),
                   Scripted.mkWorld 0 [Scripted.mkEvaluation 0 "#b" (PInt 2)]))
    by reflexivity.
  assert (Htq : tq_resolve_for (Host := Scripted.host Scripted.still_page)
                  Scripted.find_hello Scripted.html Scripted.start
                = (Normal 2%Z, Scripted.mkWorld 0 [Scripted.mkEvaluation 0 "hello" (PInt 2)]))
    by reflexivity.
  destruct (assert_selector_body_raises_exactly (host := Scripted.host Scripted.still_page)
              _ _ _ _ _ _ _ _ Hsq Htq) as (_ & Hsel & _ & Htext & _).
  split; [exact Hsq|]. split; [exact Htq|]. split.
  - apply Hsel. split; [reflexivity|]. left. exact Nat.lt_0_1.
  - apply Htext. split; [reflexivity|]. left. lia.
Defined.

Lemma assert_no_selector_body_inverts_witness :
  sq_resolve_for (Host := Scripted.host Scripted.still_page) Scripted.find_b Scripted.html Scripted.start
    = (Normal (mkResult [Scripted.link_b] true "expected to find #b"
                        "expected not to find #b"),
       Scripted.mkWorld 0 [Scripted.mkEvaluation 0 "#b" (PInt 2)]) /\
  tq_resolve_for (Host := Scripted.host Scripted.still_page) Scripted.find_hello Scripted.html Scripted.start
    = (Normal 2%Z, Scripted.mkWorld 0 [Scripted.mkEvaluation 0 "hello" (PInt 2)]) /\
  assert_no_selector_body (host := Scripted.host Scripted.still_page)
    Scripted.html Scripted.find_b Scripted.start
    = (Raise (ExpectationNotMet "expected not to find #b"),
       Scripted.mkWorld 0 [Scripted.mkEvaluation 0 "#b" (PInt 2)]) /\
  assert_no_text_body (host := Scripted.host Scripted.still_page)
    Scripted.html Scripted.find_hello Scripted.start
    = (Raise (ExpectationNotMet "expected not to find text hello"),
       Scripted.mkWorld 0 [Scripted.mkEvaluation 0 "hello" (PInt 2)]).
Proof.
  assert (Hsq : sq_resolve_for (Host := Scripted.host Scripted.still_page)
                  Scripted.find_b Scripted.html Scripted.start
                = (Normal (mkResult [Scripted.link_b] true "expected to find #b"
                                    "expected not to find #b"),
                   Scripted.mkWorld 0 [Scripted.mkEvaluation 0 "#b" (PInt 2)]))
    by reflexivity.
  assert (Htq : tq_resolve_for (Host := Scripted.host Scripted.still_page)
                  Scripted.find_hello Scripted.html Scripted.start
                = (Normal 2%Z, Scripted.mkWorld 0 [Scripted.mkEvaluation 0 "hello" (PInt 2)]))
    by reflexivity.
  destruct (assert_no_selector_body_inverts (host := Scripted.host Scripted.still_page)
              _ _ _ _ _ _ _ _ Hsq Htq) as (_ & Hsel & _ & _ & Htext & _).
  split; [exact Hsq|]. split; [exact Htq|]. split.
  - apply Hsel. reflexivity.
  - apply Htext. reflexivity.
Defined.

Lemma boolean_variants_witness :
  ends_with_an_attempt (host := Scripted.host Scripted.still_page) /\
  has_selector (host := Scripted.host Scripted.still_page)
    Scripted.html [PStr "css"; PStr "#b"] Scripted.no_wait Scripted.start
    = (Normal true, Scripted.mkWorld 0 [Scripted.mkEvaluation 0 "#b" (PInt 0)]) /\
  has_no_selector (host := Scripted.host Scripted.still_page)
    Scripted.html [PStr "css"; PStr "#b"] Scripted.no_wait Scripted.start
    = (Normal false, Scripted.mkWorld 0 [Scripted.mkEvaluation 0 "#b" (PInt 0)]) /\
  has_text (host := Scripted.host Scripted.still_page)
    Scripted.html [PStr "bye"] Scripted.no_wait Scripted.start
    = (Normal false, Scripted.mkWorld 0 [Scripted.mkEvaluation 0 "bye" (PInt 0)]) /\
  has_selector (host := Scripted.host Scripted.still_page)
    Scripted.html [PStr "css"; PStr "#b"] Scripted.two_quantities Scripted.start
    = (Raise (OtherError "ConfigurationError" "more than one quantity option"),
       Scripted.start).
Proof.
  destruct (boolean_variants_catch_only_ExpectationNotMet
              (host := Scripted.host Scripted.still_page)
              Scripted.html [PStr "css"; PStr "#b"] ∅ (PStr "css") [] Scripted.no_wait)
    as ((Hreturns & _ & _) & (_ & Hfalse & _) & _).
  destruct (boolean_variants_catch_only_ExpectationNotMet
              (host := Scripted.host Scripted.still_page)
              Scripted.html [PStr "bye"] ∅ (PStr "css") [] Scripted.no_wait)
    as (_ & _ & _ & _ & _ & _ & _ & _ & _ & Htext).
  destruct (Htext (scripted_host_ends_with_an_attempt Scripted.still_page))
    as ((_ & Htext_false & _) & _).
  destruct (boolean_variants_catch_only_ExpectationNotMet
              (host := Scripted.host Scripted.still_page)
              Scripted.html [PStr "css"; PStr "#b"] ∅ (PStr "css") [] Scripted.two_quantities)
    as ((_ & _ & Hother) & _).
  split; [apply scripted_host_ends_with_an_attempt|].
  split; [apply (Hreturns _ _ true); reflexivity|].
  split; [apply Hfalse; exists "expected not to find #b"; reflexivity|].
  split; [apply Htext_false; exists "expected to find text bye"; reflexivity|].
  apply Hother; reflexivity.
Defined.

Lemma no_locator_returns_true_untouched_witness :
  returns_first_success (host := Scripted.host Scripted.late_page) /\
  "css" ∈ selectors (Host := Scripted.host Scripted.late_page) /\
  assert_all_of_selectors (host := Scripted.host Scripted.late_page)
    Scripted.html (PStr "css") [] Scripted.wait_three Scripted.start = (Normal true, Scripted.start) /\
  assert_none_of_selectors (host := Scripted.host Scripted.late_page)
    Scripted.html (PStr "css") [] Scripted.wait_three Scripted.start = (Normal true, Scripted.start).
Proof.
  assert (Hcss : "css" ∈ selectors (Host := Scripted.host Scripted.late_page))
    by (simpl; set_solver).
  destruct (no_locator_returns_true_untouched (host := Scripted.host Scripted.late_page)
              Scripted.html "css" Scripted.wait_three Scripted.start
              (scripted_host_returns_first_success Scripted.late_page) Hcss)
    as (_ & _ & Hall & Hnone).
  split; [apply scripted_host_returns_first_success|].
  split; [exact Hcss|]. split; assumption.
Defined.

Lemma group_shares_one_deadline_witness :
  normalize_selector (host := Scripted.host Scripted.late_page)
    (PStr "css") [PStr "#a"; PStr "#b"]
  = Normal (PStr "css", [PStr "#a"; PStr "#b"]) /\
  synchronized session_start = false /\
  assert_all_of_selectors (host := scripted_session Scripted.late_page)
    Scripted.html (PStr "css") [PStr "#a"; PStr "#b"] Scripted.wait_three session_start
  = (Raise (ExpectationNotMet "expected to find #b"),
     mkSession false
       (Scripted.mkWorld 3 [Scripted.mkEvaluation 0 "#a" (PInt 3);
                            Scripted.mkEvaluation 0 "#a" (PInt 3);
                            Scripted.mkEvaluation 0 "#a" (PInt 3);
                            Scripted.mkEvaluation 0 "#b" (PInt 3);
                            Scripted.mkEvaluation 0 "#a" (PInt 3);
                            Scripted.mkEvaluation 0 "#b" (PInt 3)])) /\
  (forall r s',
     assert_none_of_selectors (host := scripted_session Scripted.late_page)
       Scripted.html (PStr "css") [PStr "#a"; PStr "#b"] Scripted.wait_three session_start
     = (r, s') ->
     synchronized s' = false /\ Scripted.clock (inner s') <= 3).
Proof.
  assert (Hnorm : normalize_selector (host := Scripted.host Scripted.late_page)
                    (PStr "css") [PStr "#a"; PStr "#b"]
                  = Normal (PStr "css", [PStr "#a"; PStr "#b"]))
    by (vm_compute; reflexivity).
  assert (Hstart : synchronized session_start = false) by reflexivity.
  destruct (group_shares_one_deadline (host := Scripted.host Scripted.late_page)
              Scripted.clock Scripted.tick Scripted.ticks_of
              Scripted.html (PStr "css") [PStr "#a"; PStr "#b"] Scripted.wait_three
              (PStr "css") [PStr "#a"; PStr "#b"] session_start Hnorm Hstart)
    as (_ & _ & Hall & _ & _ & Hdeadline).
  split; [exact Hnorm|]. split; [exact Hstart|]. split.
  - unfold scripted_session. rewrite Hall. vm_compute. reflexivity.
  - intros r s' Hcall.
    refine (Hdeadline (fun w => eq_refl) _ r s' (or_intror Hcall)).
    intros query scope w r0 w' Hr. simpl in Hr. unfold Scripted.resolve_selector in Hr.
    injection Hr as _ <-. reflexivity.
Defined.

Lemma assert_none_of_selectors_raises_when_present_witness :
  normalize_selector (host := Scripted.host Scripted.late_page)
    (PStr "#x") [PStr "#a"]
  = Normal (PStr "css", [PStr "#x"; PStr "#a"]) /\
  (exists msg w',
     assert_none_of_selectors (host := Scripted.host Scripted.late_page)
       Scripted.html (PStr "#x") [PStr "#a"] Scripted.no_wait (Scripted.mkWorld 2 [])
     = (Raise (ExpectationNotMet msg), w')) /\
  (exists msg s',
     assert_none_of_selectors (host := scripted_session passing_page)
       Scripted.html (PStr "#x") [PStr "#a"] Scripted.wait_three
       (mkSession false (Scripted.mkWorld 2 []))
     = (Raise (ExpectationNotMet msg), s')).
Proof.
  assert (Hnorm : forall page,
            normalize_selector (host := Scripted.host page) (PStr "#x") [PStr "#a"]
            = Normal (PStr "css", [PStr "#x"; PStr "#a"]))
    by (intros page; vm_compute; reflexivity).
  assert (Hkw : Scripted.conflicting Scripted.wait_three = false)
    by (vm_compute; reflexivity).
  assert (Hkw0 : Scripted.conflicting Scripted.no_wait = false)
    by (vm_compute; reflexivity).
  destruct (assert_none_of_selectors_raises_when_present
              (host := Scripted.host Scripted.late_page) from_tick_two
              Scripted.html (PStr "#x") [PStr "#a"] Scripted.no_wait
              (PStr "css") [PStr "#x"; PStr "#a"] (Hnorm _))
    as (Hraise & _).
  destruct (assert_none_of_selectors_raises_when_present
              (host := Scripted.host passing_page) (between_ticks 2 5)
              Scripted.html (PStr "#x") [PStr "#a"] Scripted.wait_three
              (PStr "css") [PStr "#x"; PStr "#a"] (Hnorm _))
    as (_ & Hsession & _).
  split; [apply Hnorm|]. split.
  - assert (Htick : forall w, from_tick_two w -> from_tick_two (Scripted.tick w))
      by (intros w Hw; unfold from_tick_two in *; simpl; lia).
    apply (Hraise (scripted_host_attempts_within _ _ Htick) (PStr "#a")).
    + simpl. auto.
    + exists (Scripted.mkQuery (PStr "css") "#a" Scripted.no_wait).
      split; [reflexivity|]. intros [[|[|c]] ev] Hw;
        unfold from_tick_two in Hw; simpl in Hw; try lia.
      eexists _, _. split; [reflexivity|]. split; [exact Hw|].
      split; [reflexivity|]. left. exact Nat.lt_0_1.
    + intros other _. apply scripted_resolves_within; [exact Hkw0|].
      intros scope q w Hw. exact Hw.
    + unfold from_tick_two. simpl. lia.
  - apply (Hsession Scripted.clock Scripted.tick Scripted.ticks_of
             (mkSession false (Scripted.mkWorld 2 [])) (PStr "#a")).
    + reflexivity.
    + unfold between_ticks. simpl. lia.
    + intros w [Hfirst Hlast] Hbefore. change (Scripted.clock w < 5) in Hbefore.
      unfold between_ticks. simpl. lia.
    + simpl. auto.
    + exists (Scripted.mkQuery (PStr "css") "#a" Scripted.wait_three).
      split; [reflexivity|]. intros [[|[|[|[|[|[|c]]]]]] ev] Hw;
        unfold between_ticks in Hw; simpl in Hw; try lia;
        (eexists _, _; split; [reflexivity|]; split; [exact Hw|];
         split; [reflexivity|]; left; exact Nat.lt_0_1).
    + intros other _. apply scripted_resolves_within; [exact Hkw|].
      intros scope q w Hw. exact Hw.
Defined.

Lemma assert_matches_selector_membership_witness :
  SelectorQuery (Host := Scripted.host Scripted.still_page)
    [PStr "css"; PStr "a"] Scripted.no_wait
  = Normal (Scripted.mkQuery (PStr "css") "a" Scripted.no_wait) /\
  (exists w',
     assert_matches_selector (host := Scripted.host Scripted.still_page)
       Scripted.link_a [PStr "css"; PStr "a"] Scripted.no_wait Scripted.start
     = (Raise (ExpectationNotMet "Item does not match the provided selector"), w')) /\
  (exists w',
     assert_not_match_selector (host := Scripted.host Scripted.still_page)
       Scripted.link_a [PStr "css"; PStr "a"] Scripted.no_wait Scripted.start
     = (Normal true, w')) /\
  (exists w',
     assert_matches_selector (host := Scripted.host Scripted.still_page)
       Scripted.link_a [PStr "css"; PStr "a, b"] Scripted.no_wait Scripted.start
     = (Normal true, w')) /\
  (exists w',
     assert_not_match_selector (host := Scripted.host Scripted.still_page)
       Scripted.link_a [PStr "css"; PStr "a, b"] Scripted.no_wait Scripted.start
     = (Raise (ExpectationNotMet "Item matched the provided selector"), w')).
Proof.
  assert (Hin : attempts_within (host := Scripted.host Scripted.still_page)
                  (fun _ => True))
    by (apply scripted_host_attempts_within; auto).
  assert (Htwin : SelectorQuery (Host := Scripted.host Scripted.still_page)
                    [PStr "css"; PStr "a"] Scripted.no_wait
                  = Normal (Scripted.mkQuery (PStr "css") "a" Scripted.no_wait))
    by reflexivity.
  assert (Hboth : SelectorQuery (Host := Scripted.host Scripted.still_page)
                    [PStr "css"; PStr "a, b"] Scripted.no_wait
                  = Normal (Scripted.mkQuery (PStr "css") "a, b" Scripted.no_wait))
    by reflexivity.
  destruct (assert_matches_selector_membership
              (host := Scripted.host Scripted.still_page) (fun _ => True)
              Scripted.link_a [PStr "css"; PStr "a"] Scripted.no_wait _ Htwin Hin)
    as (_ & _ & Habsent & _).
  destruct (assert_matches_selector_membership
              (host := Scripted.host Scripted.still_page) (fun _ => True)
              Scripted.link_a [PStr "css"; PStr "a, b"] Scripted.no_wait _ Hboth Hin)
    as (_ & Hmember & _).
  split; [exact Htwin|].
  destruct (Habsent (fun w _ =>
              ex_intro _ _ (ex_intro _ _ (ex_intro _ _ (ex_intro _ _
                (conj eq_refl (conj eq_refl (conj I eq_refl)))))))
              Scripted.start I) as [Hraises Hreturns].
  destruct (Hmember (fun w _ =>
              ex_intro _ _ (ex_intro _ _ (ex_intro _ _ (ex_intro _ _
                (conj eq_refl (conj eq_refl (conj I eq_refl)))))))
              Scripted.start I) as [Hreturns' Hraises'].
  split; [exact Hraises|]. split; [exact Hreturns|]. split; assumption.
Defined.

(** * Further facts about the mixin *)

(** ** Loops and handlers *)

Section RunningMore.
Context {World : Type}.

Lemma bind_ret_Raise {A B} (m : M World A) (v : B) w e w' :
  bind m (fun _ => ret v) w = (Raise e, w') <-> m w = (Raise e, w').
Proof.
  unfold bind, ret. cbv beta.
  destruct (m w) as [[u|e0] w1]; split; intros H; try discriminate H;
    injection H as -> ->; reflexivity.
Qed.

(** A loop raises exactly what its first failing check raises, in the state
    that check left; the checks after it are not run. *)
Lemma for_each_raise_iff {A B} (check : A -> M World B) xs w e w' :
  for_each xs check w = (Raise e, w') <->
  exists before failing after w1,
    xs = (before ++ failing :: after)%list /\
    pass_in_turn check before w w1 /\
    check failing w1 = (Raise e, w').
Proof.
  revert w. induction xs as [|x xs IH]; intros w; simpl.
  - split; [discriminate|].
    intros (before & failing & after & w1 & Heq & _).
    destruct before; discriminate.
  - destruct (check x w) as [[v|e0] w2] eqn:Hx.
    + rewrite (bind_Normal _ _ _ _ _ Hx), IH. split.
      * intros (before & failing & after & w1 & -> & Hpass & Hfail).
        exists (x :: before), failing, after, w1. simpl.
        split; [reflexivity|]. split; [|assumption]. exists v, w2. auto.
      * intros (before & failing & after & w1 & Heq & Hpass & Hfail).
        destruct before as [|y before]; simpl in Heq; injection Heq as <- ->.
        -- simpl in Hpass. subst w1. congruence.
        -- simpl in Hpass. destruct Hpass as (v' & w3 & Hy & Hpass).
           rewrite Hx in Hy. injection Hy as <- <-.
           exists before, failing, after, w1. auto.
    + rewrite (bind_Raise _ _ _ _ _ Hx). split.
      * intros [= <- <-]. exists [], x, xs, w. simpl. auto.
      * intros (before & failing & after & w1 & Heq & Hpass & Hfail).
        destruct before as [|y before]; simpl in Heq; injection Heq as <- ->.
        -- simpl in Hpass. subst w1. congruence.
        -- simpl in Hpass. destruct Hpass as (v' & w3 & Hy & _). congruence.
Qed.

Lemma try_except_never_raises {A} (m : M World A) (v : A) :
  never_raises_ExpectationNotMet (try_except_ExpectationNotMet m (ret v)).
Proof.
  intros w w' msg. unfold try_except_ExpectationNotMet, ret.
  destruct (m w) as [[u|[msg0|cls msg0]] w1]; discriminate.
Qed.

End RunningMore.

Section MatchersMore.
Context {World : Type} `{host : Host World}.

(** ** assert_style *)

(** X1: once the style query has resolved, the body of [assert_style] raises
    [ExpectationNotMet] with the failure message of the query exactly when
    the styles did not resolve, and returns [True] exactly when they did. *)
Theorem assert_style_body_raises_exactly
    (self : Node) (query : StyleQueryT) (w w1 : World) (ok : bool) :
  stq_resolves_for query self w = (Normal ok, w1) ->
  (assert_style_body self query w =
     (Raise (ExpectationNotMet (stq_failure_message query w1)), w1) <->
   ok = false) /\
  (assert_style_body self query w = (Normal true, w1) <-> ok = true).
Proof.
  intros Hok. unfold assert_style_body. rewrite (bind_Normal _ _ _ _ _ Hok).
  destruct ok; simpl; unfold ret, raise_ExpectationNotMet_with;
    repeat split; intros H; try discriminate; reflexivity.
Qed.

(** ** Options that no query accepts *)

(** X2: when the query cannot be built from the arguments, the assertion
    raises the error of the constructor in the state it was called in,
    whatever the host's [synchronize] would do: nothing is retried and
    nothing is resolved.  The boolean variant raises the same error, unless
    it is an [ExpectationNotMet]. *)
Theorem query_errors_are_raised_at_once
    (self : Node) (args : list pyval) (styles : gmap string pyval)
    (kw : kwargs) (e : exn) (w : World) :
  (SelectorQuery args kw = Raise e ->
   assert_selector self args kw w = (Raise e, w) /\
   assert_no_selector self args kw w = (Raise e, w) /\
   assert_matches_selector self args kw w = (Raise e, w) /\
   assert_not_match_selector self args kw w = (Raise e, w) /\
   (is_ExpectationNotMet e = false ->
    has_selector self args kw w = (Raise e, w) /\
    has_no_selector self args kw w = (Raise e, w) /\
    matches_selector self args kw w = (Raise e, w) /\
    not_match_selector self args kw w = (Raise e, w))) /\
  (TextQuery args kw = Raise e ->
   assert_text self args kw w = (Raise e, w) /\
   assert_no_text self args kw w = (Raise e, w) /\
   (is_ExpectationNotMet e = false ->
    has_text self args kw w = (Raise e, w) /\
    has_no_text self args kw w = (Raise e, w))) /\
  (StyleQuery styles kw = Raise e ->
   assert_style self styles kw w = (Raise e, w) /\
   (is_ExpectationNotMet e = false ->
    has_style self styles kw w = (Raise e, w))).
Proof.
  split; [|split]; intros Hbuild.
  - unfold has_selector, has_no_selector, matches_selector, not_match_selector,
      true_unless_ExpectationNotMet, try_except_ExpectationNotMet, bind,
      assert_selector, assert_no_selector, assert_matches_selector,
      assert_not_match_selector, bind, lift.
    rewrite Hbuild. repeat split; try reflexivity; destruct e; (discriminate || reflexivity).
  - unfold has_text, has_no_text, try_except_ExpectationNotMet,
      assert_text, assert_no_text, bind, lift.
    rewrite Hbuild. repeat split; try reflexivity; destruct e; (discriminate || reflexivity).
  - unfold has_style, true_unless_ExpectationNotMet, try_except_ExpectationNotMet,
      assert_style, bind, lift.
    rewrite Hbuild. repeat split; try reflexivity; destruct e; (discriminate || reflexivity).
Qed.

(** ** One pass over the locators *)

(** X3: a pass of the loop of [assert_all_of_selectors] raises an error
    exactly when the sub-checks of some locators succeeded in turn and the
    sub-check of the next locator raised that error; the pass ends in the
    state that sub-check left and the locators after it play no part.  The
    loop of [assert_none_of_selectors] behaves the same on its negative
    sub-checks. *)
Theorem group_pass_stops_at_first_failure
    (self : Node) (sel : pyval) (locs : list pyval) (kw : kwargs)
    (w w' : World) (e : exn) :
  (assert_all_of_selectors_body self sel locs kw w = (Raise e, w') <->
   exists before failing after w1,
     locs = (before ++ failing :: after)%list /\
     pass_in_turn (fun locator => assert_selector self [sel; locator] kw)
                  before w w1 /\
     assert_selector self [sel; failing] kw w1 = (Raise e, w')) /\
  (assert_none_of_selectors_body self sel locs kw w = (Raise e, w') <->
   exists before failing after w1,
     locs = (before ++ failing :: after)%list /\
     pass_in_turn (fun locator => assert_no_selector self [sel; locator] kw)
                  before w w1 /\
     assert_no_selector self [sel; failing] kw w1 = (Raise e, w')).
Proof.
  unfold assert_all_of_selectors_body, assert_none_of_selectors_body.
  rewrite !bind_ret_Raise. split; apply for_each_raise_iff.
Qed.

(** ** What an assertion and a predicate can end with *)

(** X4: an assertion never returns [False]: it returns [True] or raises.
    The host's [synchronize] is only asked to hand back what its body
    returned. *)
Theorem assertions_never_return_False
    (self : Node) (args : list pyval) (styles : gmap string pyval)
    (selector : pyval) (locators : list pyval) (kw : kwargs) (w w' : World) :
  ends_with_an_attempt ->
  assert_selector self args kw w <> (Normal false, w') /\
  assert_no_selector self args kw w <> (Normal false, w') /\
  assert_style self styles kw w <> (Normal false, w') /\
  assert_all_of_selectors self selector locators kw w <> (Normal false, w') /\
  assert_none_of_selectors self selector locators kw w <> (Normal false, w') /\
  assert_matches_selector self args kw w <> (Normal false, w') /\
  assert_not_match_selector self args kw w <> (Normal false, w') /\
  assert_text self args kw w <> (Normal false, w') /\
  assert_no_text self args kw w <> (Normal false, w').
Proof.
  intros Hends.
  destruct (assertions_return_true Hends self args styles selector locators kw
              w w' false)
    as (H1 & H2 & H3 & H4 & H5 & H6 & H7 & H8 & H9).
  repeat split; intros H;
    [apply H1 in H | apply H2 in H | apply H3 in H | apply H4 in H | apply H5 in H
    | apply H6 in H | apply H7 in H | apply H8 in H | apply H9 in H];
    discriminate H.
Qed.

(** X5: no predicate of the mixin ever raises [ExpectationNotMet], on any
    host: the boolean variants, the aliases and every shorthand built on
    them end with a boolean or with an error of another class. *)
Theorem predicates_never_raise_ExpectationNotMet
    (self : Node) (args : list pyval) (styles : gmap string pyval)
    (selector locator : pyval) (locators : list pyval) (kw : kwargs) :
  never_raises_ExpectationNotMet (has_selector self args kw) /\
  never_raises_ExpectationNotMet (has_no_selector self args kw) /\
  never_raises_ExpectationNotMet (has_style self styles kw) /\
  never_raises_ExpectationNotMet (has_all_of_selectors self selector locators kw) /\
  never_raises_ExpectationNotMet (has_none_of_selectors self selector locators kw) /\
  never_raises_ExpectationNotMet (matches_selector self args kw) /\
  never_raises_ExpectationNotMet (not_match_selector self args kw) /\
  never_raises_ExpectationNotMet (has_text self args kw) /\
  never_raises_ExpectationNotMet (has_content self args kw) /\
  never_raises_ExpectationNotMet (has_no_text self args kw) /\
  never_raises_ExpectationNotMet (has_no_content self args kw) /\
  never_raises_ExpectationNotMet (matches_xpath self locator kw) /\
  never_raises_ExpectationNotMet (not_match_xpath self locator kw) /\
  never_raises_ExpectationNotMet (matches_css self locator kw) /\
  never_raises_ExpectationNotMet (not_match_css self locator kw) /\
  never_raises_ExpectationNotMet (has_xpath self locator kw) /\
  never_raises_ExpectationNotMet (has_no_xpath self locator kw) /\
  never_raises_ExpectationNotMet (has_css self locator kw) /\
  never_raises_ExpectationNotMet (has_no_css self locator kw) /\
  never_raises_ExpectationNotMet (has_button self locator kw) /\
  never_raises_ExpectationNotMet (has_no_button self locator kw) /\
  never_raises_ExpectationNotMet (has_checked_field self locator kw) /\
  never_raises_ExpectationNotMet (has_no_checked_field self locator kw) /\
  never_raises_ExpectationNotMet (has_field self locator kw) /\
  never_raises_ExpectationNotMet (has_no_field self locator kw) /\
  never_raises_ExpectationNotMet (has_link self locator kw) /\
  never_raises_ExpectationNotMet (has_no_link self locator kw) /\
  never_raises_ExpectationNotMet (has_select self locator kw) /\
  never_raises_ExpectationNotMet (has_no_select self locator kw) /\
  never_raises_ExpectationNotMet (has_table self locator kw) /\
  never_raises_ExpectationNotMet (has_no_table self locator kw) /\
  never_raises_ExpectationNotMet (has_unchecked_field self locator kw) /\
  never_raises_ExpectationNotMet (has_no_unchecked_field self locator kw).
Proof.
  repeat match goal with |- _ /\ _ => split end;
    apply try_except_never_raises.
Qed.

(** ** The group assertions as a whole *)

(** X6: when [assert_all_of_selectors] returns, it returns [True] after a
    pass of its loop in which the sub-check of every locator succeeded, in
    order.  On a host whose [synchronize] ends with an attempt of its body
    the call ends in the state the last sub-check left.  In a session that
    follows section 4.3 the pass is one of checks run once, the call ends
    with the document as that pass left it, and the query of every locator
    resolved to a result that meets its count options and holds an element,
    or has options that expect none. *)
Theorem assert_all_of_selectors_returns_after_a_pass
    (self : Node) (selector : pyval) (locators : list pyval) (kw : kwargs)
    (sel : pyval) (locs : list pyval) :
  normalize_selector selector locators = Normal (sel, locs) ->
  (ends_with_an_attempt ->
   forall w w' v,
     assert_all_of_selectors self selector locators kw w = (Normal v, w') ->
     v = true /\
     exists w0,
       pass_in_turn (fun locator => assert_selector self [sel; locator] kw)
                    locs w0 w') /\
  (forall (now : World -> nat) (sleep : World -> World) (ticks : pyval -> nat)
          (s s' : Session World) v,
     synchronized s = false ->
     assert_all_of_selectors (host := session_host host now sleep ticks)
       self selector locators kw s = (Normal v, s') ->
     v = true /\
     (exists s0 s1,
        inner s1 = inner s' /\
        pass_in_turn
          (fun locator =>
             assert_selector_once (host := session_host host now sleep ticks)
               self [sel; locator] kw)
          locs s0 s1) /\
     forall locator, In locator locs ->
       exists query result w0 w1,
         SelectorQuery [sel; locator] kw = Normal query /\
         sq_resolve_for query self w0 = (Normal result, w1) /\
         result_matches_count result = true /\
         (0 < len result \/ expects_none (sq_options query) = true)).
Proof.
  intros Hnorm. split.
  - intros Hends w w' v. unfold assert_all_of_selectors.
    rewrite Hnorm, bind_lift_Normal. intros Hs.
    apply Hends in Hs as (w0 & Hb). split.
    + exact (loop_returns_true _ _ _ _ _ Hb).
    + unfold assert_all_of_selectors_body in Hb.
      apply bind_inv_Normal in Hb as (u & w1 & Hloop & Hret).
      injection Hret as _ <-. exists w0.
      now apply (for_each_pass_in_turn _ _ _ _ u).
  - intros now sleep ticks s s' v Hs.
    rewrite (assert_all_of_selectors_in_session now sleep ticks
               self selector locators kw sel locs s Hnorm Hs).
    destruct (spec_synchronize _ _ _ _ _) as [r s0] eqn:Hloop.
    intros [= -> <-].
    apply spec_synchronize_attempt in Hloop as (s1 & Hb).
    apply bind_inv_Normal in Hb as (u & s2 & Hpass & Hret).
    unfold ret in Hret. injection Hret as <- <-. split; [reflexivity|].
    apply (for_each_pass_in_turn _ _ _ _ u) in Hpass.
    split; [exists s1, s2; split; [reflexivity | exact Hpass]|].
    intros locator Hlocator.
    destruct (pass_in_turn_each _ _ _ _ Hpass locator Hlocator) as (u0 & v0 & u0' & Hc).
    apply assert_selector_once_returned in Hc
      as (query & result & Hquery & Hr & Hverdict & Hfound).
    exists query, result, (inner u0), (inner u0'). auto.
Qed.


(** X8: leaving the selector out is the same as giving the default one: when
    the default selector is a key of the registry and the first argument is
    not, and the registry test on the first argument returns (it is no
    instance of [Hashable], or it can be hashed), the group assertions and
    their boolean variants behave as if the default selector had been written
    in front of the arguments. *)
Theorem omitted_selector_is_the_default
    (self : Node) (first : pyval) (locators : list pyval) (kw : kwargs) :
  recognized default_selector ->
  registry_test_returns first ->
  ~ recognized first ->
  normalize_selector first locators =
    normalize_selector default_selector (first :: locators) /\
  assert_all_of_selectors self first locators kw =
    assert_all_of_selectors self default_selector (first :: locators) kw /\
  assert_none_of_selectors self first locators kw =
    assert_none_of_selectors self default_selector (first :: locators) kw /\
  has_all_of_selectors self first locators kw =
    has_all_of_selectors self default_selector (first :: locators) kw /\
  has_none_of_selectors self first locators kw =
    has_none_of_selectors self default_selector (first :: locators) kw.
Proof.
  intros Hdefault Htest Hfirst.
  assert (Hn : normalize_selector first locators =
               normalize_selector default_selector (first :: locators)).
  { rewrite (normalize_selector_unrecognized _ _ Htest Hfirst).
    now rewrite (normalize_selector_recognized _ _ Hdefault). }
  unfold has_all_of_selectors, has_none_of_selectors,
    assert_all_of_selectors, assert_none_of_selectors.
  rewrite Hn. repeat split; reflexivity.
Qed.

(** ** Matching the node itself, once more *)

(** X9: on the same parent and the same resolved result, the body of
    [assert_not_match_selector] returns [True] exactly when the body of
    [assert_matches_selector] raises, and raises exactly when that body
    returns [True]: one of the two holds, never both. *)
Theorem assert_not_match_selector_body_inverts
    (self : Node) (query : SelectorQueryT) (parent : option Node)
    (w w1 w2 : World) (result : Result) :
  find_first self [PStr "xpath"; PStr "./parent::*"] {[ "minimum" := PInt 0 ]} w
    = (Normal parent, w1) ->
  sq_resolve_for query
    (match parent with Some p => p | None => query_scope self end) w1
    = (Normal result, w2) ->
  (assert_not_match_selector_body self query w = (Normal true, w2) <->
   assert_matches_selector_body self query w =
     (Raise (ExpectationNotMet "Item does not match the provided selector"), w2)) /\
  (assert_not_match_selector_body self query w =
     (Raise (ExpectationNotMet "Item matched the provided selector"), w2) <->
   assert_matches_selector_body self query w = (Normal true, w2)) /\
  (assert_matches_selector_body self query w = (Normal true, w2) \/
   assert_not_match_selector_body self query w = (Normal true, w2)).
Proof.
  intros Hparent Hresolve.
  pose proof (parent_or_query_scope_run _ _ _ _ Hparent) as Hscope.
  unfold assert_matches_selector_body, assert_not_match_selector_body.
  rewrite !(bind_Normal _ _ _ _ _ Hscope), !(bind_Normal _ _ _ _ _ Hresolve).
  destruct (node_in self result); simpl; unfold ret, raise.
  - split; [|split]; [split; intros H; discriminate H | split; reflexivity | now left].
  - split; [|split]; [split; reflexivity | split; intros H; discriminate H | now right].
Qed.

(** ** Errors of the collaborators *)

(** The decorated bodies catch nothing: an error raised while the query
    resolves is the error of the body, in the state the resolution left; in
    the two matching bodies an error of [find_first] ends the body before
    any query is resolved, and an error of the resolution that follows a
    successful [find_first] is passed on in the same way. *)
Lemma bodies_let_errors_through
    (self : Node) (sq : SelectorQueryT) (tq : TextQueryT) (stq : StyleQueryT)
    (e : exn) (w w' : World) :
  (sq_resolve_for sq self w = (Raise e, w') ->
   assert_selector_body self sq w = (Raise e, w') /\
   assert_no_selector_body self sq w = (Raise e, w')) /\
  (tq_resolve_for tq self w = (Raise e, w') ->
   assert_text_body self tq w = (Raise e, w') /\
   assert_no_text_body self tq w = (Raise e, w')) /\
  (stq_resolves_for stq self w = (Raise e, w') ->
   assert_style_body self stq w = (Raise e, w')) /\
  (find_first self [PStr "xpath"; PStr "./parent::*"] {[ "minimum" := PInt 0 ]} w
     = (Raise e, w') ->
   assert_matches_selector_body self sq w = (Raise e, w') /\
   assert_not_match_selector_body self sq w = (Raise e, w')) /\
  (forall parent w1,
     find_first self [PStr "xpath"; PStr "./parent::*"] {[ "minimum" := PInt 0 ]} w
       = (Normal parent, w1) ->
     sq_resolve_for sq
       (match parent with Some p => p | None => query_scope self end) w1
       = (Raise e, w') ->
     assert_matches_selector_body self sq w = (Raise e, w') /\
     assert_not_match_selector_body self sq w = (Raise e, w')).
Proof.
  repeat match goal with |- _ /\ _ => split end.
  - intros H. unfold assert_selector_body, assert_no_selector_body.
    now rewrite !(bind_Raise _ _ _ _ _ H).
  - intros H. unfold assert_text_body, assert_no_text_body.
    now rewrite !(bind_Raise _ _ _ _ _ H).
  - intros H. unfold assert_style_body. now rewrite (bind_Raise _ _ _ _ _ H).
  - intros H.
    assert (Hscope : parent_or_query_scope self w = (Raise e, w'))
      by (unfold parent_or_query_scope; now rewrite (bind_Raise _ _ _ _ _ H)).
    unfold assert_matches_selector_body, assert_not_match_selector_body.
    now rewrite !(bind_Raise _ _ _ _ _ Hscope).
  - intros parent w1 Hparent H.
    pose proof (parent_or_query_scope_run _ _ _ _ Hparent) as Hscope.
    unfold assert_matches_selector_body, assert_not_match_selector_body.
    now rewrite !(bind_Normal _ _ _ _ _ Hscope), !(bind_Raise _ _ _ _ _ H).
Qed.

(** ** Where the outcome of an assertion comes from *)

Lemma guarded_body_cases {A} (m : M World A) (k : A -> bool)
    (msg : A -> World -> string) w r w' :
  bind m (fun x => if k x
                   then (fun w => (Raise (ExpectationNotMet (msg x w)), w))
                   else ret true) w = (r, w') ->
  (exists e, m w = (Raise e, w') /\ r = Raise e) \/
  (exists x, m w = (Normal x, w') /\
             ((k x = false /\ r = Normal true) \/
              (k x = true /\ r = Raise (ExpectationNotMet (msg x w'))))).
Proof.
  unfold bind. destruct (m w) as [[x|e] w1] eqn:Hm.
  - destruct (k x) eqn:Hk; unfold ret; intros [= <- <-]; right; exists x; auto.
  - intros [= <- <-]. left. eauto.
Qed.

(** X10: what [assert_selector] and [assert_no_selector] end with was
    observed.  When [assert_selector] returns, some resolution of its query
    gave a result that meets the count options and holds an element (or the
    options expect none), and the call ends in the state that resolution
    left; when it raises [ExpectationNotMet], either the resolution raised it
    or the message is the failure message of a resolved result that does not
    meet that condition.  [assert_no_selector] is the mirror image.
    [synchronize] is asked to end with an attempt of its body. *)
Theorem assert_selector_outcome_was_observed
    (self : Node) (args : list pyval) (kw : kwargs) (query : SelectorQueryT) :
  ends_with_an_attempt ->
  SelectorQuery args kw = Normal query ->
  (forall w w' v,
     assert_selector self args kw w = (Normal v, w') ->
     exists w0 result,
       sq_resolve_for query self w0 = (Normal result, w') /\
       result_matches_count result = true /\
       (0 < len result \/ expects_none (sq_options query) = true)) /\
  (forall w w' msg,
     assert_selector self args kw w = (Raise (ExpectationNotMet msg), w') ->
     exists w0,
       sq_resolve_for query self w0 = (Raise (ExpectationNotMet msg), w') \/
       (exists result,
          sq_resolve_for query self w0 = (Normal result, w') /\
          msg = failure_message result /\
          ~ (result_matches_count result = true /\
             (0 < len result \/ expects_none (sq_options query) = true)))) /\
  (forall w w' v,
     assert_no_selector self args kw w = (Normal v, w') ->
     exists w0 result,
       sq_resolve_for query self w0 = (Normal result, w') /\
       ~ (result_matches_count result = true /\
          (0 < len result \/ expects_none (sq_options query) = true))) /\
  (forall w w' msg,
     assert_no_selector self args kw w = (Raise (ExpectationNotMet msg), w') ->
     exists w0,
       sq_resolve_for query self w0 = (Raise (ExpectationNotMet msg), w') \/
       (exists result,
          sq_resolve_for query self w0 = (Normal result, w') /\
          msg = negative_failure_message result /\
          result_matches_count result = true /\
          (0 < len result \/ expects_none (sq_options query) = true))).
Proof.
  intros Hends Hquery. unfold assert_selector, assert_no_selector.
  rewrite Hquery.
  repeat match goal with |- _ /\ _ => split end.
  - intros w w' v. rewrite bind_lift_Normal. intros Hs.
    apply Hends in Hs as (w0 & Hb). exists w0.
    apply (guarded_body_cases _ (fun r => negb _)
             (fun r _ => failure_message r)) in Hb
      as [(e & _ & He) | (result & Hr & [(Hk & _) | (_ & He)])];
      try discriminate He.
    exists result. split; [assumption|].
    apply satisfied_and_present. now apply negb_false_iff.
  - intros w w' msg. rewrite bind_lift_Normal. intros Hs.
    apply Hends in Hs as (w0 & Hb). exists w0.
    apply (guarded_body_cases _ (fun r => negb _)
             (fun r _ => failure_message r)) in Hb
      as [(e & Hr & [= <-]) | (result & Hr & [(_ & He) | (Hk & [= ->])])];
      try discriminate He.
    + now left.
    + right. exists result. split; [assumption|]. split; [reflexivity|].
      rewrite <- satisfied_and_present. apply negb_true_iff in Hk.
      now rewrite Hk.
  - intros w w' v. rewrite bind_lift_Normal. intros Hs.
    apply Hends in Hs as (w0 & Hb). exists w0.
    apply (guarded_body_cases _ (fun r => _ && _)
             (fun r _ => negative_failure_message r)) in Hb
      as [(e & _ & He) | (result & Hr & [(Hk & _) | (_ & He)])];
      try discriminate He.
    exists result. split; [assumption|].
    rewrite <- satisfied_and_present. now rewrite Hk.
  - intros w w' msg. rewrite bind_lift_Normal. intros Hs.
    apply Hends in Hs as (w0 & Hb). exists w0.
    apply (guarded_body_cases _ (fun r => _ && _)
             (fun r _ => negative_failure_message r)) in Hb
      as [(e & Hr & [= <-]) | (result & Hr & [(_ & He) | (Hk & [= ->])])];
      try discriminate He.
    + now left.
    + right. exists result. split; [assumption|]. split; [reflexivity|].
      now apply satisfied_and_present.
Qed.

(** X11: what [assert_text] and [assert_no_text] end with was observed.
    When [assert_text] returns, some resolution of its query counted
    occurrences that meet the count options, with at least one occurrence or
    options that expect none; when it raises [ExpectationNotMet], either the
    resolution raised it or the message is the failure message of the query
    after a resolution whose count does not meet that condition.
    [assert_no_text] is the mirror image.  [synchronize] is asked to end
    with an attempt of its body. *)
Theorem assert_text_outcome_was_observed
    (self : Node) (args : list pyval) (kw : kwargs) (query : TextQueryT) :
  ends_with_an_attempt ->
  TextQuery args kw = Normal query ->
  (forall w w' v,
     assert_text self args kw w = (Normal v, w') ->
     exists w0 count,
       tq_resolve_for query self w0 = (Normal count, w') /\
       matches_count count (tq_options query) = true /\
       ((0 < count)%Z \/ expects_none (tq_options query) = true)) /\
  (forall w w' msg,
     assert_text self args kw w = (Raise (ExpectationNotMet msg), w') ->
     exists w0,
       tq_resolve_for query self w0 = (Raise (ExpectationNotMet msg), w') \/
       (exists count,
          tq_resolve_for query self w0 = (Normal count, w') /\
          msg = tq_failure_message query w' /\
          ~ (matches_count count (tq_options query) = true /\
             ((0 < count)%Z \/ expects_none (tq_options query) = true)))) /\
  (forall w w' v,
     assert_no_text self args kw w = (Normal v, w') ->
     exists w0 count,
       tq_resolve_for query self w0 = (Normal count, w') /\
       ~ (matches_count count (tq_options query) = true /\
          ((0 < count)%Z \/ expects_none (tq_options query) = true))) /\
  (forall w w' msg,
     assert_no_text self args kw w = (Raise (ExpectationNotMet msg), w') ->
     exists w0,
       tq_resolve_for query self w0 = (Raise (ExpectationNotMet msg), w') \/
       (exists count,
          tq_resolve_for query self w0 = (Normal count, w') /\
          msg = tq_negative_failure_message query w' /\
          matches_count count (tq_options query) = true /\
          ((0 < count)%Z \/ expects_none (tq_options query) = true))).
Proof.
  intros Hends Hquery. unfold assert_text, assert_no_text.
  rewrite Hquery.
  repeat match goal with |- _ /\ _ => split end.
  - intros w w' v. rewrite bind_lift_Normal. intros Hs.
    apply Hends in Hs as (w0 & Hb). exists w0.
    apply (guarded_body_cases _ (fun c => negb _)
             (fun _ w => tq_failure_message query w)) in Hb
      as [(e & _ & He) | (count & Hr & [(Hk & _) | (_ & He)])];
      try discriminate He.
    exists count. split; [assumption|].
    apply satisfied_and_present_Z. now apply negb_false_iff.
  - intros w w' msg. rewrite bind_lift_Normal. intros Hs.
    apply Hends in Hs as (w0 & Hb). exists w0.
    apply (guarded_body_cases _ (fun c => negb _)
             (fun _ w => tq_failure_message query w)) in Hb
      as [(e & Hr & [= <-]) | (count & Hr & [(_ & He) | (Hk & [= ->])])];
      try discriminate He.
    + now left.
    + right. exists count. split; [assumption|]. split; [reflexivity|].
      rewrite <- satisfied_and_present_Z. apply negb_true_iff in Hk.
      now rewrite Hk.
  - intros w w' v. rewrite bind_lift_Normal. intros Hs.
    apply Hends in Hs as (w0 & Hb). exists w0.
    apply (guarded_body_cases _ (fun c => _ && _)
             (fun _ w => tq_negative_failure_message query w)) in Hb
      as [(e & _ & He) | (count & Hr & [(Hk & _) | (_ & He)])];
      try discriminate He.
    exists count. split; [assumption|].
    rewrite <- satisfied_and_present_Z. now rewrite Hk.
  - intros w w' msg. rewrite bind_lift_Normal. intros Hs.
    apply Hends in Hs as (w0 & Hb). exists w0.
    apply (guarded_body_cases _ (fun c => _ && _)
             (fun _ w => tq_negative_failure_message query w)) in Hb
      as [(e & Hr & [= <-]) | (count & Hr & [(_ & He) | (Hk & [= ->])])];
      try discriminate He.
    + now left.
    + right. exists count. split; [assumption|]. split; [reflexivity|].
      now apply satisfied_and_present_Z.
Qed.

End MatchersMore.

(** ** The further statements on the scripted host *)

Lemma assert_style_body_raises_exactly_witness :
  stq_resolves_for (Host := Scripted.host unstyled_page)
    style_query Scripted.html Scripted.start
    = (Normal false, Scripted.start) /\
  assert_style_body (host := Scripted.host unstyled_page)
    Scripted.html style_query Scripted.start
    = (Raise (ExpectationNotMet "expected the styles to match"), Scripted.start).
Proof.
  assert (Hok : stq_resolves_for (Host := Scripted.host unstyled_page)
                  style_query Scripted.html Scripted.start
                = (Normal false, Scripted.start)) by reflexivity.
  destruct (assert_style_body_raises_exactly (host := Scripted.host unstyled_page)
              _ _ _ _ _ Hok) as (Hraise & _).
  split; [exact Hok|]. apply Hraise. reflexivity.
Defined.

Lemma query_errors_are_raised_at_once_witness :
  SelectorQuery (Host := Scripted.host Scripted.late_page)
    [PStr "css"; PStr "#a"] Scripted.two_quantities
    = Raise (OtherError "ConfigurationError" "more than one quantity option") /\
  assert_selector (host := Scripted.host Scripted.late_page)
    Scripted.html [PStr "css"; PStr "#a"] Scripted.two_quantities Scripted.start
    = (Raise (OtherError "ConfigurationError" "more than one quantity option"),
       Scripted.start) /\
  has_no_selector (host := Scripted.host Scripted.late_page)
    Scripted.html [PStr "css"; PStr "#a"] Scripted.two_quantities Scripted.start
    = (Raise (OtherError "ConfigurationError" "more than one quantity option"),
       Scripted.start).
Proof.
  assert (Hbuild : SelectorQuery (Host := Scripted.host Scripted.late_page)
                     [PStr "css"; PStr "#a"] Scripted.two_quantities
                   = Raise (OtherError "ConfigurationError"
                                       "more than one quantity option"))
    by (vm_compute; reflexivity).
  destruct (query_errors_are_raised_at_once (host := Scripted.host Scripted.late_page)
              Scripted.html [PStr "css"; PStr "#a"] ∅ Scripted.two_quantities
              (OtherError "ConfigurationError" "more than one quantity option")
              Scripted.start) as (Hsel & _).
  destruct (Hsel Hbuild) as (Hassert & _ & _ & _ & Hhas).
  destruct (Hhas eq_refl) as (_ & Hno & _).
  split; [exact Hbuild|]. split; assumption.
Defined.

Lemma group_pass_stops_at_first_failure_witness :
  assert_all_of_selectors_body (host := Scripted.host Scripted.still_page)
    Scripted.html (PStr "css") [PStr "#b"; PStr "#x"; PStr "a"]
    Scripted.no_wait Scripted.start
  = (Raise (ExpectationNotMet "expected to find #x"),
     Scripted.mkWorld 0 [Scripted.mkEvaluation 0 "#b" (PInt 0);
                         Scripted.mkEvaluation 0 "#x" (PInt 0)]).
Proof.
  apply (group_pass_stops_at_first_failure (host := Scripted.host Scripted.still_page)).
  exists [PStr "#b"], (PStr "#x"), [PStr "a"],
    (Scripted.mkWorld 0 [Scripted.mkEvaluation 0 "#b" (PInt 0)]).
  split; [reflexivity|]. split.
  - simpl. exists true, (Scripted.mkWorld 0 [Scripted.mkEvaluation 0 "#b" (PInt 0)]).
    split; reflexivity.
  - reflexivity.
Defined.

Lemma assertions_never_return_False_witness :
  ends_with_an_attempt (host := Scripted.host Scripted.still_page) /\
  assert_selector (host := Scripted.host Scripted.still_page)
    Scripted.html [PStr "css"; PStr "#x"] Scripted.no_wait Scripted.start
  <> (Normal false, Scripted.start).
Proof.
  split; [apply scripted_host_ends_with_an_attempt|].
  apply (assertions_never_return_False (host := Scripted.host Scripted.still_page)
           Scripted.html [PStr "css"; PStr "#x"] ∅ (PStr "css") []
           Scripted.no_wait Scripted.start Scripted.start
           (scripted_host_ends_with_an_attempt Scripted.still_page)).
Defined.

Lemma assert_all_of_selectors_returns_after_a_pass_witness :
  normalize_selector (host := Scripted.host Scripted.still_page)
    (PStr "css") [PStr "#b"; PStr "a"]
    = Normal (PStr "css", [PStr "#b"; PStr "a"]) /\
  assert_all_of_selectors (host := Scripted.host Scripted.still_page)
    Scripted.html (PStr "css") [PStr "#b"; PStr "a"] Scripted.no_wait Scripted.start
  = (Normal true,
     Scripted.mkWorld 0 [Scripted.mkEvaluation 0 "#b" (PInt 0);
                         Scripted.mkEvaluation 0 "a" (PInt 0)]) /\
  (exists w0,
     pass_in_turn
       (fun locator =>
          assert_selector (host := Scripted.host Scripted.still_page)
            Scripted.html [PStr "css"; locator] Scripted.no_wait)
       [PStr "#b"; PStr "a"] w0
       (Scripted.mkWorld 0 [Scripted.mkEvaluation 0 "#b" (PInt 0);
                            Scripted.mkEvaluation 0 "a" (PInt 0)])) /\
  fst (assert_all_of_selectors (host := scripted_session Scripted.still_page)
         Scripted.html (PStr "css") [PStr "#b"; PStr "a"] Scripted.wait_three
         session_start)
  = Normal true /\
  forall locator, In locator [PStr "#b"; PStr "a"] ->
    exists query result w0 w1,
      SelectorQuery (Host := Scripted.host Scripted.still_page)
        [PStr "css"; locator] Scripted.wait_three = Normal query /\
      sq_resolve_for (Host := Scripted.host Scripted.still_page)
        query Scripted.html w0 = (Normal result, w1) /\
      result_matches_count result = true /\
      (0 < len result \/
       expects_none (Host := Scripted.host Scripted.still_page)
         (sq_options (Host := Scripted.host Scripted.still_page) query) = true).
Proof.
  assert (Hnorm : normalize_selector (host := Scripted.host Scripted.still_page)
                    (PStr "css") [PStr "#b"; PStr "a"]
                  = Normal (PStr "css", [PStr "#b"; PStr "a"]))
    by (vm_compute; reflexivity).
  assert (Hrun : assert_all_of_selectors (host := Scripted.host Scripted.still_page)
                   Scripted.html (PStr "css") [PStr "#b"; PStr "a"]
                   Scripted.no_wait Scripted.start
                 = (Normal true,
                    Scripted.mkWorld 0 [Scripted.mkEvaluation 0 "#b" (PInt 0);
                                        Scripted.mkEvaluation 0 "a" (PInt 0)]))
    by (vm_compute; reflexivity).
  destruct (assert_all_of_selectors_returns_after_a_pass
              (host := Scripted.host Scripted.still_page)
              Scripted.html (PStr "css") [PStr "#b"; PStr "a"] Scripted.no_wait
              _ _ Hnorm) as (Hgeneric & _).
  destruct (assert_all_of_selectors_returns_after_a_pass
              (host := Scripted.host Scripted.still_page)
              Scripted.html (PStr "css") [PStr "#b"; PStr "a"] Scripted.wait_three
              _ _ Hnorm) as (_ & Hsession).
  split; [exact Hnorm|]. split; [exact Hrun|].
  split; [exact (proj2 (Hgeneric (scripted_host_ends_with_an_attempt Scripted.still_page)
                          _ _ _ Hrun))|].
  destruct (assert_all_of_selectors (host := scripted_session Scripted.still_page)
              Scripted.html (PStr "css") [PStr "#b"; PStr "a"] Scripted.wait_three
              session_start) as [r s'] eqn:Hcall.
  assert (Hr : r = Normal true).
  { apply (f_equal fst) in Hcall. vm_compute in Hcall. congruence. }
  subst r. split; [reflexivity|].
  exact (proj2 (proj2 (Hsession Scripted.clock Scripted.tick Scripted.ticks_of
                         session_start s' true eq_refl Hcall))).
Defined.


Lemma omitted_selector_is_the_default_witness :
  recognized (host := Scripted.host Scripted.still_page) (PStr "css") /\
  registry_test_returns (PStr "#b") /\
  ~ recognized (host := Scripted.host Scripted.still_page) (PStr "#b") /\
  assert_all_of_selectors (host := Scripted.host Scripted.still_page)
    Scripted.html (PStr "#b") [PStr "a"] Scripted.no_wait
  = assert_all_of_selectors (host := Scripted.host Scripted.still_page)
      Scripted.html (PStr "css") [PStr "#b"; PStr "a"] Scripted.no_wait.
Proof.
  assert (Hcss : recognized (host := Scripted.host Scripted.still_page) (PStr "css")).
  { exists "css". split; [reflexivity|]. simpl. set_solver. }
  assert (Htest : registry_test_returns (PStr "#b")) by (right; reflexivity).
  assert (Hb : ~ recognized (host := Scripted.host Scripted.still_page) (PStr "#b")).
  { intros (s & [= <-] & Hin). revert Hin. simpl.
    rewrite !elem_of_union, !elem_of_singleton.
    intros [[Heq | Heq] | Heq]; discriminate Heq. }
  destruct (omitted_selector_is_the_default (host := Scripted.host Scripted.still_page)
              Scripted.html (PStr "#b") [PStr "a"] Scripted.no_wait Hcss Htest Hb)
    as (_ & Hall & _).
  split; [exact Hcss|]. split; [exact Htest|]. split; [exact Hb|]. exact Hall.
Defined.

Lemma assert_not_match_selector_body_inverts_witness :
  find_first (Host := Scripted.host Scripted.still_page) Scripted.link_a
    [PStr "xpath"; PStr "./parent::*"] {[ "minimum" := PInt 0 ]} Scripted.start
    = (Normal (Some Scripted.html), Scripted.start) /\
  sq_resolve_for (Host := Scripted.host Scripted.still_page)
    Scripted.find_a Scripted.html Scripted.start
    = (Normal (mkResult [Scripted.twin_of_a] true "expected to find a"
                        "expected not to find a"),
       Scripted.mkWorld 0 [Scripted.mkEvaluation 0 "a" (PInt 2)]) /\
  assert_not_match_selector_body (host := Scripted.host Scripted.still_page)
    Scripted.link_a Scripted.find_a Scripted.start
    = (Normal true, Scripted.mkWorld 0 [Scripted.mkEvaluation 0 "a" (PInt 2)]).
Proof.
  assert (Hparent : find_first (Host := Scripted.host Scripted.still_page)
                      Scripted.link_a
                      [PStr "xpath"; PStr "./parent::*"] {[ "minimum" := PInt 0 ]}
                      Scripted.start
                    = (Normal (Some Scripted.html), Scripted.start)) by reflexivity.
  assert (Hsq : sq_resolve_for (Host := Scripted.host Scripted.still_page)
                  Scripted.find_a Scripted.html Scripted.start
                = (Normal (mkResult [Scripted.twin_of_a] true "expected to find a"
                                    "expected not to find a"),
                   Scripted.mkWorld 0 [Scripted.mkEvaluation 0 "a" (PInt 2)]))
    by reflexivity.
  destruct (assert_not_match_selector_body_inverts
              (host := Scripted.host Scripted.still_page)
              Scripted.link_a Scripted.find_a _ _ _ _ _ Hparent Hsq)
    as (Hnot & _).
  split; [exact Hparent|]. split; [exact Hsq|].
  apply Hnot. reflexivity.
Defined.

Lemma assert_selector_outcome_was_observed_witness :
  ends_with_an_attempt (host := Scripted.host Scripted.late_page) /\
  SelectorQuery (Host := Scripted.host Scripted.late_page)
    [PStr "css"; PStr "#a"] Scripted.wait_three
    = Normal (Scripted.mkQuery (PStr "css") "#a" Scripted.wait_three) /\
  exists w0 result,
    sq_resolve_for (Host := Scripted.host Scripted.late_page)
      (Scripted.mkQuery (PStr "css") "#a" Scripted.wait_three) Scripted.html w0
    = (Normal result,
       Scripted.mkWorld 2 [Scripted.mkEvaluation 0 "#a" (PInt 3);
                           Scripted.mkEvaluation 0 "#a" (PInt 3);
                           Scripted.mkEvaluation 0 "#a" (PInt 3)]) /\
    result_matches_count result = true /\
    (0 < len result \/
     Scripted.helpers_expects_none Scripted.wait_three = true).
Proof.
  assert (Hquery : SelectorQuery (Host := Scripted.host Scripted.late_page)
                     [PStr "css"; PStr "#a"] Scripted.wait_three
                   = Normal (Scripted.mkQuery (PStr "css") "#a" Scripted.wait_three))
    by (vm_compute; reflexivity).
  destruct (assert_selector_outcome_was_observed
              (host := Scripted.host Scripted.late_page)
              Scripted.html [PStr "css"; PStr "#a"] Scripted.wait_three _
              (scripted_host_ends_with_an_attempt Scripted.late_page) Hquery)
    as (Hreturns & _).
  split; [apply scripted_host_ends_with_an_attempt|].
  split; [exact Hquery|].
  apply (Hreturns Scripted.start _ true). vm_compute. reflexivity.
Defined.

Lemma assert_text_outcome_was_observed_witness :
  ends_with_an_attempt (host := Scripted.host Scripted.still_page) /\
  TextQuery (Host := Scripted.host Scripted.still_page)
    [PStr "hello"] Scripted.no_wait
    = Normal (Scripted.mkQuery (PStr "css") "hello" Scripted.no_wait) /\
  exists w0 count,
    tq_resolve_for (Host := Scripted.host Scripted.still_page)
      (Scripted.mkQuery (PStr "css") "hello" Scripted.no_wait) Scripted.html w0
    = (Normal count,
       Scripted.mkWorld 0 [Scripted.mkEvaluation 0 "hello" (PInt 0)]) /\
    Scripted.helpers_matches_count count Scripted.no_wait = true /\
    ((0 < count)%Z \/ Scripted.helpers_expects_none Scripted.no_wait = true).
Proof.
  assert (Hquery : TextQuery (Host := Scripted.host Scripted.still_page)
                     [PStr "hello"] Scripted.no_wait
                   = Normal (Scripted.mkQuery (PStr "css") "hello" Scripted.no_wait))
    by (vm_compute; reflexivity).
  destruct (assert_text_outcome_was_observed
              (host := Scripted.host Scripted.still_page)
              Scripted.html [PStr "hello"] Scripted.no_wait _
              (scripted_host_ends_with_an_attempt Scripted.still_page) Hquery)
    as (Hreturns & _).
  split; [apply scripted_host_ends_with_an_attempt|].
  split; [exact Hquery|].
  apply (Hreturns Scripted.start _ true). vm_compute. reflexivity.
Defined.
